(** * Elective eligibility and submission-completion aggregation

    A shallow embedding of the route handlers of the academic-administration
    backend that decide elective eligibility, the elective selection life
    cycle, enrolment reconciliation and the submission percentages, together
    with the properties the specification states about them.

    Conventions of the embedding.
    - Identifiers are the store's UUID texts, [Id := string].  A nullable
      column or an optional request field is an [option]; the falsy request
      values of JavaScript ([undefined], [null] and the empty text) are all
      [None], so that the truthiness test [!x] on an identifier is
      [x = None] and [x || null] is the identity.
    - JavaScript numbers are IEEE 754 binary64 values: the percentages are
      computed with the kernel's primitive floats, and [Math.round] is
      modelled exactly on them.
    - The relational store is a record of tables (lists of rows, in storage
      order).  Its single-row fetches follow the client library:
      [maybeSingle] fails on more than one row and [single] fails unless
      there is exactly one.  A failed fetch that a handler throws is the
      response 500.
    - Rows and response bodies keep the columns and fields the handlers
      compute with; names, e-mail addresses and the like are left out. *)

From Stdlib Require Import ZArith Floats Uint63 Lia.
From stdpp Require Import base decidable option list strings sorting gmap.

Local Open Scope string_scope.

(** ** JavaScript fragments used by the handlers *)

Module Js.

(** A non-negative integral number (a length, a counter) as a double.
    Exact below 2^53, which bounds every array length. *)
Definition number (n : nat) : float :=
  PrimFloat.of_uint63 (Uint63.of_Z (Z.of_nat n)).

(** [Math.round]: the nearest integer, ties towards +infinity;
    [None] stands for [NaN] and the infinities. *)
Definition Math_round (x : float) : option Z :=
  match Prim2SF x with
  | S754_zero _ => Some 0%Z
  | S754_finite s m e =>
      let v := if s then Z.neg m else Z.pos m in
      Some (if (0 <=? e)%Z then (v * 2 ^ e)%Z
            else Z.shiftr (Z.shiftr v (- (e + 1)) + 1) 1)
  | _ => None
  end.

(** [Math.round((c / t) * 100)], the expression every percentage of the
    code base is computed with. *)
Definition percentage (c t : nat) : option Z :=
  Math_round (PrimFloat.mul (PrimFloat.div (number c) (number t)) 100%float).

Section Arrays.
Context {A : Type}.

(** [Array.prototype.find]: the first element satisfying the test. *)
Fixpoint find (P : A → Prop) `{!∀ x, Decision (P x)} (l : list A) : option A :=
  match l with
  | [] => None
  | x :: l' => if decide (P x) then Some x else find P l'
  end.

(** [[...new Set(l)]]: duplicates removed, first occurrences kept in
    order. *)
Fixpoint uniq `{!EqDecision A} (l : list A) : list A :=
  match l with
  | [] => []
  | x :: l' => x :: filter (λ y, y ≠ x) (uniq l')
  end.
End Arrays.

(** A [Map] filled by a loop of [map.set(key(row), value(row))]: a later
    row overwrites an earlier one of the same key. *)
Definition rows_to_map {A V} (key : A → string) (value : A → V) (rows : list A)
  : gmap string V :=
  foldl (λ m row, <[key row := value row]> m) ∅ rows.

(** [String.prototype.toLowerCase] on the ASCII letters. *)
Definition lower_ascii (c : Ascii.ascii) : Ascii.ascii :=
  let n := Ascii.nat_of_ascii c in
  if (65 <=? n)%nat && (n <=? 90)%nat then Ascii.ascii_of_nat (n + 32) else c.

Fixpoint toLowerCase (s : string) : string :=
  match s with
  | EmptyString => EmptyString
  | String c s' => String (lower_ascii c) (toLowerCase s')
  end.

(** [String.prototype.includes]. *)
Fixpoint includes (s needle : string) : bool :=
  String.prefix needle s
  || match s with
     | EmptyString => false
     | String _ s' => includes s' needle
     end.

(** [Array.prototype.join]. *)
Fixpoint join (sep : string) (l : list string) : string :=
  match l with
  | [] => ""
  | [x] => x
  | x :: l' => x ++ sep ++ join sep l'
  end.

End Js.

(** ** The relational store *)

Definition Id := string.

Record Student := {
  s_id : Id;
  s_class_id : option Id;
  s_batch_id : option Id;
  s_roll_no : Z;
  s_attendance_percent : option Z;
  s_defaulter : bool
}.

Record Class := {
  c_id : Id;
  c_department_id : option Id;
  c_year : Z
}.

Record Subject := {
  subj_id : Id;
  subj_name : option string;
  subj_code : option string;
  subj_type : option string;
  subj_class_id : option Id
}.

(** faculty_subjects; a row that links a faculty to a batch only has no
    subject. *)
Record SubjectAssignment := {
  fs_faculty_id : Id;
  fs_subject_id : option Id;
  fs_class_id : option Id;
  fs_batch_id : option Id
}.

(** department_offered_subjects *)
Record OfferedSubject := {
  os_subject_id : Id;
  os_department_id : option Id;
  os_year : Z;
  os_semester : option Z;
  os_faculty_ids : option (list Id);
  os_is_active : bool
}.

(** student_subject_selection *)
Record StudentSelection := {
  sel_student_id : Id;
  mdm_id : option Id;
  oe_id : option Id;
  pe_id : option Id;
  mdm_faculty_id : option Id;
  oe_faculty_id : option Id;
  pe_faculty_id : option Id;
  selections_locked : bool
}.

Record SubmissionType := {
  st_id : Id;
  st_name : string
}.

(** student_submissions *)
Record Submission := {
  sub_student_id : Id;
  sub_subject_id : Id;
  sub_submission_type_id : Id;
  sub_status : string
}.

Record User := {
  u_id : Id;
  u_name : string
}.

Record Db := {
  students : list Student;
  classes : list Class;
  subjects : list Subject;
  faculty_subjects : list SubjectAssignment;
  department_offered_subjects : list OfferedSubject;
  student_subject_selection : list StudentSelection;
  submission_types : list SubmissionType;
  student_submissions : list Submission;
  users : list User
}.

(** What a handler sends: [res.status(code).json(body)] with
    [success: true], or with [success: false] and an error text. *)
Inductive Response (A : Type) : Type :=
  | Success (status : Z) (body : A)
  | Failure (status : Z) (error : string).
Arguments Success {A} status body.
Arguments Failure {A} status error.

(** The body of a successful response. *)
Definition body_of {A} (r : Response A) : option A :=
  match r with
  | Success _ body => Some body
  | Failure _ _ => None
  end.

Module Store.

(** [.maybeSingle()]: no row is [null], one row is that row, more rows
    are an error of the client library. *)
Definition maybeSingle {A} (rows : list A) : option (option A) :=
  match rows with
  | [] => Some None
  | [r] => Some (Some r)
  | _ => None
  end.

(** [.single()]: exactly one row, anything else is an error. *)
Definition single {A} (rows : list A) : option A :=
  match rows with
  | [r] => Some r
  | _ => None
  end.

(** [.order('roll_no', { ascending: true })] *)
Definition roll_no_le (a b : Student) : Prop := (s_roll_no a ≤ s_roll_no b)%Z.

#[global] Instance roll_no_le_dec a b : Decision (roll_no_le a b).
Proof. unfold roll_no_le. apply _. Defined.

Definition order_by_roll_no (rows : list Student) : list Student :=
  merge_sort roll_no_le rows.

(** [.eq(column, value)] on a nullable column: SQL equality, never true
    of a null on either side. *)
Definition eq_col (column value : option Id) : Prop :=
  is_Some column ∧ column = value.

#[global] Instance eq_col_dec column value : Decision (eq_col column value).
Proof. unfold eq_col. apply _. Defined.

End Store.

(** ** Per-student completion over the class subjects
    (class-teacher route [GET /students]) *)

Module Completion.

(** [sub.submission_type_id === type?.id] *)
Definition of_type (type : option SubmissionType) (sub : Submission) : Prop :=
  Some (sub_submission_type_id sub) = st_id <$> type.

#[global] Instance of_type_dec type sub : Decision (of_type type sub).
Proof. unfold of_type. apply _. Defined.

(** [x && x.status === 'completed'] for the result [x] of a [find]. *)
Definition completed (x : option Submission) : bool :=
  match x with
  | Some sub => bool_decide (sub_status sub = "completed")
  | None => false
  end.

Definition isSubjectComplete (taType cieType : option SubmissionType)
    (studentSubmissions : list Submission) (subject : Subject) : bool :=
  let subjectSubmissions :=
    filter (λ sub, sub_subject_id sub = subj_id subject) studentSubmissions in
  if decide (subj_type subject = Some "practical") then
    let taSubmission := Js.find (of_type taType) subjectSubmissions in
    completed taSubmission
  else
    let taSubmission := Js.find (of_type taType) subjectSubmissions in
    let cieSubmission := Js.find (of_type cieType) subjectSubmissions in
    completed taSubmission && completed cieSubmission.

Definition taType (submissionTypes : list SubmissionType) : option SubmissionType :=
  Js.find (λ t, st_name t = "TA") submissionTypes.

Definition cieType (submissionTypes : list SubmissionType) : option SubmissionType :=
  Js.find (λ t, st_name t = "CIE") submissionTypes.

(** The counter the [forEach] over the subjects increments. *)
Definition completedSubjects (submissionTypes : list SubmissionType)
    (studentSubmissions : list Submission) (subjects : list Subject) : nat :=
  foldl (λ n subject,
           if isSubjectComplete (taType submissionTypes) (cieType submissionTypes)
                studentSubmissions subject
           then S n else n)
        0%nat subjects.

(** The [submission_percentage] attached to one student row. *)
Definition submission_percentage (subjects : list Subject)
    (submissions : list Submission) (submissionTypes : list SubmissionType)
    (s : Student) : option Z :=
  let totalSubjects := length subjects in
  if decide (totalSubjects = 0%nat) then Some 0%Z
  else
    let studentSubmissions :=
      filter (λ sub, sub_student_id sub = s_id s) submissions in
    Js.percentage (completedSubjects submissionTypes studentSubmissions subjects)
                  totalSubjects.

(** The handler: every student of the caller's class with the
    percentage. *)
Definition get_students (db : Db) (class_id : option Id)
  : Response (list (Student * option Z)) :=
  match class_id with
  | None =>
      Failure 400 "Missing class_id in token. Please ensure your account is assigned to a class."
  | Some classId =>
      let data :=
        Store.order_by_roll_no
          (filter (λ s, s_class_id s = Some classId) (students db)) in
      let studentIds := s_id <$> data in
      let subjects :=
        filter (λ subject, subj_class_id subject = Some classId) (subjects db) in
      let submissions :=
        filter (λ sub, sub_student_id sub ∈ studentIds) (student_submissions db) in
      Success 200
        ((λ s, (s, submission_percentage subjects submissions (submission_types db) s))
           <$> data)
  end.

(** The specification's reading: a submission row of the given type for
    the pair (student, subject) exists and is completed. *)
Definition has_completed_row (submissions : list Submission)
    (type : option SubmissionType) (student subject : Id) : Prop :=
  ∃ sub, sub ∈ submissions
         ∧ sub_student_id sub = student
         ∧ sub_subject_id sub = subject
         ∧ of_type type sub
         ∧ sub_status sub = "completed".

(** The key on which student_submissions is upserted. *)
Definition submission_key (sub : Submission) : Id * Id * Id :=
  (sub_student_id sub, sub_subject_id sub, sub_submission_type_id sub).

(** At most one row per (student, subject, submission type). *)
Definition one_row_per_key (submissions : list Submission) : Prop :=
  NoDup (submission_key <$> submissions).

End Completion.


(** ** The student dashboard (student route [GET /dashboard]) *)

Module Dashboard.

(** The caller as decoded from the token. *)
Record Caller := {
  caller_id : option Id;
  caller_class_id : option Id;
  caller_batch_id : option Id
}.

(** One entry of [subjectsWithSubmissions]. *)
Record SubjectStatus := {
  ss_id : Id;
  ss_code : option string;
  ss_name : option string;
  ss_type : option string;
  ss_cie : string;
  ss_ta : string;
  ss_defaulter : string
}.

Record Body := {
  d_student : Student;
  d_submissionPercentage : option Z;
  d_subjects : list SubjectStatus
}.

(** The class subjects the student sees: every theory subject, and the
    practical subjects assigned to the student's batch or to no batch. *)
Definition visible (facultySubjects : list SubjectAssignment) (batch_id : option Id)
    (subject : Subject) : bool :=
  if decide (subj_type subject = Some "theory") then true
  else if decide (subj_type subject = Some "practical") then
    bool_decide (Exists (λ fs, fs_subject_id fs = Some (subj_id subject)
                               ∧ (fs_batch_id fs = batch_id ∨ fs_batch_id fs = None))
                        facultySubjects)
  else false.

(** [electiveSubjectIds]: the selected subjects, MDM, OE, PE in turn. *)
Definition electiveSubjectIds (studentSelections : option StudentSelection) : list Id :=
  match studentSelections with
  | Some sel =>
      (from_option (λ i, [i]) [] (mdm_id sel)
       ++ from_option (λ i, [i]) [] (oe_id sel)
       ++ from_option (λ i, [i]) [] (pe_id sel))%list
  | None => []
  end.

(** The [forEach] that pushes each selected elective not yet listed. *)
Definition add_electives (studentClassId : Id) (electiveSubjects subjects : list Subject)
  : list Subject :=
  foldl (λ subjects elective,
           match Js.find (λ s, subj_id s = subj_id elective) subjects with
           | Some _ => subjects
           | None =>
               (subjects ++ [ {| subj_id := subj_id elective;
                                 subj_name := subj_name elective;
                                 subj_code := subj_code elective;
                                 subj_type := subj_type elective;
                                 subj_class_id := Some studentClassId |} ])%list
           end)
        subjects electiveSubjects.

(** [typeMap]: submission type id to name, later rows overwrite. *)
Definition typeMap (submissionTypes : list SubmissionType) : gmap Id string :=
  Js.rows_to_map st_id st_name submissionTypes.

Definition initial_submissionMap : gmap string string :=
  <["Defaulter work" := "pending"]> (<["TA" := "pending"]> (<["CIE" := "pending"]> ∅)).

(** One step of the [forEach] over the subject's rows: the status is
    recorded under the type name when the type resolves. *)
Definition record_status (types : gmap Id string) (m : gmap string string)
    (sub : Submission) : gmap string string :=
  match types !! sub_submission_type_id sub with
  | Some typeName => if decide (typeName = "") then m
                     else <[typeName := sub_status sub]> m
  | None => m
  end.

(** [submissionMap] after the [forEach]. *)
Definition submissionMap (types : gmap Id string) (subjectSubmissions : list Submission)
  : gmap string string :=
  foldl (record_status types) initial_submissionMap subjectSubmissions.

Definition subjectsWithSubmissions (subjects : list Subject)
    (submissions : list Submission) (submissionTypes : list SubmissionType)
  : list SubjectStatus :=
  (λ subject,
     let subjectSubmissions :=
       filter (λ s, sub_subject_id s = subj_id subject) submissions in
     let m := submissionMap (typeMap submissionTypes) subjectSubmissions in
     {| ss_id := subj_id subject;
        ss_code := subj_code subject;
        ss_name := subj_name subject;
        ss_type := subj_type subject;
        ss_cie := m !!! "CIE";
        ss_ta := m !!! "TA";
        ss_defaulter := m !!! "Defaulter work" |}) <$> subjects.

Definition one_if_completed (status : string) : nat :=
  if decide (status = "completed") then 1%nat else 0%nat.

(** The [reduce] that counts the completed submissions. *)
Definition completedSubmissions (isDefaulter : bool) (l : list SubjectStatus) : nat :=
  foldl (λ count subject,
           let subjectCompleted := (one_if_completed (ss_cie subject)
                                    + one_if_completed (ss_ta subject))%nat in
           let subjectCompleted :=
             if isDefaulter
             then (subjectCompleted + one_if_completed (ss_defaulter subject))%nat
             else subjectCompleted in
           (count + subjectCompleted)%nat)
        0%nat l.

Definition submissionPercentage (isDefaulter : bool) (l : list SubjectStatus) : option Z :=
  let submissionsPerSubject := if isDefaulter then 3%nat else 2%nat in
  let totalSubmissions := (length l * submissionsPerSubject)%nat in
  if decide (0 < totalSubmissions)%nat
  then Js.percentage (completedSubmissions isDefaulter l) totalSubmissions
  else Some 0%Z.

(** The subjects listed for the student: the visible class subjects, then
    the selected electives. *)
Definition dashboard_subjects (db : Db) (student_id studentClassId : Id)
    (batch_id : option Id) (studentSelections : option StudentSelection)
  : list Subject :=
  let allSubjects :=
    filter (λ s, subj_class_id s = Some studentClassId) (subjects db) in
  let facultySubjects :=
    filter (λ fs, fs_class_id fs = Some studentClassId) (faculty_subjects db) in
  let subjects0 :=
    filter (λ s, visible facultySubjects batch_id s = true) allSubjects in
  let ids := electiveSubjectIds studentSelections in
  match ids with
  | [] => subjects0
  | _ => add_electives studentClassId
           (filter (λ s, subj_id s ∈ ids) (subjects db)) subjects0
  end.

Definition get_dashboard (db : Db) (user : Caller) : Response Body :=
  match caller_id user with
  | None => Failure 400 "Missing student_id in token"
  | Some student_id =>
      match Store.maybeSingle (filter (λ s, s_id s = student_id) (students db)) with
      | None => Failure 500 "store error"
      | Some None => Failure 404 "Student not found"
      | Some (Some student) =>
          match from_option Some (caller_class_id user) (s_class_id student) with
          | None =>
              Failure 400 "You are not assigned to a class yet. Please contact your administrator."
          | Some studentClassId =>
              match Store.maybeSingle
                      (filter (λ sel, sel_student_id sel = student_id)
                              (student_subject_selection db)) with
              | None => Failure 500 "store error"
              | Some studentSelections =>
                  let subjects :=
                    dashboard_subjects db student_id studentClassId
                                       (caller_batch_id user) studentSelections in
                  let submissions :=
                    filter (λ sub, sub_student_id sub = student_id)
                           (student_submissions db) in
                  let l := subjectsWithSubmissions subjects submissions
                                                   (submission_types db) in
                  Success 200
                    {| d_student := student;
                       d_submissionPercentage :=
                         submissionPercentage (s_defaulter student) l;
                       d_subjects := l |}
              end
          end
      end
  end.

(** The specification's reading of the count.  A row is of the type
    named [name] when a submission type of that name has its type id. *)
Definition named (submissionTypes : list SubmissionType) (name : string)
    (sub : Submission) : Prop :=
  ∃ t, t ∈ submissionTypes ∧ st_id t = sub_submission_type_id sub ∧ st_name t = name.

Definition has_completed (submissionTypes : list SubmissionType)
    (submissions : list Submission) (name : string) (subject : Id) : Prop :=
  ∃ sub, sub ∈ submissions
         ∧ sub_subject_id sub = subject
         ∧ named submissionTypes name sub
         ∧ sub_status sub = "completed".

#[global] Instance named_dec ts name sub : Decision (named ts name sub).
Proof.
  refine (cast_if (decide (Exists (λ t, st_id t = sub_submission_type_id sub
                                        ∧ st_name t = name) ts)));
    unfold named; rewrite Exists_exists in *; naive_solver.
Defined.

#[global] Instance has_completed_dec ts subs name subject :
  Decision (has_completed ts subs name subject).
Proof.
  refine (cast_if (decide (Exists (λ sub, sub_subject_id sub = subject
                                          ∧ named ts name sub
                                          ∧ sub_status sub = "completed") subs)));
    unfold has_completed; rewrite Exists_exists in *; naive_solver.
Defined.

Definition count_if (P : Prop) `{!Decision P} : nat := if decide P then 1%nat else 0%nat.

(** The completed submissions as the specification counts them: per
    subject the completed TA and the completed CIE, and the completed
    Defaulter work for a defaulter only. *)
Definition spec_completed (isDefaulter : bool) (submissionTypes : list SubmissionType)
    (submissions : list Submission) (subjects : list Id) : nat :=
  sum_list
    ((λ subject,
        count_if (has_completed submissionTypes submissions "TA" subject)
        + count_if (has_completed submissionTypes submissions "CIE" subject)
        + (if isDefaulter
           then count_if (has_completed submissionTypes submissions "Defaulter work" subject)
           else 0))%nat <$> subjects).

(** The storage constraints the data model states: submission types have
    unique ids and unique names, and student_submissions holds at most one
    row per (student, subject, submission type). *)
Definition store_keys_unique (db : Db) : Prop :=
  NoDup (st_id <$> submission_types db)
  ∧ NoDup (st_name <$> submission_types db)
  ∧ Completion.one_row_per_key (student_submissions db).

End Dashboard.


(** ** Class, department and year rollups
    (routes [GET /dashboard-statistics], [GET /department-statistics] and
    [GET /year-statistics]) *)

Module Rollup.

(** The set the three rollups build with the same loop: the students
    with some completed row of type TA or CIE. *)
Definition studentsWithSubmissions (taType cieType : option SubmissionType)
    (submissions : list Submission) : gset Id :=
  foldl (λ set sub,
           if decide (sub_status sub = "completed"
                      ∧ (Completion.of_type taType sub ∨ Completion.of_type cieType sub))
           then {[ sub_student_id sub ]} ∪ set
           else set)
        ∅ submissions.

(** [studentSubmissionMap]: per student, the last status seen per
    submission type (whatever the subject). *)
Definition studentSubmissionMap (submissions : list Submission) : gmap Id (gmap Id string) :=
  foldl (λ m sub,
           let inner := default ∅ (m !! sub_student_id sub) in
           <[sub_student_id sub := <[sub_submission_type_id sub := sub_status sub]> inner]> m)
        ∅ submissions.

(** [subs[type?.id] === 'completed'] *)
Definition status_is_completed (subs : gmap Id string) (type : option SubmissionType) : Prop :=
  (type ≫= λ t, subs !! st_id t) = Some "completed".

#[global] Instance status_is_completed_dec subs type : Decision (status_is_completed subs type).
Proof. unfold status_is_completed. apply _. Defined.

Definition studentsWithBothCompleted (taType cieType : option SubmissionType)
    (m : gmap Id (gmap Id string)) : nat :=
  length (filter (λ kv, status_is_completed kv.2 taType ∧ status_is_completed kv.2 cieType)
                 (map_to_list m)).

Definition defaulterStudentsWithWork (defaulterType : option SubmissionType)
    (defaulterStudentIds : list Id) (submissions : list Submission) : gset Id :=
  foldl (λ set sub,
           if decide (Completion.of_type defaulterType sub
                      ∧ sub_status sub = "completed"
                      ∧ sub_student_id sub ∈ defaulterStudentIds)
           then {[ sub_student_id sub ]} ∪ set
           else set)
        ∅ submissions.

Record Statistics := {
  overallSubmission : option Z;
  submissionMarked : option Z;
  defaulterWorkSubmitted : option Z;
  totalStudents : nat;
  defaulterCount : nat
}.

(** [.in('student_id', studentIds)] on student_submissions. *)
Definition submissions_of (db : Db) (studentIds : list Id) : list Submission :=
  filter (λ sub, sub_student_id sub ∈ studentIds) (student_submissions db).

(** The class rollup. *)
Definition get_dashboard_statistics (db : Db) (class_id : option Id) : Response Statistics :=
  match class_id with
  | None => Failure 400 "Class ID not found in token"
  | Some class_id =>
      let students := filter (λ s, s_class_id s = Some class_id) (students db) in
      let totalStudents := length students in
      let defaulterStudents := length (filter (λ s, s_defaulter s = true) students) in
      if decide (totalStudents = 0%nat) then
        Success 200 {| overallSubmission := Some 0%Z; submissionMarked := Some 0%Z;
                       defaulterWorkSubmitted := Some 0%Z;
                       totalStudents := 0; defaulterCount := 0 |}
      else
        let studentIds := s_id <$> students in
        let submissions := submissions_of db studentIds in
        let submissionTypes := submission_types db in
        let taType := Completion.taType submissionTypes in
        let cieType := Completion.cieType submissionTypes in
        let defaulterType := Js.find (λ t, st_name t = "Defaulter work") submissionTypes in
        let withSubmissions := studentsWithSubmissions taType cieType submissions in
        let bothCompleted :=
          studentsWithBothCompleted taType cieType (studentSubmissionMap submissions) in
        let defaulterStudentIds := s_id <$> filter (λ s, s_defaulter s = true) students in
        let withWork := defaulterStudentsWithWork defaulterType defaulterStudentIds submissions in
        Success 200
          {| overallSubmission := Js.percentage (size withSubmissions) totalStudents;
             submissionMarked := Js.percentage bothCompleted totalStudents;
             defaulterWorkSubmitted :=
               if decide (0 < defaulterStudents)%nat
               then Js.percentage (size withWork) defaulterStudents
               else Some 0%Z;
             totalStudents := totalStudents;
             defaulterCount := defaulterStudents |}
  end.

(** The fields the department and the year rollup have in common. *)
Record ScopeStatistics := {
  percentage : option Z;
  scope_totalStudents : nat;
  completedStudents : nat;
  classCount : nat
}.

(** The body shared by the department and the year rollup once the class
    ids of the scope are known: [.in('class_id', classIds)] on students,
    then the same loop. *)
Definition scope_statistics (db : Db) (classIds : list Id) : ScopeStatistics :=
  let students := filter (λ s, s_class_id s ∈ Some <$> classIds) (students db) in
  let totalStudents := length students in
  if decide (totalStudents = 0%nat) then
    {| percentage := Some 0%Z; scope_totalStudents := 0; completedStudents := 0;
       classCount := length classIds |}
  else
    let studentIds := s_id <$> students in
    let submissions := submissions_of db studentIds in
    let submissionTypes := submission_types db in
    let taType := Completion.taType submissionTypes in
    let cieType := Completion.cieType submissionTypes in
    let withSubmissions := studentsWithSubmissions taType cieType submissions in
    {| percentage := Js.percentage (size withSubmissions) totalStudents;
       scope_totalStudents := totalStudents;
       completedStudents := size withSubmissions;
       classCount := length classIds |}.

(** The department rollup, for one department of the director's list. *)
Definition department_statistics (db : Db) (dept : Id) : ScopeStatistics :=
  let classes := filter (λ c, c_department_id c = Some dept) (classes db) in
  let classIds := c_id <$> classes in
  match classIds with
  | [] => {| percentage := Some 0%Z; scope_totalStudents := 0; completedStudents := 0;
             classCount := 0 |}
  | _ => scope_statistics db classIds
  end.

(** [yearGroups]: the class ids of the department per year, years in
    ascending order. *)
Definition yearGroups (db : Db) (department_id : Id) : list (Z * list Id) :=
  let years :=
    merge_sort Z.le
      (c_year <$> filter (λ c, c_department_id c = Some department_id) (classes db)) in
  (λ year,
     (year, c_id <$> filter (λ c, c_department_id c = Some department_id ∧ c_year c = year)
                            (classes db)))
    <$> Js.uniq years.

(** The year rollup of the caller's department. *)
Definition get_year_statistics (db : Db) (department_id : option Id)
  : Response (list (Z * ScopeStatistics)) :=
  match department_id with
  | None => Failure 400 "Department ID not found in token"
  | Some department_id =>
      Success 200 ((λ g, (g.1, scope_statistics db g.2)) <$> yearGroups db department_id)
  end.

(** The students in scope that satisfy the amended numerator: some row
    of type TA or CIE is completed. *)
Definition has_completed_ta_or_cie (db : Db) (s : Student) : Prop :=
  ∃ sub, sub ∈ student_submissions db
         ∧ sub_student_id sub = s_id s
         ∧ sub_status sub = "completed"
         ∧ (Completion.of_type (Completion.taType (submission_types db)) sub
            ∨ Completion.of_type (Completion.cieType (submission_types db)) sub).

#[global] Instance has_completed_ta_or_cie_dec db s : Decision (has_completed_ta_or_cie db s).
Proof.
  refine (cast_if (decide (Exists
    (λ sub, sub_student_id sub = s_id s
            ∧ sub_status sub = "completed"
            ∧ (Completion.of_type (Completion.taType (submission_types db)) sub
               ∨ Completion.of_type (Completion.cieType (submission_types db)) sub))
    (student_submissions db))));
    unfold has_completed_ta_or_cie; rewrite Exists_exists in *; naive_solver.
Defined.

(** The numerator as the specification states it: both a completed TA
    row and a completed CIE row. *)
Definition has_completed_of (db : Db) (type : option SubmissionType) (s : Student) : Prop :=
  Exists (λ sub, sub_student_id sub = s_id s
                 ∧ sub_status sub = "completed"
                 ∧ Completion.of_type type sub)
         (student_submissions db).

Definition has_completed_ta_and_cie (db : Db) (s : Student) : Prop :=
  has_completed_of db (Completion.taType (submission_types db)) s
  ∧ has_completed_of db (Completion.cieType (submission_types db)) s.

#[global] Instance has_completed_ta_and_cie_dec db s : Decision (has_completed_ta_and_cie db s).
Proof. unfold has_completed_ta_and_cie, has_completed_of. apply _. Defined.

(** The students of a scope given by class ids. *)
Definition scope_students (db : Db) (classIds : list Id) : list Student :=
  filter (λ s, s_class_id s ∈ Some <$> classIds) (students db).

(** The rollup as amended: 0 for an empty scope, otherwise
    [Math.round((c / t) × 100)] with [t] the students in scope and [c]
    those of them with some completed TA or CIE row. *)
Definition amended_percentage (db : Db) (scope : list Student) : option Z :=
  if decide (length scope = 0%nat) then Some 0%Z
  else Js.percentage (length (filter (has_completed_ta_or_cie db) scope)) (length scope).

(** [round(100 × c / t)] as the specification writes it. *)
Definition stated_percentage (c t : nat) : option Z :=
  Js.Math_round (PrimFloat.div (PrimFloat.mul 100%float (Js.number c)) (Js.number t)).

End Rollup.


(** ** Elective eligibility
    (student route [GET /elective-subjects] and class-teacher route
    [GET /elective-subjects/:studentId]) *)

Module Electives.

(** An offered row with its joined subject ([offered.subjects]). *)
Record Offered := {
  offered_row : OfferedSubject;
  offered_subject : option Subject
}.

Record FacultyOption := {
  fo_id : Id;
  fo_name : string
}.

(** [subjectData] *)
Record SubjectData := {
  sd_id : Id;
  sd_code : option string;
  sd_name : option string;
  sd_semester : option Z;
  sd_faculties : list FacultyOption
}.

Record Buckets := {
  mdm : list SubjectData;
  oe : list SubjectData;
  pe : list SubjectData
}.

Definition empty_buckets : Buckets := {| mdm := []; oe := []; pe := [] |}.

(** The active offered rows of a year, each with its subject. *)
Definition offeredSubjects (db : Db) (year : Z) : list Offered :=
  (λ row, {| offered_row := row;
             offered_subject := Js.find (λ s, subj_id s = os_subject_id row) (subjects db) |})
    <$> filter (λ row, os_year row = year ∧ os_is_active row = true)
               (department_offered_subjects db).

(** [facultyMap]: the names of the faculty of all offered rows. *)
Definition facultyMap (db : Db) (offered : list Offered) : gmap Id string :=
  let allFacultyIds :=
    Js.uniq (offered ≫= λ os, default [] (os_faculty_ids (offered_row os))) in
  let faculties := filter (λ u, u_id u ∈ allFacultyIds) (users db) in
  Js.rows_to_map u_id u_name faculties.

(** [facultyMap.get(fId) || 'Unknown Faculty'] *)
Definition facultyOptions (names : gmap Id string) (row : OfferedSubject) : list FacultyOption :=
  (λ fId, {| fo_id := fId;
             fo_name := match names !! fId with
                        | Some name => if decide (name = "") then "Unknown Faculty" else name
                        | None => "Unknown Faculty"
                        end |})
    <$> default [] (os_faculty_ids row).

Definition lower (s : option string) : string := Js.toLowerCase (default "" s).

(** One step of the student route's [forEach]. *)
Definition categorize (year : Z) (department_id : option Id) (names : gmap Id string)
    (electiveSubjects : Buckets) (offered : Offered) : Buckets :=
  match offered_subject offered with
  | None => electiveSubjects
  | Some subject =>
      let subjectData :=
        {| sd_id := subj_id subject;
           sd_code := subj_code subject;
           sd_name := subj_name subject;
           sd_semester := os_semester (offered_row offered);
           sd_faculties := facultyOptions names (offered_row offered) |} in
      let subjectType := lower (subj_type subject) in
      let subjectName := lower (subj_name subject) in
      if bool_decide (year = 2 ∨ year = 3)%Z
         && (bool_decide (subjectType = "mdm")
             || Js.includes subjectName "multidisciplinary"
             || Js.includes subjectName "mdm")
      then {| mdm := mdm electiveSubjects ++ [subjectData];
              oe := oe electiveSubjects; pe := pe electiveSubjects |}
      else if bool_decide (year = 2 ∨ year = 3 ∨ year = 4)%Z
              && (bool_decide (subjectType = "oe")
                  || Js.includes subjectName "open elective"
                  || Js.includes subjectName "oe")
      then {| mdm := mdm electiveSubjects;
              oe := oe electiveSubjects ++ [subjectData]; pe := pe electiveSubjects |}
      else if bool_decide (year = 3 ∨ year = 4)%Z
              && (bool_decide (subjectType = "pe")
                  || Js.includes subjectName "professional elective"
                  || Js.includes subjectName "pe")
      then
        if decide (os_department_id (offered_row offered) = department_id)
        then {| mdm := mdm electiveSubjects; oe := oe electiveSubjects;
                pe := pe electiveSubjects ++ [subjectData] |}
        else electiveSubjects
      else electiveSubjects
  end.

Record Body := {
  electives : Buckets;
  currentSelections : option StudentSelection
}.

(** The student route. *)
Definition get_elective_subjects (db : Db) (student_id : Id) (class_id : option Id)
  : Response Body :=
  match Store.maybeSingle (filter (λ c, Some (c_id c) = class_id) (classes db)) with
  | None => Failure 500 "store error"
  | Some None => Failure 404 "Class not found"
  | Some (Some classInfo) =>
      let year := c_year classInfo in
      let department_id := c_department_id classInfo in
      let offered := offeredSubjects db year in
      let names := facultyMap db offered in
      match Store.maybeSingle (filter (λ sel, sel_student_id sel = student_id)
                                      (student_subject_selection db)) with
      | None => Failure 500 "store error"
      | Some currentSelections =>
          Success 200
            {| electives := foldl (categorize year department_id names) empty_buckets offered;
               currentSelections := currentSelections |}
      end
  end.

(** One step of the class-teacher route's [forEach]: no test on the
    year, and the type or the long name only. *)
Definition categorize_for_teacher (department_id : option Id) (names : gmap Id string)
    (electiveSubjects : Buckets) (offered : Offered) : Buckets :=
  match offered_subject offered with
  | None => electiveSubjects
  | Some subject =>
      let subjectData :=
        {| sd_id := subj_id subject;
           sd_code := subj_code subject;
           sd_name := subj_name subject;
           sd_semester := None;
           sd_faculties := facultyOptions names (offered_row offered) |} in
      let subjectType := lower (subj_type subject) in
      let subjectName := lower (subj_name subject) in
      if bool_decide (subjectType = "mdm") || Js.includes subjectName "multidisciplinary"
      then {| mdm := mdm electiveSubjects ++ [subjectData];
              oe := oe electiveSubjects; pe := pe electiveSubjects |}
      else if bool_decide (subjectType = "oe") || Js.includes subjectName "open elective"
      then {| mdm := mdm electiveSubjects;
              oe := oe electiveSubjects ++ [subjectData]; pe := pe electiveSubjects |}
      else if bool_decide (subjectType = "pe") || Js.includes subjectName "professional elective"
      then
        if decide (os_department_id (offered_row offered) = department_id)
        then {| mdm := mdm electiveSubjects; oe := oe electiveSubjects;
                pe := pe electiveSubjects ++ [subjectData] |}
        else electiveSubjects
      else electiveSubjects
  end.

(** The class-teacher route, for a student of the teacher's class. *)
Definition get_elective_subjects_of_student (db : Db) (class_id : option Id) (studentId : Id)
  : Response Body :=
  match Store.single (filter (λ s, s_id s = studentId) (students db)) with
  | None => Failure 404 "Student not found"
  | Some student =>
      if decide (class_id = None ∨ s_class_id student ≠ class_id)
      then Failure 403 "You can only view students in your class"
      else
        match Store.single (filter (λ c, Some (c_id c) = class_id) (classes db)) with
        | None => Failure 500 "store error"
        | Some classInfo =>
            let offered := offeredSubjects db (c_year classInfo) in
            let names := facultyMap db offered in
            match Store.maybeSingle (filter (λ sel, sel_student_id sel = studentId)
                                            (student_subject_selection db)) with
            | None => Failure 500 "store error"
            | Some currentSelections =>
                Success 200
                  {| electives :=
                       foldl (categorize_for_teacher (c_department_id classInfo) names)
                             empty_buckets offered;
                     currentSelections := currentSelections |}
            end
        end
  end.

(** The class the routes read the year and the department from. *)
Definition class_of (db : Db) (class_id : option Id) (c : Class) : Prop :=
  c ∈ classes db ∧ Some (c_id c) = class_id.

(** A row of the PE bucket stems from an active offered row of the
    class's year and department. *)
Definition from_department (db : Db) (year : Z) (department_id : option Id)
    (entry : SubjectData) : Prop :=
  ∃ row, row ∈ department_offered_subjects db
         ∧ os_subject_id row = sd_id entry
         ∧ os_year row = year
         ∧ os_is_active row = true
         ∧ os_department_id row = department_id.

End Electives.


(** ** The elective selection life cycle
    (student routes [POST /select-elective] and [POST /lock-selections],
    class-teacher routes [PUT /student/:id] and
    [PUT /unlock-student-selections/:studentId]) *)

Module Selection.

Definition with_selections (db : Db) (rows : list StudentSelection) : Db :=
  {| students := students db; classes := classes db; subjects := subjects db;
     faculty_subjects := faculty_subjects db;
     department_offered_subjects := department_offered_subjects db;
     student_subject_selection := rows;
     submission_types := submission_types db;
     student_submissions := student_submissions db;
     users := users db |}.

Definition with_students (db : Db) (rows : list Student) : Db :=
  {| students := rows; classes := classes db; subjects := subjects db;
     faculty_subjects := faculty_subjects db;
     department_offered_subjects := department_offered_subjects db;
     student_subject_selection := student_subject_selection db;
     submission_types := submission_types db;
     student_submissions := student_submissions db;
     users := users db |}.

(** [.update(f).eq("student_id", student_id)] on student_subject_selection *)
Definition update_selection (db : Db) (student_id : Id)
    (f : StudentSelection → StudentSelection) : Db :=
  with_selections db
    ((λ row, if decide (sel_student_id row = student_id) then f row else row)
       <$> student_subject_selection db).

(** [.insert([row])] on student_subject_selection *)
Definition insert_selection (db : Db) (row : StudentSelection) : Db :=
  with_selections db (student_subject_selection db ++ [row]).

Definition selection_of (db : Db) (student_id : Id) : list StudentSelection :=
  filter (λ row, sel_student_id row = student_id) (student_subject_selection db).

(** The rows of faculty_subjects that link the faculty to the subject. *)
Definition links (db : Db) (faculty_id subject_id : Id) : list SubjectAssignment :=
  filter (λ fs, fs_subject_id fs = Some subject_id ∧ fs_faculty_id fs = faculty_id)
         (faculty_subjects db).

(** [updateData] written over a row, by category. *)
Definition set_category (type : string) (subject_id faculty_id : Id)
    (row : StudentSelection) : StudentSelection :=
  if decide (type = "MDM") then
    {| sel_student_id := sel_student_id row;
       mdm_id := Some subject_id; oe_id := oe_id row; pe_id := pe_id row;
       mdm_faculty_id := Some faculty_id; oe_faculty_id := oe_faculty_id row;
       pe_faculty_id := pe_faculty_id row;
       selections_locked := selections_locked row |}
  else if decide (type = "OE") then
    {| sel_student_id := sel_student_id row;
       mdm_id := mdm_id row; oe_id := Some subject_id; pe_id := pe_id row;
       mdm_faculty_id := mdm_faculty_id row; oe_faculty_id := Some faculty_id;
       pe_faculty_id := pe_faculty_id row;
       selections_locked := selections_locked row |}
  else if decide (type = "PE") then
    {| sel_student_id := sel_student_id row;
       mdm_id := mdm_id row; oe_id := oe_id row; pe_id := Some subject_id;
       mdm_faculty_id := mdm_faculty_id row; oe_faculty_id := oe_faculty_id row;
       pe_faculty_id := Some faculty_id;
       selections_locked := selections_locked row |}
  else row.

(** The row an insert creates before [updateData] is spread over it:
    every column null, unlocked. *)
Definition blank_selection (student_id : Id) : StudentSelection :=
  {| sel_student_id := student_id;
     mdm_id := None; oe_id := None; pe_id := None;
     mdm_faculty_id := None; oe_faculty_id := None; pe_faculty_id := None;
     selections_locked := false |}.

Record SelectRequest := {
  req_subject_id : option Id;
  req_faculty_id : option Id;
  req_type : option string
}.

(** [existing && existing.selections_locked] *)
Definition is_locked (existing : option StudentSelection) : bool :=
  match existing with
  | Some row => selections_locked row
  | None => false
  end.

(** [POST /select-elective]: the store afterwards and the response. *)
Definition select_elective (db : Db) (student_id : Id) (body : SelectRequest)
  : Db * Response string :=
  match req_subject_id body, req_faculty_id body, req_type body with
  | Some subject_id, Some faculty_id, Some type =>
      if decide (type ∈ ["MDM"; "OE"; "PE"]) then
        match Store.maybeSingle (selection_of db student_id) with
        | None => (db, Failure 500 "store error")
        | Some existing =>
            if is_locked existing then
              (db, Failure 403
                     "Your subject selections are locked. Contact your class teacher to make changes.")
            else
              match Store.maybeSingle (links db faculty_id subject_id) with
              | Some (Some facultySubject) =>
                  match existing with
                  | Some _ =>
                      (update_selection db student_id (set_category type subject_id faculty_id),
                       Success 200 (type ++ " subject selection updated successfully."))
                  | None =>
                      (insert_selection db
                         (set_category type subject_id faculty_id (blank_selection student_id)),
                       Success 201 (type ++ " subject selected successfully."))
                  end
              | _ => (db, Failure 400 "Selected faculty does not teach the given subject.")
              end
        end
      else (db, Failure 400 "Invalid type. Must be one of: MDM, OE, or PE.")
  | _, _, _ => (db, Failure 400 "subject_id, faculty_id, and type are required.")
  end.

(** [missingSubjects], in the order the checks push. *)
Definition missingSubjects (classYear : Z) (selections : StudentSelection) : list string :=
  let missing (column : option Id) (name : string) : list string :=
    match column with None => [name] | Some _ => [] end in
  if decide (classYear = 2)%Z then
    missing (oe_id selections) "OE" ++ missing (mdm_id selections) "MDM"
  else if decide (classYear = 3)%Z then
    missing (oe_id selections) "OE" ++ missing (mdm_id selections) "MDM"
    ++ missing (pe_id selections) "PE"
  else if decide (classYear = 4)%Z then
    missing (oe_id selections) "OE" ++ missing (pe_id selections) "PE"
  else [].

Definition lock (row : StudentSelection) : StudentSelection :=
  {| sel_student_id := sel_student_id row;
     mdm_id := mdm_id row; oe_id := oe_id row; pe_id := pe_id row;
     mdm_faculty_id := mdm_faculty_id row; oe_faculty_id := oe_faculty_id row;
     pe_faculty_id := pe_faculty_id row;
     selections_locked := true |}.

Definition unlock (row : StudentSelection) : StudentSelection :=
  {| sel_student_id := sel_student_id row;
     mdm_id := mdm_id row; oe_id := oe_id row; pe_id := pe_id row;
     mdm_faculty_id := mdm_faculty_id row; oe_faculty_id := oe_faculty_id row;
     pe_faculty_id := pe_faculty_id row;
     selections_locked := false |}.

(** [classInfo?.year || 1] *)
Definition classYear (classInfo : option Class) : Z :=
  match classInfo with
  | Some c => if decide (c_year c = 0)%Z then 1%Z else c_year c
  | None => 1%Z
  end.

Definition incomplete_message (missing : list string) : string :=
  "Please select all required elective subjects (" ++ Js.join ", " missing
  ++ ") before locking.".

(** [POST /lock-selections] *)
Definition lock_selections (db : Db) (student_id : Id) (class_id : option Id)
  : Db * Response string :=
  match Store.maybeSingle (filter (λ c, Some (c_id c) = class_id) (classes db)) with
  | None => (db, Failure 500 "store error")
  | Some classInfo =>
      match Store.maybeSingle (selection_of db student_id) with
      | None => (db, Failure 500 "store error")
      | Some None =>
          (db, Failure 400
                 "No elective selections found. Please select your elective subjects first.")
      | Some (Some selections) =>
          match missingSubjects (classYear classInfo) selections with
          | [] =>
              (update_selection db student_id lock,
               Success 200 "Your elective selections have been locked successfully.")
          | missing => (db, Failure 400 (incomplete_message missing))
          end
      end
  end.

(** [electiveSelections] of the class-teacher's update. *)
Record ElectiveSelections := {
  es_mdm_id : option Id;
  es_oe_id : option Id;
  es_pe_id : option Id;
  es_mdm_faculty_id : option Id;
  es_oe_faculty_id : option Id;
  es_pe_faculty_id : option Id
}.

(** The body of the class-teacher's update.  For the columns of the
    student row, [None] is an absent field (left as stored) and
    [Some v] a field sent with the value [v]. *)
Record UpdateRequest := {
  upd_roll_no : option Z;
  upd_batch_id : option (option Id);
  upd_attendance_percent : option (option Z);
  upd_defaulter : option bool;
  upd_electiveSelections : option ElectiveSelections
}.

(** [typeof defaulter === "boolean" ? defaulter : Number(attendance_percent) < 75] *)
Definition finalDefaulter (body : UpdateRequest) : bool :=
  match upd_defaulter body with
  | Some b => b
  | None =>
      match upd_attendance_percent body with
      | None => false
      | Some None => true
      | Some (Some a) => bool_decide (a < 75)%Z
      end
  end.

Definition update_student_row (body : UpdateRequest) (s : Student) : Student :=
  {| s_id := s_id s;
     s_class_id := s_class_id s;
     s_batch_id := default (s_batch_id s) (upd_batch_id body);
     s_roll_no := default (s_roll_no s) (upd_roll_no body);
     s_attendance_percent := default (s_attendance_percent s) (upd_attendance_percent body);
     s_defaulter := finalDefaulter body |}.

(** [selectionsData] written over a row. *)
Definition overwrite (es : ElectiveSelections) (row : StudentSelection) : StudentSelection :=
  {| sel_student_id := sel_student_id row;
     mdm_id := es_mdm_id es; oe_id := es_oe_id es; pe_id := es_pe_id es;
     mdm_faculty_id := es_mdm_faculty_id es; oe_faculty_id := es_oe_faculty_id es;
     pe_faculty_id := es_pe_faculty_id es;
     selections_locked := selections_locked row |}.

(** [PUT /student/:id] *)
Definition update_student (db : Db) (class_id : option Id) (id : Id) (body : UpdateRequest)
  : Db * Response string :=
  match class_id with
  | None => (db, Failure 400 "Missing student ID or class ID")
  | Some classId =>
      match Store.single (filter (λ s, s_id s = id) (students db)) with
      | None => (db, Failure 404 "Student not found")
      | Some student =>
          if decide (s_class_id student ≠ Some classId) then
            (db, Failure 403 "Unauthorized to edit this student")
          else
            let db1 :=
              with_students db
                ((λ s, if decide (s_id s = id) then update_student_row body s else s)
                   <$> students db) in
            match upd_electiveSelections body with
            | None => (db1, Success 200 "Student updated successfully")
            | Some es =>
                match Store.maybeSingle (selection_of db1 id) with
                | None => (db1, Failure 500 "store error")
                | Some (Some existing) =>
                    (update_selection db1 id (overwrite es),
                     Success 200 "Student updated successfully")
                | Some None =>
                    (insert_selection db1 (overwrite es (blank_selection id)),
                     Success 200 "Student updated successfully")
                end
            end
      end
  end.

(** [PUT /unlock-student-selections/:studentId] *)
Definition unlock_student_selections (db : Db) (class_id : option Id) (studentId : Id)
  : Db * Response string :=
  match Store.single (filter (λ s, s_id s = studentId) (students db)) with
  | None => (db, Failure 404 "Student not found")
  | Some student =>
      if decide (class_id = None ∨ s_class_id student ≠ class_id) then
        (db, Failure 403 "You can only unlock selections for students in your class")
      else
        (update_selection db studentId unlock,
         Success 200 "Student's elective selections have been unlocked")
  end.

(** *** The pairing-and-validity invariant of the data model *)

(** The faculty has a SubjectAssignment or an OfferedSubject entry for
    the subject. *)
Definition teaches (db : Db) (faculty_id subject_id : Id) : Prop :=
  (∃ fs, fs ∈ faculty_subjects db
         ∧ fs_faculty_id fs = faculty_id ∧ fs_subject_id fs = Some subject_id)
  ∨ (∃ os, os ∈ department_offered_subjects db
           ∧ os_subject_id os = subject_id
           ∧ faculty_id ∈ default [] (os_faculty_ids os)).

Definition pair_ok (db : Db) (subject faculty : option Id) : Prop :=
  match subject with
  | None => True
  | Some subject_id =>
      match faculty with
      | None => False
      | Some faculty_id => teaches db faculty_id subject_id
      end
  end.

Definition row_ok (db : Db) (row : StudentSelection) : Prop :=
  pair_ok db (mdm_id row) (mdm_faculty_id row)
  ∧ pair_ok db (oe_id row) (oe_faculty_id row)
  ∧ pair_ok db (pe_id row) (pe_faculty_id row).

Definition invariant (db : Db) : Prop :=
  ∀ row, row ∈ student_subject_selection db → row_ok db row.

(** The year-requirement table as the specification states it, and the
    required categories a selection row leaves null. *)
Definition required (year : Z) : list string :=
  if decide (year = 2)%Z then ["OE"; "MDM"]
  else if decide (year = 3)%Z then ["OE"; "MDM"; "PE"]
  else if decide (year = 4)%Z then ["OE"; "PE"]
  else [].

Definition subject_of (category : string) (row : StudentSelection) : option Id :=
  if decide (category = "MDM") then mdm_id row
  else if decide (category = "OE") then oe_id row
  else pe_id row.



End Selection.


(** ** Enrolment reconciliation
    (submission route [GET /students] and faculty route [GET /students]) *)

Module Reconciler.

(** The students an assignment row expands to: the class, narrowed to
    the batch when the row has one, by roll number. *)
Definition in_assignment (assignment : SubjectAssignment) (s : Student) : Prop :=
  Store.eq_col (s_class_id s) (fs_class_id assignment)
  ∧ match fs_batch_id assignment with
    | Some batch_id => s_batch_id s = Some batch_id
    | None => True
    end.

#[global] Instance in_assignment_dec a s : Decision (in_assignment a s).
Proof. unfold in_assignment. destruct (fs_batch_id a); apply _. Defined.

Definition students_of_assignment (db : Db) (assignment : SubjectAssignment) : list Student :=
  Store.order_by_roll_no (filter (in_assignment assignment) (students db)).

(** [.or(mdm_faculty_id.eq.f, oe_faculty_id.eq.f, pe_faculty_id.eq.f)] *)
Definition electiveSelections (db : Db) (faculty_id : Id) : list StudentSelection :=
  filter (λ sel, mdm_faculty_id sel = Some faculty_id
                 ∨ oe_faculty_id sel = Some faculty_id
                 ∨ pe_faculty_id sel = Some faculty_id)
         (student_subject_selection db).

(** The selection names this faculty for this subject in some
    category. *)
Definition selects (faculty_id subject_id : Id) (selection : StudentSelection) : Prop :=
  (mdm_faculty_id selection = Some faculty_id ∧ mdm_id selection = Some subject_id)
  ∨ (oe_faculty_id selection = Some faculty_id ∧ oe_id selection = Some subject_id)
  ∨ (pe_faculty_id selection = Some faculty_id ∧ pe_id selection = Some subject_id).

#[global] Instance selects_dec f s sel : Decision (selects f s sel).
Proof. unfold selects. apply _. Defined.

(** Source 1: the direct assignments, expanded in row order. *)
Definition direct_students (db : Db) (faculty_id subject_id : Id) : list Student :=
  let facultySubjects :=
    filter (λ fs, fs_faculty_id fs = faculty_id ∧ fs_subject_id fs = Some subject_id)
           (faculty_subjects db) in
  facultySubjects ≫= students_of_assignment db.

(** Source 2: the students whose selection names the faculty for the
    subject. *)
Definition elective_students (db : Db) (faculty_id subject_id : Id) : list Student :=
  let electiveStudentIds :=
    sel_student_id <$> filter (selects faculty_id subject_id)
                              (electiveSelections db faculty_id) in
  match electiveStudentIds with
  | [] => []
  | _ => Store.order_by_roll_no
           (filter (λ s, s_id s ∈ electiveStudentIds) (students db))
  end.

(** [uniqueStudentsMap]: a [Map] keeps its keys in insertion order and
    the loop sets a key only when it is absent. *)
Definition remember (m : list (Id * Student)) (student : Student) : list (Id * Student) :=
  if decide (s_id student ∈ m.*1) then m
  else (m ++ [(s_id student, student)])%list.

Definition uniqueStudentsMap (allStudents : list Student) : list (Id * Student) :=
  foldl remember [] allStudents.

(** [students]: the de-duplicated merge of the two sources. *)
Definition resolved_students (db : Db) (faculty_id subject_id : Id) : list Student :=
  let allStudents :=
    (direct_students db faculty_id subject_id
     ++ elective_students db faculty_id subject_id)%list in
  (uniqueStudentsMap allStudents).*2.

(** The per-student [submissionMap] of the submission route: type name
    to status, for the resolvable types. *)
Definition submissionMap (submissionTypes : list SubmissionType)
    (studentSubmissions : list Submission) : gmap string string :=
  foldl (λ m sub,
           match Js.find (λ t, st_id t = sub_submission_type_id sub) submissionTypes with
           | Some type => <[st_name type := sub_status sub]> m
           | None => m
           end)
        ∅ studentSubmissions.

(** The submission route [GET /students?subject_id=...]. *)
Definition get_students (db : Db) (faculty_id : Id) (subject_id : option Id)
  : Response (list (Student * gmap string string)) :=
  match subject_id with
  | None => Failure 400 "subject_id is required."
  | Some subject_id =>
      let students := resolved_students db faculty_id subject_id in
      match students with
      | [] => Success 200 []
      | _ =>
          let studentIds := s_id <$> students in
          let submissions :=
            filter (λ sub, sub_subject_id sub = subject_id ∧ sub_student_id sub ∈ studentIds)
                   (student_submissions db) in
          Success 200
            ((λ student,
                (student,
                 submissionMap (submission_types db)
                   (filter (λ sub, sub_student_id sub = s_id student) submissions)))
               <$> students)
      end
  end.

(** An entry of the faculty route: a student with one subject. *)
Record Enrolment := {
  en_student : Student;
  en_subject_id : Id;
  en_subject_name : option string;
  en_subject_code : option string;
  en_subject_type : option string
}.

Definition enrol (student : Student) (subject : Subject) : Enrolment :=
  {| en_student := student;
     en_subject_id := subj_id subject;
     en_subject_name := subj_name subject;
     en_subject_code := subj_code subject;
     en_subject_type := subj_type subject |}.

(** An assignment row with its joined subject ([assignment.subjects]). *)
Definition joined_subject (db : Db) (assignment : SubjectAssignment) : option Subject :=
  fs_subject_id assignment ≫= λ i, Js.find (λ s, subj_id s = i) (subjects db).

(** [isApplicable] *)
Definition isApplicable (assignment : SubjectAssignment) (student : Student) : Prop :=
  fs_class_id assignment = s_class_id student
  ∧ (fs_batch_id assignment = None ∨ fs_batch_id assignment = s_batch_id student).

#[global] Instance isApplicable_dec a s : Decision (isApplicable a s).
Proof. unfold isApplicable. apply _. Defined.

(** The entries pushed by the nested [forEach] over the students of the
    faculty's classes and the faculty's assignments. *)
Definition direct_enrolments (db : Db) (faculty_id : Id) : list Enrolment :=
  let assignments := filter (λ fs, fs_faculty_id fs = faculty_id) (faculty_subjects db) in
  let classIds := Js.uniq (omap fs_class_id assignments) in
  let allStudents :=
    match classIds with
    | [] => []
    | _ => Store.order_by_roll_no
             (filter (λ s, s_class_id s ∈ Some <$> classIds) (students db))
    end in
  allStudents ≫= λ student,
    assignments ≫= λ assignment,
      if decide (isApplicable assignment student) then
        match joined_subject db assignment with
        | Some subject => [enrol student subject]
        | None => []
        end
      else [].

(** [electiveSubjectIds] of the faculty: the subjects some selection
    names the faculty for. *)
Definition chosen (faculty_id : Id) (faculty subject : option Id) : list Id :=
  if decide (faculty = Some faculty_id) then from_option (λ i, [i]) [] subject else [].

Definition electiveSubjectIds (faculty_id : Id) (selections : list StudentSelection) : list Id :=
  Js.uniq (selections ≫= λ selection,
             (chosen faculty_id (mdm_faculty_id selection) (mdm_id selection)
              ++ chosen faculty_id (oe_faculty_id selection) (oe_id selection)
              ++ chosen faculty_id (pe_faculty_id selection) (pe_id selection))%list).

(** [subjectMap]: subject id to subject row, later rows overwrite. *)
Definition subjectMap (electiveSubjects : list Subject) : gmap Id Subject :=
  Js.rows_to_map subj_id id electiveSubjects.

(** The entries pushed for one elective student: one per category whose
    faculty is the caller and whose subject resolves. *)
Definition entry (faculty_id : Id) (subjects : gmap Id Subject) (student : Student)
    (faculty subject : option Id) : list Enrolment :=
  if decide (faculty = Some faculty_id) then
    match subject ≫= λ i, subjects !! i with
    | Some subject => [enrol student subject]
    | None => []
    end
  else [].

Definition elective_enrolments_of (faculty_id : Id) (subjects : gmap Id Subject)
    (selections : list StudentSelection) (student : Student) : list Enrolment :=
  match Js.find (λ s, sel_student_id s = s_id student) selections with
  | None => []
  | Some selection =>
      (entry faculty_id subjects student (mdm_faculty_id selection) (mdm_id selection)
       ++ entry faculty_id subjects student (oe_faculty_id selection) (oe_id selection)
       ++ entry faculty_id subjects student (pe_faculty_id selection) (pe_id selection))%list
  end.

Definition elective_enrolments (db : Db) (faculty_id : Id) : list Enrolment :=
  let selections := electiveSelections db faculty_id in
  let electiveStudentIds := Js.uniq (sel_student_id <$> selections) in
  match electiveStudentIds with
  | [] => []
  | _ =>
      let electiveStudents :=
        Store.order_by_roll_no
          (filter (λ s, s_id s ∈ electiveStudentIds) (students db)) in
      let ids := electiveSubjectIds faculty_id selections in
      let electiveSubjects := filter (λ s, subj_id s ∈ ids) (subjects db) in
      electiveStudents ≫= elective_enrolments_of faculty_id (subjectMap electiveSubjects) selections
  end.

(** The faculty route [GET /students]: [studentsWithSubjects]. *)
Definition studentsWithSubjects (db : Db) (faculty_id : Id) : list Enrolment :=
  (direct_enrolments db faculty_id ++ elective_enrolments db faculty_id)%list.

(** The students the faculty route lists under one subject. *)
Definition listed_under (db : Db) (faculty_id subject_id : Id) : list Student :=
  en_student <$> filter (λ e, en_subject_id e = subject_id) (studentsWithSubjects db faculty_id).

(** Referential integrity of the subject references, and the unique
    student of a selection row, as the data model states them. *)
Definition subject_exists (db : Db) (subject_id : Id) : Prop :=
  ∃ s, s ∈ subjects db ∧ subj_id s = subject_id.



End Reconciler.


(** ** Marking a submission (submission route [POST /mark-submission]) *)

Module Marking.

(** The body of the request; each field is a text, or is absent, [null]
    or empty ([None]). *)
Record MarkRequest := {
  mark_student_id : option Id;
  mark_subject_id : option Id;
  mark_submission_type : option string;
  mark_status : option string
}.

Definition with_submissions (db : Db) (rows : list Submission) : Db :=
  {| students := students db; classes := classes db; subjects := subjects db;
     faculty_subjects := faculty_subjects db;
     department_offered_subjects := department_offered_subjects db;
     student_subject_selection := student_subject_selection db;
     submission_types := submission_types db;
     student_submissions := rows;
     users := users db |}.

(** [["pending", "completed"].includes(status.toLowerCase())] *)
Definition status_allowed (status : string) : Prop :=
  Js.toLowerCase status ∈ ["pending"; "completed"].

#[global] Instance status_allowed_dec status : Decision (status_allowed status).
Proof. unfold status_allowed. apply _. Defined.

(** [.eq("name", submission_type)] on submission_types *)
Definition types_named (db : Db) (submission_type : string) : list SubmissionType :=
  filter (λ t, st_name t = submission_type) (submission_types db).

(** The rows of student_submissions of one (student, subject, type). *)
Definition rows_of (db : Db) (student_id subject_id submission_type_id : Id)
  : list Submission :=
  filter (λ sub, sub_student_id sub = student_id
                 ∧ sub_subject_id sub = subject_id
                 ∧ sub_submission_type_id sub = submission_type_id)
         (student_submissions db).

Definition set_status (status : string) (sub : Submission) : Submission :=
  {| sub_student_id := sub_student_id sub;
     sub_subject_id := sub_subject_id sub;
     sub_submission_type_id := sub_submission_type_id sub;
     sub_status := status |}.

(** [.update({ status, ... }).eq("id", existing.id)]: the fetch before it
    established that [existing] is the one row of its student, subject
    and type, so the row of that id is the row of that key. *)
Definition update_submission (db : Db) (existing : Submission) (status : string) : Db :=
  with_submissions db
    ((λ sub, if decide (Completion.submission_key sub = Completion.submission_key existing)
             then set_status status sub else sub)
       <$> student_submissions db).

(** [.insert([row])] on student_submissions *)
Definition insert_submission (db : Db) (row : Submission) : Db :=
  with_submissions db (student_submissions db ++ [row])%list.

(** [POST /mark-submission]: the store afterwards and the response. *)
Definition mark_submission (db : Db) (marked_by : Id) (body : MarkRequest)
  : Db * Response string :=
  match mark_student_id body, mark_subject_id body,
        mark_submission_type body, mark_status body with
  | Some student_id, Some subject_id, Some submission_type, Some status =>
      if decide (status_allowed status) then
        match Store.maybeSingle (Selection.links db marked_by subject_id) with
        | None => (db, Failure 500 "store error")
        | Some None =>
            (db, Failure 403 "You are not authorized to mark submissions for this subject.")
        | Some (Some allowedSubject) =>
            match Store.maybeSingle (types_named db submission_type) with
            | None => (db, Failure 500 "store error")
            | Some None =>
                (db, Failure 400 ("Invalid submission_type: " ++ submission_type ++ "."))
            | Some (Some subType) =>
                let submission_type_id := st_id subType in
                match Store.maybeSingle
                        (rows_of db student_id subject_id submission_type_id) with
                | None => (db, Failure 500 "store error")
                | Some (Some existing) =>
                    (update_submission db existing status,
                     Success 200 (submission_type ++ " submission updated to " ++ status
                                  ++ " successfully."))
                | Some None =>
                    (insert_submission db
                       {| sub_student_id := student_id;
                          sub_subject_id := subject_id;
                          sub_submission_type_id := submission_type_id;
                          sub_status := status |},
                     Success 201 (submission_type ++ " submission marked as " ++ status
                                  ++ " successfully."))
                end
            end
        end
      else (db, Failure 400 "Status must be 'pending' or 'completed'.")
  | _, _, _, _ =>
      (db, Failure 400 "student_id, subject_id, submission_type, and status are required.")
  end.

(** A request with its four fields. *)
Definition request (student_id subject_id : Id) (submission_type status : string)
  : MarkRequest :=
  {| mark_student_id := Some student_id;
     mark_subject_id := Some subject_id;
     mark_submission_type := Some submission_type;
     mark_status := Some status |}.

(** Whether a response is a success. *)
Definition succeeded {A} (r : Response A) : bool :=
  match r with
  | Success _ _ => true
  | Failure _ _ => false
  end.

End Marking.


(** ** The subjects of a faculty
    (faculty route [GET /subjects], class-teacher route [GET /subjects]
    and submission route [GET /faculty-subjects]) *)

Module FacultySubjects.

(** An entry of the lists: [{ id, name, code, type }]. *)
Record Entry := {
  e_id : Id;
  e_name : option string;
  e_code : option string;
  e_type : option string
}.

Definition entry_of (subject : Subject) : Entry :=
  {| e_id := subj_id subject;
     e_name := subj_name subject;
     e_code := subj_code subject;
     e_type := subj_type subject |}.

(** [uniqueSubjects] together with the set [subjectIds]. *)
Record Seen := {
  uniqueSubjects : list Entry;
  subjectIds : gset Id
}.

Definition nothing_seen : Seen := {| uniqueSubjects := []; subjectIds := ∅ |}.

(** [if (subject && !subjectIds.has(subject.id)) { subjectIds.add(...);
    uniqueSubjects.push(...) }] *)
Definition add (seen : Seen) (subject : option Subject) : Seen :=
  match subject with
  | Some subject =>
      if decide (subj_id subject ∈ subjectIds seen) then seen
      else {| uniqueSubjects := uniqueSubjects seen ++ [entry_of subject];
              subjectIds := {[ subj_id subject ]} ∪ subjectIds seen |}
  | None => seen
  end.

(** [.eq('faculty_id', facultyId)] on faculty_subjects *)
Definition assignments (db : Db) (facultyId : Id) : list SubjectAssignment :=
  filter (λ fs, fs_faculty_id fs = facultyId) (faculty_subjects db).

(** [.contains('faculty_ids', [facultyId])] on
    department_offered_subjects *)
Definition offered_to (db : Db) (facultyId : Id) : list OfferedSubject :=
  filter (λ row, facultyId ∈ default [] (os_faculty_ids row))
         (department_offered_subjects db).

(** The joined subject of an offered row ([offered.subjects]). *)
Definition offered_subject (db : Db) (row : OfferedSubject) : option Subject :=
  Js.find (λ s, subj_id s = os_subject_id row) (subjects db).

(** The state after the loops over the assignments and the offered
    rows, which the faculty route and the class-teacher route share. *)
Definition assigned_and_offered (db : Db) (facultyId : Id) : Seen :=
  let seen :=
    foldl (λ seen fs, add seen (Reconciler.joined_subject db fs))
          nothing_seen (assignments db facultyId) in
  foldl (λ seen offered, add seen (offered_subject db offered))
        seen (offered_to db facultyId).

(** The faculty route [GET /subjects]. *)
Definition get_subjects (db : Db) (facultyId : Id) : list Entry :=
  let seen := assigned_and_offered db facultyId in
  let electiveSubjectIds :=
    Reconciler.electiveSubjectIds facultyId (Reconciler.electiveSelections db facultyId) in
  match electiveSubjectIds with
  | [] => uniqueSubjects seen
  | _ =>
      let electiveSubjects :=
        filter (λ s, subj_id s ∈ electiveSubjectIds) (subjects db) in
      uniqueSubjects (foldl (λ seen subject, add seen (Some subject)) seen electiveSubjects)
  end.

(** The class-teacher route collects a selected subject only when it is
    not listed yet. *)
Definition chosen_unseen (userId : Id) (seen : gset Id) (faculty subject : option Id)
  : list Id :=
  if decide (faculty = Some userId) then
    match subject with
    | Some i => if decide (i ∈ seen) then [] else [i]
    | None => []
    end
  else [].

Definition unseen_electiveSubjectIds (userId : Id) (seen : gset Id)
    (selections : list StudentSelection) : list Id :=
  Js.uniq (selections ≫= λ selection,
             (chosen_unseen userId seen (mdm_faculty_id selection) (mdm_id selection)
              ++ chosen_unseen userId seen (oe_faculty_id selection) (oe_id selection)
              ++ chosen_unseen userId seen (pe_faculty_id selection) (pe_id selection))%list).

(** [allSubjects] of the class-teacher route, for the role faculty. *)
Definition allSubjects (db : Db) (userId : Id) : list Entry :=
  let seen := assigned_and_offered db userId in
  let electiveSubjectIds :=
    unseen_electiveSubjectIds userId (subjectIds seen)
      (Reconciler.electiveSelections db userId) in
  match electiveSubjectIds with
  | [] => uniqueSubjects seen
  | _ =>
      let electiveSubjects :=
        filter (λ s, subj_id s ∈ electiveSubjectIds) (subjects db) in
      uniqueSubjects (foldl (λ seen subject, add seen (Some subject)) seen electiveSubjects)
  end.

(** An entry without its type: [{ id, name, code }]. *)
Record Brief := {
  b_id : Id;
  b_name : option string;
  b_code : option string
}.

Definition brief_of (subject : Subject) : Brief :=
  {| b_id := subj_id subject; b_name := subj_name subject; b_code := subj_code subject |}.

(** The body [{ theory, practical }]: entries with their type for the
    role faculty, without it otherwise. *)
Inductive Split :=
  | OfFaculty (theory practical : list Entry)
  | OfStore (theory practical : list Brief).

(** The class-teacher route [GET /subjects]. *)
Definition get_split_subjects (db : Db) (userId : Id) (userRole : string) : Split :=
  if decide (userRole = "faculty") then
    let all := allSubjects db userId in
    OfFaculty (filter (λ s, e_type s ≠ Some "practical") all)
              (filter (λ s, e_type s = Some "practical") all)
  else
    OfStore (brief_of <$> filter (λ s, subj_type s ≠ Some "practical") (subjects db))
            (brief_of <$> filter (λ s, subj_type s = Some "practical") (subjects db)).

(** *** The submission route *)

(** batches, which only this route reads: it is passed beside the
    store. *)
Record Batch := {
  batch_id : Id;
  batch_name : string
}.

Record BatchRef := {
  ref_batch_id : Id;
  ref_batch_name : string
}.

(** An entry of [subjectMap]; only the entries made for a practical
    assignment have the field [batches]. *)
Record Grouped := {
  g_id : Id;
  g_code : option string;
  g_name : option string;
  g_type : option string;
  g_batches : option (list BatchRef)
}.

(** [subjectMap]: a [Map] lists its keys in insertion order. *)
Definition SubjectMap := list (Id * Grouped).

Definition has (m : SubjectMap) (i : Id) : Prop := i ∈ m.*1.

#[global] Instance has_dec m i : Decision (has m i).
Proof. unfold has. apply _. Defined.

Definition set_new (m : SubjectMap) (e : Grouped) : SubjectMap :=
  if decide (has m (g_id e)) then m else (m ++ [(g_id e, e)])%list.

(** [subjectMap.get(subjectId).batches.push(ref)]: the entry is changed
    in place; without the field [batches] the call throws ([None]). *)
Fixpoint push_batch (m : SubjectMap) (i : Id) (ref : BatchRef) : option SubjectMap :=
  match m with
  | [] => None
  | (k, e) :: m' =>
      if decide (k = i) then
        match g_batches e with
        | Some refs =>
            Some ((k, {| g_id := g_id e; g_code := g_code e; g_name := g_name e;
                         g_type := g_type e;
                         g_batches := Some (refs ++ [ref])%list |}) :: m')
        | None => None
        end
      else cons (k, e) <$> push_batch m' i ref
  end.

(** [batchMap]: the names of the batches of the assignments. *)
Definition batchMap (batches : list Batch) (facultySubjects : list SubjectAssignment)
  : gmap Id string :=
  let batchIds := Js.uniq (omap fs_batch_id facultySubjects) in
  match batchIds with
  | [] => ∅
  | _ => Js.rows_to_map batch_id batch_name
           (filter (λ b, batch_id b ∈ batchIds) batches)
  end.

(** One step of the loop over the assignments. *)
Definition group (db : Db) (names : gmap Id string) (m : option SubjectMap)
    (fs : SubjectAssignment) : option SubjectMap :=
  m ≫= λ m,
    match Reconciler.joined_subject db fs with
    | None => Some m
    | Some subject =>
        if decide (subj_type subject = Some "theory") then
          Some (set_new m {| g_id := subj_id subject; g_code := subj_code subject;
                             g_name := subj_name subject; g_type := Some "theory";
                             g_batches := None |})
        else if decide (subj_type subject = Some "practical") then
          let m := set_new m {| g_id := subj_id subject; g_code := subj_code subject;
                                g_name := subj_name subject; g_type := Some "practical";
                                g_batches := Some [] |} in
          match fs_batch_id fs with
          | Some b =>
              match names !! b with
              | Some batchName =>
                  if decide (batchName = "") then Some m
                  else push_batch m (subj_id subject)
                         {| ref_batch_id := b; ref_batch_name := batchName |}
              | None => Some m
              end
          | None => Some m
          end
        else Some m
    end.

(** [subject.type || "theory"] *)
Definition type_or_theory (type : option string) : string :=
  match type with
  | Some t => if decide (t = "") then "theory" else t
  | None => "theory"
  end.

Record Groups := {
  theory : list Grouped;
  practical : list Grouped
}.

(** [subjectMap] at the end of the three loops. *)
Definition subjectMap (db : Db) (batches : list Batch) (faculty_id : Id)
  : option SubjectMap :=
  let facultySubjects := assignments db faculty_id in
  let names := batchMap batches facultySubjects in
  foldl (group db names) (Some []) facultySubjects ≫= λ m,
    let m :=
      foldl (λ m offered,
               match offered_subject db offered with
               | Some subject =>
                   set_new m {| g_id := subj_id subject; g_code := subj_code subject;
                                g_name := subj_name subject; g_type := subj_type subject;
                                g_batches := None |}
               | None => m
               end)
            m (offered_to db faculty_id) in
    let electiveSubjectIds :=
      Reconciler.electiveSubjectIds faculty_id
        (Reconciler.electiveSelections db faculty_id) in
    Some match electiveSubjectIds with
         | [] => m
         | _ =>
             foldl (λ m subject,
                      set_new m {| g_id := subj_id subject; g_code := subj_code subject;
                                   g_name := subj_name subject;
                                   g_type := Some (type_or_theory (subj_type subject));
                                   g_batches := None |})
                   m (filter (λ s, subj_id s ∈ electiveSubjectIds) (subjects db))
         end.

(** The submission route [GET /faculty-subjects]. *)
Definition get_faculty_subjects (db : Db) (batches : list Batch) (faculty_id : Id)
  : Response Groups :=
  match subjectMap db batches faculty_id with
  | None => Failure 500 "TypeError"
  | Some m =>
      let allSubjects := m.*2 in
      Success 200
        {| theory := filter (λ s, g_type s ≠ Some "practical") allSubjects;
           practical := filter (λ s, g_type s = Some "practical") allSubjects |}
  end.

(** What links a faculty to a subject: an assignment, an offered row
    that names the faculty, or a selection that names the faculty for the
    subject. *)
Definition linked (db : Db) (facultyId subject_id : Id) : Prop :=
  Selection.teaches db facultyId subject_id
  ∨ ∃ sel, sel ∈ student_subject_selection db ∧ Reconciler.selects facultyId subject_id sel.

(** [subjectIds] is the set of the ids of [uniqueSubjects], which are
    distinct. *)
Definition consistent (seen : Seen) : Prop :=
  (∀ i, i ∈ subjectIds seen ↔ i ∈ e_id <$> uniqueSubjects seen)
  ∧ NoDup (e_id <$> uniqueSubjects seen).

(** An entry of [subjectMap] sits under its own id, its key satisfies
    [P], and it has the field [batches] when its key satisfies [Q]. *)
Definition entry_ok (P Q : Id → Prop) (p : Id * Grouped) : Prop :=
  g_id p.2 = p.1 ∧ P p.1 ∧ (Q p.1 → is_Some (g_batches p.2)).

Definition map_ok (P Q : Id → Prop) (m : SubjectMap) : Prop :=
  NoDup m.*1 ∧ Forall (entry_ok P Q) m.

(** The subject of id [i], as the joins of the route resolve it, is
    practical. *)
Definition practical_id (db : Db) (i : Id) : Prop :=
  ∃ s, Js.find (λ s, subj_id s = i) (subjects db) = Some s
       ∧ subj_type s = Some "practical".

(** The subject is in the subjects table and linked to the faculty. *)
Definition known (db : Db) (f i : Id) : Prop :=
  Reconciler.subject_exists db i ∧ linked db f i.

End FacultySubjects.


(** ** Faculty availability
    (class-teacher routes [PUT /availability] and
    [GET /available-subjects]) *)

Module Availability.

(** faculty_availability, which the routes of this part and the student
    route [GET /subjects] read: it is passed beside the store. *)
Record Row := {
  fa_faculty_id : Id;
  fa_subject_id : Id;
  fa_is_available : bool;
  fa_updated_at : string
}.

(** The body of [PUT /availability]: [selectedSubjects] is [None] when
    it is not an array. *)
Record Request := {
  isAvailable : bool;
  selectedSubjects : option (list string)
}.

(** [.in('subject_code', selectedSubjects)] on subjects: never true of
    a null code. *)
Definition coded (codes : list string) (s : Subject) : Prop :=
  match subj_code s with
  | Some code => code ∈ codes
  | None => False
  end.

#[global] Instance coded_dec codes s : Decision (coded codes s).
Proof. unfold coded. destruct (subj_code s); apply _. Defined.

Definition subjects_coded (db : Db) (codes : list string) : list Subject :=
  filter (coded codes) (subjects db).

Definition availabilityRecords (userId : Id) (now : string) (subjects : list Subject)
  : list Row :=
  (λ subject, {| fa_faculty_id := userId;
                 fa_subject_id := subj_id subject;
                 fa_is_available := true;
                 fa_updated_at := now |}) <$> subjects.

(** [PUT /availability]: the table afterwards and the response, which
    echoes the request.  [now] is the clock's [new Date().toISOString()]. *)
Definition put_availability (db : Db) (table : list Row) (userId : Id) (now : string)
    (body : Request) : list Row * Response (bool * list string) :=
  match selectedSubjects body with
  | None => (table, Failure 400 "selectedSubjects must be an array")
  | Some codes =>
      let table := filter (λ row, fa_faculty_id row ≠ userId) table in
      if isAvailable body && bool_decide (0 < length codes)%nat then
        match subjects_coded db codes with
        | [] => (table, Failure 400 "Invalid subject codes")
        | subjects =>
            ((table ++ availabilityRecords userId now subjects)%list,
             Success 200 (isAvailable body, codes))
        end
      else (table, Success 200 (isAvailable body, codes))
  end.

(** The joined subject of a row ([record.subjects]). *)
Definition subject_of (db : Db) (row : Row) : option Subject :=
  Js.find (λ s, subj_id s = fa_subject_id row) (subjects db).

(** [GET /available-subjects]: [isAvailable] and [selectedSubjects]. *)
Definition get_available_subjects (db : Db) (table : list Row) (userId : Id)
  : bool * list (option string) :=
  let data :=
    filter (λ row, fa_faculty_id row = userId ∧ fa_is_available row = true) table in
  let availableSubjects := subj_code <$> omap (subject_of db) data in
  (bool_decide (0 < length availableSubjects)%nat, availableSubjects).

End Availability.


(** ** The subjects of a student (student route [GET /subjects]) *)

Module StudentSubjects.

(** An entry of the lists theory and practical. *)
Record ClassEntry := {
  ce_id : Id;
  ce_code : option string;
  ce_name : option string;
  ce_faculty : string;
  ce_batch : option Id;
  ce_facultyAvailable : bool
}.

(** An entry of the lists mdm, oe and pe. *)
Record ElectiveEntry := {
  ee_id : Id;
  ee_code : option string;
  ee_name : option string;
  ee_faculty : string;
  ee_description : string
}.

Record SubjectsByType := {
  theory : list ClassEntry;
  practical : list ClassEntry;
  mdm : list ElectiveEntry;
  oe : list ElectiveEntry;
  pe : list ElectiveEntry
}.

(** [facultyMap]: the names of the faculty of the class's assignments,
    then those of the selected faculty set over them. *)
Definition facultyMap (db : Db) (facultySubjects : list SubjectAssignment)
    (studentSelections : option StudentSelection) : gmap Id string :=
  let facultyIds :=
    Js.uniq (filter (λ i, i ≠ "") (fs_faculty_id <$> facultySubjects)) in
  let faculties := filter (λ u, u_id u ∈ facultyIds) (users db) in
  let names := Js.rows_to_map u_id u_name faculties in
  let electiveFacultyIds :=
    match studentSelections with
    | Some sel =>
        (from_option (λ i, [i]) [] (mdm_faculty_id sel)
         ++ from_option (λ i, [i]) [] (oe_faculty_id sel)
         ++ from_option (λ i, [i]) [] (pe_faculty_id sel))%list
    | None => []
    end in
  match electiveFacultyIds with
  | [] => names
  | _ =>
      foldl (λ m f, <[u_id f := u_name f]> m) names
            (filter (λ u, u_id u ∈ electiveFacultyIds) (users db))
  end.

(** [facultyMap.get(id) || 'Not assigned'] *)
Definition faculty_name (names : gmap Id string) (faculty_id : option Id) : string :=
  match faculty_id ≫= λ i, names !! i with
  | Some name => if decide (name = "") then "Not assigned" else name
  | None => "Not assigned"
  end.

(** [availabilityMap]: subject id to [is_available], later rows
    overwrite. *)
Definition availabilityMap (table : list Availability.Row) (allSubjectIds : list Id)
  : gmap Id bool :=
  Js.rows_to_map Availability.fa_subject_id Availability.fa_is_available
    (filter (λ fa, Availability.fa_subject_id fa ∈ allSubjectIds) table).

(** The entries one class subject contributes to theory and to
    practical. *)
Definition class_entry (facultySubjects : list SubjectAssignment) (names : gmap Id string)
    (available : gmap Id bool) (batch_id : option Id) (subject : Subject)
  : list ClassEntry * list ClassEntry :=
  let assignments :=
    filter (λ fs, fs_subject_id fs = Some (subj_id subject)) facultySubjects in
  if decide (subj_type subject = Some "theory") then
    ([ {| ce_id := subj_id subject; ce_code := subj_code subject;
          ce_name := subj_name subject;
          ce_faculty := match head assignments with
                        | Some assignment => faculty_name names (Some (fs_faculty_id assignment))
                        | None => "Not assigned"
                        end;
          ce_batch := None;
          ce_facultyAvailable := default false (available !! subj_id subject) |} ], [])
  else if decide (subj_type subject = Some "practical") then
    match Js.find (λ a, fs_batch_id a = batch_id) assignments with
    | Some batchAssignment =>
        ([], [ {| ce_id := subj_id subject; ce_code := subj_code subject;
                  ce_name := subj_name subject;
                  ce_faculty := faculty_name names (Some (fs_faculty_id batchAssignment));
                  ce_batch := batch_id;
                  ce_facultyAvailable := default false (available !! subj_id subject) |} ])
    | None => ([], [])
    end
  else ([], []).

(** The entry of one category: pushed when the year shows the category,
    the selection has a subject for it, and the subject is found. *)
Definition elective_entry (shown : bool) (electiveSubjects : list Subject)
    (names : gmap Id string) (subject faculty : option Id) (description : string)
  : list ElectiveEntry :=
  if shown then
    match subject with
    | Some i =>
        match Js.find (λ s, subj_id s = i) electiveSubjects with
        | Some found =>
            [ {| ee_id := subj_id found; ee_code := subj_code found;
                 ee_name := subj_name found;
                 ee_faculty := faculty_name names faculty;
                 ee_description := description |} ]
        | None => []
        end
    | None => []
    end
  else [].

(** The route, for the caller decoded from the token. *)
Definition get_subjects (db : Db) (table : list Availability.Row) (user : Dashboard.Caller)
  : Response SubjectsByType :=
  match Dashboard.caller_id user with
  | None => Failure 400 "Missing student_id in token"
  | Some student_id =>
      match Dashboard.caller_class_id user with
      | None =>
          Failure 400 "You are not assigned to a class yet. Please contact your administrator."
      | Some class_id =>
          match Store.maybeSingle (filter (λ c, c_id c = class_id) (classes db)) with
          | None => Failure 500 "store error"
          | Some classInfo =>
              let classYear := Selection.classYear classInfo in
              let allSubjects :=
                filter (λ s, subj_class_id s = Some class_id) (subjects db) in
              let facultySubjects :=
                filter (λ fs, fs_class_id fs = Some class_id) (faculty_subjects db) in
              match Store.maybeSingle (Selection.selection_of db student_id) with
              | None => Failure 500 "store error"
              | Some studentSelections =>
                  let names := facultyMap db facultySubjects studentSelections in
                  let available := availabilityMap table (subj_id <$> allSubjects) in
                  let entries :=
                    class_entry facultySubjects names available
                                (Dashboard.caller_batch_id user) <$> allSubjects in
                  let electiveSubjectIds := Dashboard.electiveSubjectIds studentSelections in
                  let electiveSubjects :=
                    match electiveSubjectIds with
                    | [] => []
                    | _ => filter (λ s, subj_id s ∈ electiveSubjectIds) (subjects db)
                    end in
                  let category shown column faculty description :=
                    match studentSelections with
                    | Some sel =>
                        elective_entry shown electiveSubjects names
                                       (column sel) (faculty sel) description
                    | None => []
                    end in
                  Success 200
                    {| theory := entries ≫= fst;
                       practical := entries ≫= snd;
                       mdm := category (bool_decide (classYear = 2 ∨ classYear = 3)%Z)
                                       mdm_id mdm_faculty_id "Multidisciplinary Minor";
                       oe := category (bool_decide (classYear = 2 ∨ classYear = 3
                                                    ∨ classYear = 4)%Z)
                                      oe_id oe_faculty_id "Open Elective";
                       pe := category (bool_decide (classYear = 3 ∨ classYear = 4)%Z)
                                      pe_id pe_faculty_id "Professional Elective" |}
              end
          end
      end
  end.

(** The list of a category. *)
Definition bucket (category : string) (body : SubjectsByType) : list ElectiveEntry :=
  if decide (category = "MDM") then mdm body
  else if decide (category = "OE") then oe body
  else pe body.

End StudentSubjects.


(** ** Defaulter work
    (defaulter routes [POST /assign-defaulter-work], [GET /submissions]
    and [DELETE /submissions/:subject_id], student route
    [GET /defaulter-work]) *)

Module DefaulterWork.

(** defaulter_submissions, which only these routes read: it is passed
    beside the store.  [created_at] is the time in milliseconds. *)
Record Work := {
  dw_student_id : Id;
  dw_subject_id : Id;
  dw_faculty_id : Id;
  dw_submission_text : string;
  dw_reference_link : option string;
  dw_created_at : Z;
  dw_skip : bool;
  dw_status : option string
}.

(** [.order("created_at", { ascending: false })]; rows of equal time
    stay in storage order. *)
Definition newer_first (a b : Work) : Prop := (dw_created_at b ≤ dw_created_at a)%Z.

#[global] Instance newer_first_dec a b : Decision (newer_first a b).
Proof. unfold newer_first. apply _. Defined.

Definition order_by_created_at_desc (rows : list Work) : list Work :=
  merge_sort newer_first rows.

(** The caller as decoded from the token. *)
Record User := {
  user_id : Id;
  user_role : string;
  user_class_id : option Id
}.

Record AssignRequest := {
  assign_subject_id : option Id;
  assign_instruction_text : option string;
  assign_reference_link : option string;
  assign_skip : bool
}.

Record Assigned := {
  message : string;
  total_assigned : option nat
}.

(** [.or(mdm_id.eq.s, oe_id.eq.s, pe_id.eq.s).limit(1)] has a row. *)
Definition isElectiveSubject (db : Db) (subject_id : Id) : Prop :=
  Exists (λ sel, mdm_id sel = Some subject_id ∨ oe_id sel = Some subject_id
                 ∨ pe_id sel = Some subject_id)
         (student_subject_selection db).

#[global] Instance isElectiveSubject_dec db s : Decision (isElectiveSubject db s).
Proof. unfold isElectiveSubject. apply _. Defined.

(** [electiveStudentIds]: the students whose selection names the faculty
    for the subject. *)
Definition electiveStudentIds (db : Db) (faculty_id subject_id : Id) : list Id :=
  sel_student_id <$> filter (Reconciler.selects faculty_id subject_id)
                            (Reconciler.electiveSelections db faculty_id).

(** The class teacher's students for the subject. *)
Definition class_teacher_students (db : Db) (faculty_id class_id subject_id : Id)
  : list Id :=
  if decide (isElectiveSubject db subject_id) then
    let ids := electiveStudentIds db faculty_id subject_id in
    match ids with
    | [] => []
    | _ => s_id <$> filter (λ s, s_id s ∈ ids ∧ s_class_id s = Some class_id
                                 ∧ s_defaulter s = true)
                           (students db)
    end
  else
    s_id <$> filter (λ s, s_class_id s = Some class_id ∧ s_defaulter s = true)
                    (students db).

(** The faculty's students for the subject: the defaulters of the
    assignments, then the defaulters among the students who selected the
    faculty for the subject. *)
Definition faculty_students (db : Db) (faculty_id subject_id : Id) : list Id :=
  let facultySubjectData :=
    filter (λ fs, fs_faculty_id fs = faculty_id ∧ fs_subject_id fs = Some subject_id)
           (faculty_subjects db) in
  let direct :=
    facultySubjectData ≫= λ assignment,
      s_id <$> filter (λ s, Reconciler.in_assignment assignment s ∧ s_defaulter s = true)
                      (students db) in
  let ids := electiveStudentIds db faculty_id subject_id in
  let elective :=
    match ids with
    | [] => []
    | _ => s_id <$> filter (λ s, s_id s ∈ ids ∧ s_defaulter s = true) (students db)
    end in
  (direct ++ elective)%list.

(** [studentIds], duplicates removed. *)
Definition studentIds (db : Db) (user : User) (subject_id : Id) : list Id :=
  Js.uniq
    match user_class_id user with
    | Some class_id =>
        if decide (user_role user = "class_teacher")
        then class_teacher_students db (user_id user) class_id subject_id
        else faculty_students db (user_id user) subject_id
    | None => faculty_students db (user_id user) subject_id
    end.

(** [instruction_text || "No instructions provided."] *)
Definition instruction (text : option string) : string :=
  match text with
  | Some t => if decide (t = "") then "No instructions provided." else t
  | None => "No instructions provided."
  end.

Definition insertPayload (user : User) (now : Z) (subject_id : Id) (body : AssignRequest)
    (ids : list Id) : list Work :=
  (λ student_id,
     {| dw_student_id := student_id;
        dw_subject_id := subject_id;
        dw_faculty_id := user_id user;
        dw_submission_text :=
          if assign_skip body then "Skipped by faculty"
          else instruction (assign_instruction_text body);
        dw_reference_link := assign_reference_link body;
        dw_created_at := now;
        dw_skip := assign_skip body;
        dw_status := Some "pending" |}) <$> ids.

(** [POST /assign-defaulter-work]: the table afterwards and the
    response.  [now] is the clock's time. *)
Definition assign_defaulter_work (db : Db) (table : list Work) (user : User) (now : Z)
    (body : AssignRequest) : list Work * Response Assigned :=
  match assign_subject_id body with
  | None => (table, Failure 400 "subject_id is required.")
  | Some subject_id =>
      match studentIds db user subject_id with
      | [] =>
          (table, Success 200 {| message := "No defaulter students found for this subject.";
                                 total_assigned := None |})
      | ids =>
          let payload := insertPayload user now subject_id body ids in
          ((table ++ payload)%list,
           Success 201
             {| message := if assign_skip body
                           then "Marked as skipped for all defaulter students."
                           else "Defaulter work assigned successfully.";
                total_assigned := Some (length payload) |})
      end
  end.

(** [groupedSubmissions]: an object lists its keys in the order they
    were first set; a later row replaces the entry of its subject when it
    is newer. *)
Fixpoint replace (m : list (Id * Work)) (sub : Work) : list (Id * Work) :=
  match m with
  | [] => [(dw_subject_id sub, sub)]
  | (k, old) :: m' =>
      if decide (k = dw_subject_id sub) then
        if decide (dw_created_at old < dw_created_at sub)%Z
        then (k, sub) :: m' else (k, old) :: m'
      else (k, old) :: replace m' sub
  end.

(** [GET /submissions]: [uniqueSubmissions]. *)
Definition get_submissions (table : list Work) (faculty_id : Id) : list Work :=
  let submissions :=
    order_by_created_at_desc (filter (λ w, dw_faculty_id w = faculty_id) table) in
  (foldl replace [] submissions).*2.

(** [DELETE /submissions/:subject_id]: the table afterwards and the
    response. *)
Definition delete_submissions (table : list Work) (faculty_id : Id)
    (subject_id : option Id) : list Work * Response string :=
  match subject_id with
  | None => (table, Failure 400 "subject_id is required.")
  | Some subject_id =>
      (filter (λ w, ¬ (dw_subject_id w = subject_id ∧ dw_faculty_id w = faculty_id)) table,
       Success 200 "Defaulter work deleted successfully.")
  end.

(** The state of the loop of [GET /submissions] after the rows [seen]:
    one entry per subject of the rows seen, each a newest row of its
    subject. *)
Definition newest_of (seen : list Work) (m : list (Id * Work)) : Prop :=
  NoDup m.*1
  ∧ (∀ k e, (k, e) ∈ m →
       k = dw_subject_id e ∧ e ∈ seen
       ∧ ∀ w, w ∈ seen → dw_subject_id w = k → (dw_created_at w ≤ dw_created_at e)%Z)
  ∧ (∀ w, w ∈ seen → dw_subject_id w ∈ m.*1).

(** An entry of the student's list. *)
Record Entry := {
  subjectCode : string;
  subjectName : string;
  description : string;
  referenceLink : option string;
  assignedDate : Z;
  status : string
}.

(** [(work.subjects?.type || '').toLowerCase()] *)
Definition subjectType (subject : option Subject) : string :=
  Js.toLowerCase (default "" (subject ≫= subj_type)).

(** The test of [filteredWork]. *)
Definition shown (studentSelections : option StudentSelection) (subject : option Subject)
    (work : Work) : bool :=
  let subjectType := subjectType subject in
  if decide (subjectType = "theory" ∨ subjectType = "practical") then true
  else
    match studentSelections with
    | None => false
    | Some sel =>
        if decide (subjectType = "mdm" ∨ subjectType = "oe" ∨ subjectType = "pe") then
          bool_decide
            ((Some (dw_subject_id work) = mdm_id sel
              ∧ Some (dw_faculty_id work) = mdm_faculty_id sel)
             ∨ (Some (dw_subject_id work) = oe_id sel
                ∧ Some (dw_faculty_id work) = oe_faculty_id sel)
             ∨ (Some (dw_subject_id work) = pe_id sel
                ∧ Some (dw_faculty_id work) = pe_faculty_id sel))
        else true
    end.

(** [x || fallback] on a text. *)
Definition or_text (x : option string) (fallback : string) : string :=
  match x with
  | Some t => if decide (t = "") then fallback else t
  | None => fallback
  end.

(** The joined subject of a row ([work.subjects]). *)
Definition subject_of (db : Db) (work : Work) : option Subject :=
  Js.find (λ s, subj_id s = dw_subject_id work) (subjects db).

Definition format (db : Db) (work : Work) : Entry :=
  {| subjectCode := or_text (subject_of db work ≫= subj_code) "N/A";
     subjectName := or_text (subject_of db work ≫= subj_name) "Unknown Subject";
     description := dw_submission_text work;
     referenceLink := dw_reference_link work;
     assignedDate := dw_created_at work;
     status := or_text (dw_status work) "pending" |}.

(** [GET /defaulter-work] *)
Definition get_defaulter_work (db : Db) (table : list Work) (student_id : Id)
  : Response (list Entry) :=
  match Store.maybeSingle (Selection.selection_of db student_id) with
  | None => Failure 500 "store error"
  | Some studentSelections =>
      let defaulterWork :=
        order_by_created_at_desc
          (filter (λ w, dw_student_id w = student_id ∧ dw_skip w = false) table) in
      let filteredWork :=
        filter (λ work, shown studentSelections (subject_of db work) work = true)
               defaulterWork in
      Success 200 (format db <$> filteredWork)
  end.

End DefaulterWork.


(** ** The other figures of the class rollup
    (submission route [GET /dashboard-statistics]) *)

Module ClassRollup.

(** The status of the last row, in storage order, of the student with
    the submission type, whatever its subject. *)
Definition last_status (submissions : list Submission) (student : Id)
    (type : option SubmissionType) : option string :=
  sub_status <$> last (filter (λ sub, sub_student_id sub = student
                                      ∧ Completion.of_type type sub)
                              submissions).

Definition both_last_completed (db : Db) (s : Student) : Prop :=
  last_status (student_submissions db) (s_id s)
              (Completion.taType (submission_types db)) = Some "completed"
  ∧ last_status (student_submissions db) (s_id s)
                (Completion.cieType (submission_types db)) = Some "completed".

#[global] Instance both_last_completed_dec db s : Decision (both_last_completed db s).
Proof. unfold both_last_completed. apply _. Defined.

(** The submission type named Defaulter work. *)
Definition defaulterType (submissionTypes : list SubmissionType) : option SubmissionType :=
  Js.find (λ t, st_name t = "Defaulter work") submissionTypes.

(** The student has a completed row of the type Defaulter work. *)
Definition has_completed_work (db : Db) (s : Student) : Prop :=
  Exists (λ sub, sub_student_id sub = s_id s
                 ∧ Completion.of_type (defaulterType (submission_types db)) sub
                 ∧ sub_status sub = "completed")
         (student_submissions db).

#[global] Instance has_completed_work_dec db s : Decision (has_completed_work db s).
Proof. unfold has_completed_work. apply _. Defined.

End ClassRollup.


(** ** Subject-wise statistics (submission route [GET /subject-statistics]) *)

Module SubjectStatistics.

(** One entry of [typeStats]; [notStarted] is a difference. *)
Record TypeStat := {
  ts_total : nat;
  ts_completed : nat;
  ts_pending : nat;
  ts_notStarted : Z
}.

Record SubjectStat := {
  stat_id : Id;
  stat_name : option string;
  stat_code : option string;
  stat_type : option string;
  stat_totalStudents : nat;
  stat_defaulterCount : nat;
  submissionStats : gmap string TypeStat
}.

Definition type_stat (submissions : list Submission) (totalStudents : nat)
    (type : SubmissionType) : TypeStat :=
  let typeSubmissions :=
    filter (λ s, sub_submission_type_id s = st_id type) submissions in
  let completed := length (filter (λ s, sub_status s = "completed") typeSubmissions) in
  let pending := length (filter (λ s, sub_status s = "pending") typeSubmissions) in
  {| ts_total := totalStudents;
     ts_completed := completed;
     ts_pending := pending;
     ts_notStarted := (Z.of_nat totalStudents - Z.of_nat completed - Z.of_nat pending)%Z |}.

(** [typeStats]: an object keyed by the type names; a later type of the
    same name overwrites. *)
Definition typeStats (submissionTypes : list SubmissionType)
    (submissions : list Submission) (totalStudents : nat) : gmap string TypeStat :=
  Js.rows_to_map st_name (type_stat submissions totalStudents) submissionTypes.

(** [.eq("subject_id", subject.id).in("student_id", studentIds)] *)
Definition submissions_for (db : Db) (subject_id : Id) (studentIds : list Id)
  : list Submission :=
  filter (λ sub, sub_subject_id sub = subject_id ∧ sub_student_id sub ∈ studentIds)
         (student_submissions db).

(** The entry of one assignment row: the students of its class, or of
    its batch when it has one. *)
Definition subject_stat (db : Db) (fs : SubjectAssignment) : option SubjectStat :=
  match Reconciler.joined_subject db fs with
  | None => None
  | Some subject =>
      let students := filter (Reconciler.in_assignment fs) (students db) in
      let totalStudents := length students in
      let studentIds := s_id <$> students in
      let defaulterCount := length (filter (λ s, s_defaulter s = true) students) in
      let submissions :=
        match studentIds with
        | [] => []
        | _ => submissions_for db (subj_id subject) studentIds
        end in
      Some {| stat_id := subj_id subject;
              stat_name := subj_name subject;
              stat_code := subj_code subject;
              stat_type := subj_type subject;
              stat_totalStudents := totalStudents;
              stat_defaulterCount := defaulterCount;
              submissionStats := typeStats (submission_types db) submissions totalStudents |}
  end.

(** [electiveSubjectMap]: subject id to the set of student ids. *)
Definition ElectiveSubjectMap := gmap Id (gset Id).

(** [if (!map.has(k)) map.set(k, new Set())] *)
Definition ensure (m : ElectiveSubjectMap) (k : Id) : ElectiveSubjectMap :=
  match m !! k with
  | Some _ => m
  | None => <[k := ∅]> m
  end.

(** [map.get(k).add(student)], after [ensure]. *)
Definition add_student (m : ElectiveSubjectMap) (k student : Id) : ElectiveSubjectMap :=
  <[k := {[ student ]} ∪ default ∅ (m !! k)]> m.

(** The students of the classes of a year and a department
    ([classes!inner] with the two filters). *)
Definition yearStudents (db : Db) (year : Z) (department_id : option Id) : list Student :=
  filter (λ s, Exists (λ c, Some (c_id c) = s_class_id s
                            ∧ c_year c = year
                            ∧ Store.eq_col (c_department_id c) department_id)
                      (classes db))
         (students db).

Definition add_offered (db : Db) (m : ElectiveSubjectMap) (offered : OfferedSubject)
  : ElectiveSubjectMap :=
  match FacultySubjects.offered_subject db offered with
  | Some _ =>
      foldl (λ m student, add_student m (os_subject_id offered) (s_id student))
            (ensure m (os_subject_id offered))
            (yearStudents db (os_year offered) (os_department_id offered))
  | None => m
  end.

(** One category of a selection: the student is added under the
    subject when the faculty is the caller. *)
Definition add_selected (faculty_id : Id) (student_id : Id) (faculty subject : option Id)
    (m : ElectiveSubjectMap) : ElectiveSubjectMap :=
  if decide (faculty = Some faculty_id) then
    match subject with
    | Some i => add_student (ensure m i) i student_id
    | None => m
    end
  else m.

Definition add_selection (faculty_id : Id) (m : ElectiveSubjectMap)
    (selection : StudentSelection) : ElectiveSubjectMap :=
  add_selected faculty_id (sel_student_id selection)
    (pe_faculty_id selection) (pe_id selection)
    (add_selected faculty_id (sel_student_id selection)
       (oe_faculty_id selection) (oe_id selection)
       (add_selected faculty_id (sel_student_id selection)
          (mdm_faculty_id selection) (mdm_id selection) m)).

Definition electiveSubjectMap (db : Db) (faculty_id : Id) : ElectiveSubjectMap :=
  foldl (add_selection faculty_id)
        (foldl (add_offered db) ∅ (FacultySubjects.offered_to db faculty_id))
        (Reconciler.electiveSelections db faculty_id).

(** The entry of one elective subject. *)
Definition elective_stat (db : Db) (m : ElectiveSubjectMap) (subject : Subject)
  : option SubjectStat :=
  let studentIds := elements (default ∅ (m !! subj_id subject)) in
  let totalStudents := length studentIds in
  if decide (totalStudents = 0%nat) then None
  else
    let students := filter (λ s, s_id s ∈ studentIds) (students db) in
    let defaulterCount := length (filter (λ s, s_defaulter s = true) students) in
    let submissions := submissions_for db (subj_id subject) studentIds in
    Some {| stat_id := subj_id subject;
            stat_name := subj_name subject;
            stat_code := subj_code subject;
            stat_type := subj_type subject;
            stat_totalStudents := totalStudents;
            stat_defaulterCount := defaulterCount;
            submissionStats := typeStats (submission_types db) submissions totalStudents |}.

(** The route: [validStats]. *)
Definition get_subject_statistics (db : Db) (faculty_id : Id) : list SubjectStat :=
  let facultySubjects := FacultySubjects.assignments db faculty_id in
  let m := electiveSubjectMap db faculty_id in
  let electiveSubjects :=
    if decide (m = ∅) then []
    else filter (λ s, is_Some (m !! subj_id s)) (subjects db) in
  (omap (subject_stat db) facultySubjects
   ++ omap (elective_stat db m) electiveSubjects)%list.

End SubjectStatistics.


(** ** Creating and assigning a subject
    (class-teacher route [POST /subjects/assign]) *)

Module Assign.

(** An entry of [faculty_assignments]. *)
Record BatchAssignment := {
  fa_batch_id : option Id;
  fa_faculty_id : option Id
}.

(** The body of the request; [faculty_assignments] is [None] when it is
    absent or not an array. *)
Record Request := {
  class_id : option Id;
  subject_code : option string;
  subject_name : option string;
  type : option string;
  faculty_id : option Id;
  faculty_assignments : option (list BatchAssignment)
}.

Definition with_subjects (db : Db) (rows : list Subject) : Db :=
  {| students := students db; classes := classes db; subjects := rows;
     faculty_subjects := faculty_subjects db;
     department_offered_subjects := department_offered_subjects db;
     student_subject_selection := student_subject_selection db;
     submission_types := submission_types db;
     student_submissions := student_submissions db;
     users := users db |}.

Definition with_faculty_subjects (db : Db) (rows : list SubjectAssignment) : Db :=
  {| students := students db; classes := classes db; subjects := subjects db;
     faculty_subjects := rows;
     department_offered_subjects := department_offered_subjects db;
     student_subject_selection := student_subject_selection db;
     submission_types := submission_types db;
     student_submissions := student_submissions db;
     users := users db |}.

(** The loop over [faculty_assignments]: the rows to insert, or [None]
    at the first entry without a batch or a faculty. *)
Fixpoint batch_rows (subject_id class_id : Id) (l : list BatchAssignment)
  : option (list SubjectAssignment) :=
  match l with
  | [] => Some []
  | fa :: l' =>
      match fa_batch_id fa, fa_faculty_id fa with
      | Some b, Some f =>
          cons {| fs_faculty_id := f; fs_subject_id := Some subject_id;
                  fs_class_id := Some class_id; fs_batch_id := Some b |}
            <$> batch_rows subject_id class_id l'
      | _, _ => None
      end
  end.

(** [POST /subjects/assign]: the store afterwards and the response.
    [subject_id] is the id the store gives the inserted subject. *)
Definition assign (db : Db) (subject_id : Id) (body : Request) : Db * Response string :=
  match class_id body, subject_code body, subject_name body, type body with
  | Some class_id, Some subject_code, Some subject_name, Some type =>
      match Store.single (filter (λ c, c_id c = class_id) (classes db)) with
      | None => (db, Failure 400 "Invalid class_id or class not found.")
      | Some classData =>
          if decide (type = "theory" ∧ faculty_id body = None) then
            (db, Failure 400 "Faculty ID required for theory subject.")
          else if decide (type = "practical" ∧ faculty_assignments body = None) then
            (db, Failure 400 "faculty_assignments array required for practical subjects.")
          else
            let db1 :=
              with_subjects db
                (subjects db ++ [ {| subj_id := subject_id;
                                     subj_name := Some subject_name;
                                     subj_code := Some subject_code;
                                     subj_type := Some type;
                                     subj_class_id := Some class_id |} ])%list in
            let insertData :=
              if decide (type = "theory") then
                match faculty_id body with
                | Some f =>
                    Some [ {| fs_faculty_id := f; fs_subject_id := Some subject_id;
                              fs_class_id := Some class_id; fs_batch_id := None |} ]
                | None => Some []
                end
              else if decide (type = "practical") then
                batch_rows subject_id class_id (default [] (faculty_assignments body))
              else Some [] in
            match insertData with
            | None =>
                (db1, Failure 400 "Each batch assignment must have batch_id and faculty_id.")
            | Some rows =>
                (with_faculty_subjects db1 (faculty_subjects db1 ++ rows)%list,
                 Success 201
                   (if decide (type = "theory")
                    then "Theory subject created and assigned successfully."
                    else "Practical subject created and assigned to all batches successfully."))
            end
      end
  | _, _, _, _ => (db, Failure 400 "Missing required fields.")
  end.

(** The store has no row yet that refers to the subject id. *)
Definition fresh (db : Db) (subject_id : Id) : Prop :=
  (∀ fs, fs ∈ faculty_subjects db → fs_subject_id fs ≠ Some subject_id)
  ∧ (∀ sub, sub ∈ student_submissions db → sub_subject_id sub ≠ subject_id).

End Assign.


(** ** Concrete stores *)

Module Examples.

Definition types : list SubmissionType :=
  [ {| st_id := "t-ta"; st_name := "TA" |};
    {| st_id := "t-cie"; st_name := "CIE" |};
    {| st_id := "t-dw"; st_name := "Defaulter work" |} ].

Definition student (id : Id) (class_id : Id) (roll_no : Z) (defaulter : bool) : Student :=
  {| s_id := id; s_class_id := Some class_id; s_batch_id := None;
     s_roll_no := roll_no; s_attendance_percent := None; s_defaulter := defaulter |}.

Definition subject (id : Id) (type : string) (class_id : option Id) : Subject :=
  {| subj_id := id; subj_name := Some id; subj_code := Some id;
     subj_type := Some type; subj_class_id := class_id |}.

Definition submission (student subject type status : string) : Submission :=
  {| sub_student_id := student; sub_subject_id := subject;
     sub_submission_type_id := type; sub_status := status |}.

(** A defaulter with two theory subjects: TA and CIE completed on A,
    nothing on B but one completed Defaulter work. *)
Definition scenario_db : Db :=
  {| students := [student "s1" "c1" 1 true];
     classes := [ {| c_id := "c1"; c_department_id := Some "d1"; c_year := 3 |} ];
     subjects := [subject "A" "theory" (Some "c1"); subject "B" "theory" (Some "c1")];
     faculty_subjects := [];
     department_offered_subjects := [];
     student_subject_selection := [];
     submission_types := types;
     student_submissions :=
       [ submission "s1" "A" "t-ta" "completed";
         submission "s1" "A" "t-cie" "completed";
         submission "s1" "B" "t-dw" "completed" ];
     users := [] |}.

Definition scenario_caller : Dashboard.Caller :=
  {| Dashboard.caller_id := Some "s1";
     Dashboard.caller_class_id := Some "c1";
     Dashboard.caller_batch_id := None |}.

Definition scenario_body : Dashboard.Body :=
  {| Dashboard.d_student := student "s1" "c1" 1 true;
     Dashboard.d_submissionPercentage := Some 50%Z;
     Dashboard.d_subjects :=
       [ {| Dashboard.ss_id := "A"; Dashboard.ss_code := Some "A";
            Dashboard.ss_name := Some "A"; Dashboard.ss_type := Some "theory";
            Dashboard.ss_cie := "completed"; Dashboard.ss_ta := "completed";
            Dashboard.ss_defaulter := "pending" |};
         {| Dashboard.ss_id := "B"; Dashboard.ss_code := Some "B";
            Dashboard.ss_name := Some "B"; Dashboard.ss_type := Some "theory";
            Dashboard.ss_cie := "pending"; Dashboard.ss_ta := "pending";
            Dashboard.ss_defaulter := "completed" |} ] |}.

(** A class and a student with no subject at all. *)
Definition no_subject_db : Db :=
  {| students := [student "s1" "c1" 1 true];
     classes := [ {| c_id := "c1"; c_department_id := Some "d1"; c_year := 1 |} ];
     subjects := [];
     faculty_subjects := [];
     department_offered_subjects := [];
     student_subject_selection := [];
     submission_types := types;
     student_submissions := [];
     users := [] |}.

Definition no_subject_body : Dashboard.Body :=
  {| Dashboard.d_student := student "s1" "c1" 1 true;
     Dashboard.d_submissionPercentage := Some 0%Z;
     Dashboard.d_subjects := [] |}.

(** A class of one student whose only completed row is a TA. *)
Definition ta_only_db : Db :=
  {| students := [student "s1" "c1" 1 false];
     classes := [ {| c_id := "c1"; c_department_id := Some "d1"; c_year := 2 |} ];
     subjects := [subject "A" "theory" (Some "c1")];
     faculty_subjects := [];
     department_offered_subjects := [];
     student_subject_selection := [];
     submission_types := types;
     student_submissions := [ submission "s1" "A" "t-ta" "completed" ];
     users := [] |}.

(** A Year-2 class of department d1, and a professional elective the
    department offers to Year 2. *)
Definition year2_pe_db : Db :=
  {| students := [student "s1" "c1" 1 false];
     classes := [ {| c_id := "c1"; c_department_id := Some "d1"; c_year := 2 |} ];
     subjects := [subject "P" "pe" None];
     faculty_subjects :=
       [ {| fs_faculty_id := "f1"; fs_subject_id := Some "P";
            fs_class_id := None; fs_batch_id := None |} ];
     department_offered_subjects :=
       [ {| os_subject_id := "P"; os_department_id := Some "d1"; os_year := 2;
            os_semester := Some 3%Z; os_faculty_ids := Some ["f1"];
            os_is_active := true |} ];
     student_subject_selection := [];
     submission_types := types;
     student_submissions := [];
     users := [ {| u_id := "f1"; u_name := "Prof. F" |} ] |}.

Definition year2_class : Class :=
  {| c_id := "c1"; c_department_id := Some "d1"; c_year := 2 |}.

Definition year2_pe_student_body : Electives.Body :=
  {| Electives.electives := Electives.empty_buckets;
     Electives.currentSelections := None |}.

(** A Year-3 student who selected OE and MDM but no PE, and the
    faculty f1 who teaches the three electives. *)
Definition partial_selection : StudentSelection :=
  {| sel_student_id := "s1";
     mdm_id := Some "M"; oe_id := Some "O"; pe_id := None;
     mdm_faculty_id := Some "f1"; oe_faculty_id := Some "f1"; pe_faculty_id := None;
     selections_locked := false |}.

Definition elective_link (subject : Id) : SubjectAssignment :=
  {| fs_faculty_id := "f1"; fs_subject_id := Some subject;
     fs_class_id := None; fs_batch_id := None |}.

Definition year3_db (rows : list StudentSelection) : Db :=
  {| students := [student "s1" "c3" 1 false];
     classes := [ {| c_id := "c3"; c_department_id := Some "d1"; c_year := 3 |} ];
     subjects := [subject "M" "mdm" None; subject "O" "oe" None; subject "P" "pe" None];
     faculty_subjects := [elective_link "M"; elective_link "O"; elective_link "P"];
     department_offered_subjects := [];
     student_subject_selection := rows;
     submission_types := types;
     student_submissions := [];
     users := [ {| u_id := "f1"; u_name := "Prof. F" |};
                {| u_id := "f2"; u_name := "Prof. G" |} ] |}.


(** A locked row, and an overwrite that names the subject M with no
    faculty and the subject O with the faculty f2, who teaches nothing. *)
Definition locked_selection : StudentSelection :=
  {| sel_student_id := "s1";
     mdm_id := Some "M"; oe_id := Some "O"; pe_id := Some "P";
     mdm_faculty_id := Some "f1"; oe_faculty_id := Some "f1"; pe_faculty_id := Some "f1";
     selections_locked := true |}.

Definition unchecked_overwrite : Selection.ElectiveSelections :=
  {| Selection.es_mdm_id := Some "M"; Selection.es_oe_id := Some "O";
     Selection.es_pe_id := None;
     Selection.es_mdm_faculty_id := None; Selection.es_oe_faculty_id := Some "f2";
     Selection.es_pe_faculty_id := None |}.

Definition unchecked_update : Selection.UpdateRequest :=
  {| Selection.upd_roll_no := None; Selection.upd_batch_id := None;
     Selection.upd_attendance_percent := None; Selection.upd_defaulter := Some false;
     Selection.upd_electiveSelections := Some unchecked_overwrite |}.


(** The faculty f1 teaches the elective M to the class c1 by direct
    assignment; s1 of that class and s3 of another class selected M with
    f1: s1 is enrolled both ways. *)
Definition elective_selection (student : Id) : StudentSelection :=
  {| sel_student_id := student;
     mdm_id := Some "M"; oe_id := None; pe_id := None;
     mdm_faculty_id := Some "f1"; oe_faculty_id := None; pe_faculty_id := None;
     selections_locked := false |}.

Definition both_ways_db : Db :=
  {| students := [student "s2" "c1" 2 false; student "s1" "c1" 1 false;
                  student "s3" "c2" 3 false];
     classes := [ {| c_id := "c1"; c_department_id := Some "d1"; c_year := 3 |};
                  {| c_id := "c2"; c_department_id := Some "d1"; c_year := 3 |} ];
     subjects := [subject "M" "mdm" None];
     faculty_subjects :=
       [ {| fs_faculty_id := "f1"; fs_subject_id := Some "M";
            fs_class_id := Some "c1"; fs_batch_id := None |} ];
     department_offered_subjects := [];
     student_subject_selection := [elective_selection "s1"; elective_selection "s3"];
     submission_types := types;
     student_submissions := [];
     users := [] |}.

End Examples.


(** Stores for the marking of submissions. *)

Module MarkingExamples.

(** A practical subject L taught by f1 to the class c1, with a pending TA
    row of s1; f2 teaches the theory subject T to two batches. *)
Definition lab_db : Db :=
  {| students := [Examples.student "s1" "c1" 1 false; Examples.student "s2" "c1" 2 false];
     classes := [ {| c_id := "c1"; c_department_id := Some "d1"; c_year := 2 |} ];
     subjects := [Examples.subject "L" "practical" (Some "c1");
                  Examples.subject "T" "theory" (Some "c1")];
     faculty_subjects :=
       [ {| fs_faculty_id := "f1"; fs_subject_id := Some "L";
            fs_class_id := Some "c1"; fs_batch_id := None |};
         {| fs_faculty_id := "f2"; fs_subject_id := Some "T";
            fs_class_id := Some "c1"; fs_batch_id := Some "b1" |};
         {| fs_faculty_id := "f2"; fs_subject_id := Some "T";
            fs_class_id := Some "c1"; fs_batch_id := Some "b2" |} ];
     department_offered_subjects := [];
     student_subject_selection := [];
     submission_types := Examples.types;
     student_submissions := [Examples.submission "s1" "L" "t-ta" "pending"];
     users := [] |}.

End MarkingExamples.


(** Stores for the student's subject list. *)

Module StudentExamples.

(** A student of batch b1 in a Year-2 class with a theory subject T, a
    practical subject L assigned to the batch b1, and a practical subject
    W assigned to the whole class; the student selected the open
    elective E and, although Year 2 has no PE, the subject P. *)
Definition db : Db :=
  {| students :=
       [ {| s_id := "s1"; s_class_id := Some "c1"; s_batch_id := Some "b1";
            s_roll_no := 1; s_attendance_percent := None; s_defaulter := false |} ];
     classes := [ {| c_id := "c1"; c_department_id := Some "d1"; c_year := 2 |} ];
     subjects :=
       [ Examples.subject "T" "theory" (Some "c1");
         Examples.subject "L" "practical" (Some "c1");
         Examples.subject "W" "practical" (Some "c1");
         Examples.subject "E" "OE" None;
         Examples.subject "P" "PE" None ];
     faculty_subjects :=
       [ {| fs_faculty_id := "f1"; fs_subject_id := Some "T";
            fs_class_id := Some "c1"; fs_batch_id := None |};
         {| fs_faculty_id := "f1"; fs_subject_id := Some "L";
            fs_class_id := Some "c1"; fs_batch_id := Some "b1" |};
         {| fs_faculty_id := "f2"; fs_subject_id := Some "W";
            fs_class_id := Some "c1"; fs_batch_id := None |};
         {| fs_faculty_id := "f2"; fs_subject_id := Some "E";
            fs_class_id := None; fs_batch_id := None |};
         {| fs_faculty_id := "f2"; fs_subject_id := Some "P";
            fs_class_id := None; fs_batch_id := None |} ];
     department_offered_subjects := [];
     student_subject_selection :=
       [ {| sel_student_id := "s1";
            mdm_id := None; oe_id := Some "E"; pe_id := Some "P";
            mdm_faculty_id := None; oe_faculty_id := Some "f2"; pe_faculty_id := Some "f2";
            selections_locked := false |} ];
     submission_types := Examples.types;
     student_submissions := [];
     users := [ {| u_id := "f1"; u_name := "Asha" |}; {| u_id := "f2"; u_name := "" |} ] |}.

Definition table : list Availability.Row :=
  [ {| Availability.fa_faculty_id := "f1"; Availability.fa_subject_id := "T";
       Availability.fa_is_available := true;
       Availability.fa_updated_at := "2025-01-01T00:00:00.000Z" |} ].

Definition caller : Dashboard.Caller :=
  {| Dashboard.caller_id := Some "s1";
     Dashboard.caller_class_id := Some "c1";
     Dashboard.caller_batch_id := Some "b1" |}.

Definition body : StudentSubjects.SubjectsByType :=
  {| StudentSubjects.theory :=
       [ {| StudentSubjects.ce_id := "T"; StudentSubjects.ce_code := Some "T";
            StudentSubjects.ce_name := Some "T"; StudentSubjects.ce_faculty := "Asha";
            StudentSubjects.ce_batch := None;
            StudentSubjects.ce_facultyAvailable := true |} ];
     StudentSubjects.practical :=
       [ {| StudentSubjects.ce_id := "L"; StudentSubjects.ce_code := Some "L";
            StudentSubjects.ce_name := Some "L"; StudentSubjects.ce_faculty := "Asha";
            StudentSubjects.ce_batch := Some "b1";
            StudentSubjects.ce_facultyAvailable := false |} ];
     StudentSubjects.mdm := [];
     StudentSubjects.oe :=
       [ {| StudentSubjects.ee_id := "E"; StudentSubjects.ee_code := Some "E";
            StudentSubjects.ee_name := Some "E";
            StudentSubjects.ee_faculty := "Not assigned";
            StudentSubjects.ee_description := "Open Elective" |} ];
     StudentSubjects.pe := [] |}.

End StudentExamples.


(** Stores for the defaulter work. *)

Module DefaulterExamples.

(** The faculty f1 teaches the theory subject T to the class c1, in
    which s1 and s3 are defaulters and s2 is not. *)
Definition db : Db :=
  {| students := [Examples.student "s1" "c1" 1 true; Examples.student "s2" "c1" 2 false;
                  Examples.student "s3" "c1" 3 true];
     classes := [ {| c_id := "c1"; c_department_id := Some "d1"; c_year := 2 |} ];
     subjects := [Examples.subject "T" "theory" (Some "c1")];
     faculty_subjects :=
       [ {| fs_faculty_id := "f1"; fs_subject_id := Some "T";
            fs_class_id := Some "c1"; fs_batch_id := None |} ];
     department_offered_subjects := [];
     student_subject_selection := [];
     submission_types := Examples.types;
     student_submissions := [];
     users := [] |}.

Definition faculty : DefaulterWork.User :=
  {| DefaulterWork.user_id := "f1"; DefaulterWork.user_role := "faculty";
     DefaulterWork.user_class_id := None |}.

Definition request : DefaulterWork.AssignRequest :=
  {| DefaulterWork.assign_subject_id := Some "T";
     DefaulterWork.assign_instruction_text := Some "Solve the sheet";
     DefaulterWork.assign_reference_link := None;
     DefaulterWork.assign_skip := false |}.

Definition skipped : DefaulterWork.AssignRequest :=
  {| DefaulterWork.assign_subject_id := Some "T";
     DefaulterWork.assign_instruction_text := None;
     DefaulterWork.assign_reference_link := None;
     DefaulterWork.assign_skip := true |}.

End DefaulterExamples.


(** Stores for the life cycle of a lock. *)

Module LifeCycleExamples.

(** A Year-2 student with the two required electives selected. *)
Definition db : Db :=
  {| students := [Examples.student "s1" "c1" 1 false];
     classes := [ {| c_id := "c1"; c_department_id := Some "d1"; c_year := 2 |} ];
     subjects := [Examples.subject "E" "OE" None; Examples.subject "M" "MDM" None];
     faculty_subjects :=
       [ {| fs_faculty_id := "f1"; fs_subject_id := Some "E";
            fs_class_id := None; fs_batch_id := None |};
         {| fs_faculty_id := "f1"; fs_subject_id := Some "M";
            fs_class_id := None; fs_batch_id := None |} ];
     department_offered_subjects := [];
     student_subject_selection :=
       [ {| sel_student_id := "s1";
            mdm_id := Some "M"; oe_id := Some "E"; pe_id := None;
            mdm_faculty_id := Some "f1"; oe_faculty_id := Some "f1"; pe_faculty_id := None;
            selections_locked := false |} ];
     submission_types := Examples.types;
     student_submissions := [];
     users := [] |}.

End LifeCycleExamples.


(** Stores for the class rollup. *)

Module ClassRollupExamples.

(** Two students of one class.  For s1 the TA of subject A and the CIE
    of subject B are completed, on different subjects; for s2 the TA of A
    is completed and the TA of B, stored later, is pending. *)
Definition db : Db :=
  {| students := [Examples.student "s1" "c1" 1 false; Examples.student "s2" "c1" 2 true];
     classes := [ {| c_id := "c1"; c_department_id := Some "d1"; c_year := 2 |} ];
     subjects := [Examples.subject "A" "theory" (Some "c1");
                  Examples.subject "B" "theory" (Some "c1")];
     faculty_subjects := [];
     department_offered_subjects := [];
     student_subject_selection := [];
     submission_types := Examples.types;
     student_submissions :=
       [ Examples.submission "s1" "A" "t-ta" "completed";
         Examples.submission "s1" "B" "t-cie" "completed";
         Examples.submission "s2" "A" "t-ta" "completed";
         Examples.submission "s2" "A" "t-cie" "completed";
         Examples.submission "s2" "B" "t-ta" "pending" ];
     users := [] |}.

Definition stats : Rollup.Statistics :=
  {| Rollup.overallSubmission := Some 100%Z;
     Rollup.submissionMarked := Some 50%Z;
     Rollup.defaulterWorkSubmitted := Some 0%Z;
     Rollup.totalStudents := 2;
     Rollup.defaulterCount := 1 |}.

End ClassRollupExamples.


(** Requests for the creation of a subject. *)

Module AssignExamples.

Definition theory : Assign.Request :=
  {| Assign.class_id := Some "c1";
     Assign.subject_code := Some "NW1";
     Assign.subject_name := Some "Networks";
     Assign.type := Some "theory";
     Assign.faculty_id := Some "f3";
     Assign.faculty_assignments := None |}.

(** The second entry names no faculty. *)
Definition practical : Assign.Request :=
  {| Assign.class_id := Some "c1";
     Assign.subject_code := Some "NL1";
     Assign.subject_name := Some "Networks lab";
     Assign.type := Some "practical";
     Assign.faculty_id := None;
     Assign.faculty_assignments :=
       Some [ {| Assign.fa_batch_id := Some "b1"; Assign.fa_faculty_id := Some "f3" |};
              {| Assign.fa_batch_id := Some "b2"; Assign.fa_faculty_id := None |} ] |}.

End AssignExamples.


(** Stores for the class teacher's update and for the year rollup. *)

Module MoreExamples.

(** A defaulter with an attendance of 60. *)
Definition low_attendance_db : Db :=
  {| students :=
       [ {| s_id := "s1"; s_class_id := Some "c1"; s_batch_id := None;
            s_roll_no := 1; s_attendance_percent := Some 60%Z; s_defaulter := true |} ];
     classes := [ {| c_id := "c1"; c_department_id := Some "d1"; c_year := 2 |} ];
     subjects := [];
     faculty_subjects := [];
     department_offered_subjects := [];
     student_subject_selection := [];
     submission_types := Examples.types;
     student_submissions := [];
     users := [] |}.

(** A request that changes the roll number only. *)
Definition new_roll_no : Selection.UpdateRequest :=
  {| Selection.upd_roll_no := Some 7%Z;
     Selection.upd_batch_id := None;
     Selection.upd_attendance_percent := None;
     Selection.upd_defaulter := None;
     Selection.upd_electiveSelections := None |}.

(** Two classes of Year 2 and one of Year 3 in the department d1, and a
    class of another department. *)
Definition two_years_db : Db :=
  {| students := [Examples.student "s1" "c1" 1 false; Examples.student "s2" "c3" 2 false];
     classes :=
       [ {| c_id := "c1"; c_department_id := Some "d1"; c_year := 2 |};
         {| c_id := "c2"; c_department_id := Some "d1"; c_year := 3 |};
         {| c_id := "c3"; c_department_id := Some "d1"; c_year := 2 |};
         {| c_id := "c4"; c_department_id := Some "d2"; c_year := 2 |} ];
     subjects := [];
     faculty_subjects := [];
     department_offered_subjects := [];
     student_subject_selection := [];
     submission_types := Examples.types;
     student_submissions := [];
     users := [] |}.

End MoreExamples.


(** * Properties *)

Local Open Scope list_scope.

(** A closed decidable proposition, settled by evaluation. *)
Ltac by_evaluation :=
  match goal with
  | |- ?P => apply (bool_decide_unpack P); vm_compute; exact I
  end.

(** ** Facts about the JavaScript fragments *)

Section JsFacts.
Context {A : Type}.

Lemma find_Some (P : A → Prop) `{!∀ x, Decision (P x)} (l : list A) (x : A) :
  Js.find P l = Some x → x ∈ l ∧ P x.
Proof.
  induction l as [|y l IH]; simpl; [done|].
  destruct (decide (P y)) as [Hy|Hy].
  - intros [= ->]. split; [left | done].
  - intros Hf. destruct (IH Hf) as [Hin HP]. split; [by right | done].
Qed.

Lemma find_None (P : A → Prop) `{!∀ x, Decision (P x)} (l : list A) :
  Js.find P l = None ↔ ∀ x, x ∈ l → ¬ P x.
Proof.
  induction l as [|y l IH]; simpl.
  - split; [intros _ x Hx; by apply elem_of_nil in Hx | done].
  - destruct (decide (P y)) as [Hy|Hy].
    + split; [done|]. intros Hall. exfalso. apply (Hall y); [left | done].
    + rewrite IH. split.
      * intros Hall x Hx. apply elem_of_cons in Hx as [->|Hx]; [done | by apply Hall].
      * intros Hall x Hx. apply Hall. by right.
Qed.

Lemma find_is_Some (P : A → Prop) `{!∀ x, Decision (P x)} (l : list A) (x : A) :
  x ∈ l → P x → is_Some (Js.find P l).
Proof.
  intros Hin HP. destruct (Js.find P l) eqn:E; [by eexists|].
  exfalso. by eapply find_None.
Qed.

Lemma find_head_filter (P : A → Prop) `{!∀ x, Decision (P x)} (l : list A) :
  Js.find P l = head (filter P l).
Proof.
  induction l as [|y l IH]; simpl; [done|].
  rewrite filter_cons. by destruct (decide (P y)).
Qed.

Lemma filter_comm (P Q : A → Prop) `{!∀ x, Decision (P x)} `{!∀ x, Decision (Q x)}
    (l : list A) :
  filter P (filter Q l) = filter Q (filter P l).
Proof. rewrite !list_filter_filter. apply list_filter_iff. tauto. Qed.

(** The first match is the match when the matches agree on a key that
    identifies the rows. *)
Lemma NoDup_fmap_eq {B} (f : A → B) (l : list A) (x y : A) :
  NoDup (f <$> l) → x ∈ l → y ∈ l → f x = f y → x = y.
Proof.
  induction l as [|z l IH]; simpl; intros Hnd Hx Hy Hf.
  - by apply elem_of_nil in Hx.
  - apply NoDup_cons in Hnd as [Hz Hnd].
    apply elem_of_cons in Hx as [->|Hx]; apply elem_of_cons in Hy as [->|Hy].
    + done.
    + exfalso. apply Hz. rewrite Hf. by apply list_elem_of_fmap_2.
    + exfalso. apply Hz. rewrite <- Hf. by apply list_elem_of_fmap_2.
    + by apply IH.
Qed.

Lemma uniq_elem_of `{!EqDecision A} (l : list A) (x : A) : x ∈ Js.uniq l ↔ x ∈ l.
Proof.
  induction l as [|y l IH]; simpl; [done|].
  rewrite !elem_of_cons, list_elem_of_filter, IH.
  destruct (decide (x = y)) as [->|Hne]; [by split; left|].
  split; [intros [?|[_ ?]]; [by left | by right] | intros [?|?]; [by left | by right]].
Qed.

Lemma uniq_NoDup `{!EqDecision A} (l : list A) : NoDup (Js.uniq l).
Proof.
  induction l as [|y l IH]; simpl; [constructor|].
  apply NoDup_cons. split.
  - rewrite list_elem_of_filter. by intros [Hne _].
  - by apply NoDup_filter.
Qed.

End JsFacts.

(** ** Single-row fetches *)

Section StoreFacts.
Context {A : Type}.

Lemma maybeSingle_Some (rows : list A) (r : A) :
  Store.maybeSingle rows = Some (Some r) → rows = [r].
Proof. destruct rows as [|x [|y l]]; simpl; congruence. Qed.

Lemma single_Some (rows : list A) (r : A) :
  Store.single rows = Some r → rows = [r].
Proof. destruct rows as [|x [|y l]]; simpl; congruence. Qed.

Lemma maybeSingle_cases (rows : list A) :
  (length rows ≤ 1)%nat →
  (rows = [] ∧ Store.maybeSingle rows = Some None)
  ∨ (∃ r, rows = [r] ∧ Store.maybeSingle rows = Some (Some r)).
Proof.
  destruct rows as [|r [|r' l]]; simpl; intros Hlen.
  - by left.
  - right. by exists r.
  - lia.
Qed.

Lemma filter_singleton (P : A → Prop) `{!∀ x, Decision (P x)} (l : list A) (r : A) :
  filter P l = [r] → r ∈ l ∧ P r.
Proof.
  intros Hf. assert (r ∈ filter P l) as Hin by (rewrite Hf; left).
  apply list_elem_of_filter in Hin. tauto.
Qed.

End StoreFacts.

(** ** Maps built from rows *)

(** A [Map] filled by a loop of [set(key(row), value(row))]: later rows
    overwrite. *)
Section RowsToMap.
Context {A V : Type} (key : A → Id) (value : A → V).

Lemma rows_fold_other (rows : list A) (m0 : gmap Id V) (i : Id) :
  i ∉ key <$> rows →
  foldl (λ m row, <[key row := value row]> m) m0 rows !! i = m0 !! i.
Proof.
  revert m0. induction rows as [|t l IH]; intros m0 Hi; simpl; [done|].
  rewrite fmap_cons, not_elem_of_cons in Hi. destruct Hi as [Hne Hi].
  rewrite IH by done. by rewrite lookup_insert_ne.
Qed.

Lemma rows_fold_inv (rows : list A) (m0 : gmap Id V) (i : Id) (v : V) :
  foldl (λ m row, <[key row := value row]> m) m0 rows !! i = Some v →
  m0 !! i = Some v ∨ ∃ t, t ∈ rows ∧ key t = i ∧ value t = v.
Proof.
  revert m0. induction rows as [|t l IH]; intros m0; simpl; [by left|].
  intros Hl. destruct (IH _ Hl) as [H0|(t' & Hin & Hid & Hn)].
  - destruct (decide (key t = i)) as [<-|Hne].
    + rewrite lookup_insert_eq in H0. injection H0 as <-.
      right. exists t. split; [left | done].
    + rewrite lookup_insert_ne in H0 by done. by left.
  - right. exists t'. split; [by right | done].
Qed.


Lemma rows_to_map_inv (rows : list A) (i : Id) (v : V) :
  Js.rows_to_map key value rows !! i = Some v → ∃ t, t ∈ rows ∧ key t = i ∧ value t = v.
Proof.
  intros Hl. apply rows_fold_inv in Hl as [H0|Ht]; [|done].
  by rewrite lookup_empty in H0.
Qed.


Lemma rows_fold_mem (rows : list A) (m0 : gmap Id V) (t : A) :
  NoDup (key <$> rows) → t ∈ rows →
  foldl (λ m row, <[key row := value row]> m) m0 rows !! key t = Some (value t).
Proof.
  revert m0. induction rows as [|x l IH]; intros m0 Hnd Hin; simpl.
  - by apply elem_of_nil in Hin.
  - rewrite fmap_cons in Hnd. apply NoDup_cons in Hnd as [Hx Hnd].
    apply elem_of_cons in Hin as [->|Hin].
    + rewrite rows_fold_other by done. apply lookup_insert_eq.
    + by apply IH.
Qed.


Lemma rows_to_map_mem (rows : list A) (t : A) :
  NoDup (key <$> rows) → t ∈ rows →
  Js.rows_to_map key value rows !! key t = Some (value t).
Proof. apply rows_fold_mem. Qed.

End RowsToMap.

(** ** Per-subject completion (class-teacher route) *)

Module CompletionFacts.
Import Completion.

Lemma completedSubjects_count types subs subjects :
  completedSubjects types subs subjects
  = length (filter (λ subject,
                      isSubjectComplete (taType types) (cieType types) subs subject = true)
                   subjects).
Proof.
  unfold completedSubjects.
  enough (∀ n, foldl (λ n subject,
                        if isSubjectComplete (taType types) (cieType types) subs subject
                        then S n else n) n subjects
               = (n + length (filter (λ subject,
                      isSubjectComplete (taType types) (cieType types) subs subject = true)
                   subjects))%nat) as H by apply (H 0%nat).
  induction subjects as [|s l IH]; intros n; simpl; [lia|].
  rewrite IH, filter_cons.
  destruct (isSubjectComplete _ _ subs s) eqn:E.
  - rewrite decide_True by done. simpl. lia.
  - rewrite decide_False by done. lia.
Qed.

(** With one row per key, the row [find] returns for a type is the row
    of that type: it is completed exactly when a completed row exists. *)
Lemma completed_find submissions type student subject :
  one_row_per_key submissions →
  completed (Js.find (of_type type)
               (filter (λ sub, sub_subject_id sub = subject)
                  (filter (λ sub, sub_student_id sub = student) submissions))) = true
  ↔ has_completed_row submissions type student subject.
Proof.
  intros Hkey. split.
  - destruct (Js.find _ _) as [r|] eqn:E; simpl; [|done].
    intros Hc. apply bool_decide_eq_true in Hc.
    apply find_Some in E as [Hin Hty].
    apply list_elem_of_filter in Hin as [Hsubj Hin].
    apply list_elem_of_filter in Hin as [Hstud Hin].
    by exists r.
  - intros (r & Hin & Hstud & Hsubj & Hty & Hc).
    assert (r ∈ filter (λ sub, sub_subject_id sub = subject)
                  (filter (λ sub, sub_student_id sub = student) submissions)) as Hr.
    { by rewrite !list_elem_of_filter. }
    destruct (find_is_Some (of_type type) _ r Hr Hty) as [r' E].
    rewrite E. simpl. apply bool_decide_eq_true.
    apply find_Some in E as [Hin' Hty'].
    apply list_elem_of_filter in Hin' as [Hsubj' Hin'].
    apply list_elem_of_filter in Hin' as [Hstud' Hin'].
    assert (r' = r) as ->; [|done].
    apply (NoDup_fmap_eq submission_key submissions); [done..|].
    unfold submission_key. unfold of_type in Hty, Hty'.
    rewrite <- Hty in Hty'. injection Hty' as Ht.
    by rewrite Hstud, Hstud', Hsubj, Hsubj', Ht.
Qed.

(** For a practical subject the rows of type TA decide alone. *)
Lemma practical_reads_ta_only ta cie (subs subs' : list Submission) (subject : Subject) :
  subj_type subject = Some "practical" →
  filter (of_type ta) subs' = filter (of_type ta) subs →
  isSubjectComplete ta cie subs' subject = isSubjectComplete ta cie subs subject.
Proof.
  intros Hp Hta. unfold isSubjectComplete. rewrite !decide_True by done.
  by rewrite !find_head_filter, !(filter_comm (of_type ta)), Hta.
Qed.

(** C1. For a practical subject the per-student completion is true
    exactly when a TA row of the pair (student, subject) exists with
    status completed, and the rows of any other type, CIE included, do not
    affect it; for every other subject type it is true exactly when both
    a TA row and a CIE row exist with status completed.  The rows are
    those of the store, which holds at most one row per (student, subject,
    submission type). *)
Theorem completion_rule (submissionTypes : list SubmissionType)
    (submissions : list Submission) (s : Student) (subject : Subject) :
  one_row_per_key submissions →
  let ta := taType submissionTypes in
  let cie := cieType submissionTypes in
  let complete (rows : list Submission) :=
    isSubjectComplete ta cie
      (filter (λ sub, sub_student_id sub = s_id s) rows) subject in
  (subj_type subject = Some "practical" →
     (complete submissions = true
      ↔ has_completed_row submissions ta (s_id s) (subj_id subject))
     ∧ (∀ submissions',
          filter (of_type ta) submissions' = filter (of_type ta) submissions →
          complete submissions' = complete submissions))
  ∧ (subj_type subject ≠ Some "practical" →
     (complete submissions = true ↔
        has_completed_row submissions ta (s_id s) (subj_id subject)
        ∧ has_completed_row submissions cie (s_id s) (subj_id subject))).
Proof.
  intros Hkey ta cie complete. subst complete. cbv beta. split.
  - intros Hp. split.
    + unfold isSubjectComplete. rewrite decide_True by done. by apply completed_find.
    + intros submissions' Hta. apply practical_reads_ta_only; [done|].
      by rewrite !(filter_comm (of_type ta)), Hta.
  - intros Hp. unfold isSubjectComplete. rewrite decide_False by done.
    rewrite andb_true_iff, !completed_find by done. done.
Qed.

Lemma completion_rule_witness :
  Completion.one_row_per_key (student_submissions Examples.scenario_db)
  ∧ (isSubjectComplete (taType Examples.types) (cieType Examples.types)
       (filter (λ sub, sub_student_id sub = "s1") (student_submissions Examples.scenario_db))
       (Examples.subject "A" "theory" (Some "c1")) = true
     ↔ has_completed_row (student_submissions Examples.scenario_db)
         (taType Examples.types) "s1" "A"
       ∧ has_completed_row (student_submissions Examples.scenario_db)
           (cieType Examples.types) "s1" "A").
Proof.
  split.
  - unfold one_row_per_key. by_evaluation.
  - apply (completion_rule Examples.types (student_submissions Examples.scenario_db)
             (Examples.student "s1" "c1" 1 true) (Examples.subject "A" "theory" (Some "c1"))).
    + unfold one_row_per_key. by_evaluation.
    + discriminate.
Defined.

End CompletionFacts.

(** ** The dashboard percentage (student route) *)

Module DashboardFacts.
Import Dashboard.

Lemma typeMap_fold (types : list SubmissionType) :
  typeMap types = Js.rows_to_map st_id st_name types.
Proof. done. Qed.

(** Under unique type ids, [typeMap.get] resolves a row to the name of
    its submission type. *)
Lemma typeMap_named (types : list SubmissionType) (name : string) (sub : Submission) :
  NoDup (st_id <$> types) →
  typeMap types !! sub_submission_type_id sub = Some name ↔ named types name sub.
Proof.
  intros Hnd. rewrite typeMap_fold. unfold named. split.
  - intros Hl. by apply rows_to_map_inv in Hl.
  - intros (t & Hin & Hid & Hn). rewrite <- Hid, <- Hn. by apply rows_to_map_mem.
Qed.

Section SubmissionMap.
Variable types : gmap Id string.

Lemma record_status_inv (rows : list Submission) (m0 : gmap string string) (X v : string) :
  foldl (record_status types) m0 rows !! X = Some v →
  m0 !! X = Some v
  ∨ ∃ r, r ∈ rows ∧ types !! sub_submission_type_id r = Some X ∧ sub_status r = v.
Proof.
  revert m0. induction rows as [|r l IH]; intros m0; simpl; [by left|].
  intros Hl. destruct (IH _ Hl) as [H0|(r' & Hin & Hty & Hv)].
  - unfold record_status in H0.
    destruct (types !! sub_submission_type_id r) as [n|] eqn:E; [|by left].
    destruct (decide (n = "")); [by left|].
    destruct (decide (n = X)) as [->|Hne].
    + rewrite lookup_insert_eq in H0. injection H0 as <-.
      right. exists r. split; [left | done].
    + rewrite lookup_insert_ne in H0 by done. by left.
  - right. exists r'. split; [by right | done].
Qed.

Lemma record_status_keeps (rows : list Submission) (m : gmap string string) (X : string) :
  is_Some (m !! X) → is_Some (foldl (record_status types) m rows !! X).
Proof.
  revert m. induction rows as [|r l IH]; intros m Hm; simpl; [done|].
  apply IH. unfold record_status.
  destruct (types !! sub_submission_type_id r) as [n|]; [|done].
  destruct (decide (n = "")); [done|].
  destruct (decide (n = X)) as [->|Hne].
  - rewrite lookup_insert_eq. by eexists.
  - by rewrite lookup_insert_ne.
Qed.

(** When the rows of one type name carry one status, that status is the
    one the map ends with. *)
Lemma record_status_mem (rows : list Submission) (m0 : gmap string string) (X v : string) :
  X ≠ "" →
  (∀ r, r ∈ rows → types !! sub_submission_type_id r = Some X → sub_status r = v) →
  (∃ r, r ∈ rows ∧ types !! sub_submission_type_id r = Some X) →
  foldl (record_status types) m0 rows !! X = Some v.
Proof.
  intros HX. revert m0.
  induction rows as [|r l IH]; intros m0 Hall (r0 & Hin & Hty); simpl.
  - by apply elem_of_nil in Hin.
  - destruct (decide (Exists (λ r', types !! sub_submission_type_id r' = Some X) l))
      as [Hex|Hno].
    + apply IH.
      * intros r' Hr'. apply Hall. by right.
      * apply Exists_exists in Hex. done.
    + rewrite Exists_exists in Hno.
      assert (r0 = r) as ->.
      { apply elem_of_cons in Hin as [->|Hin]; [done|]. exfalso. apply Hno. by exists r0. }
      assert (record_status types m0 r !! X = Some v) as Hnow.
      { unfold record_status. rewrite Hty, decide_False by done.
        rewrite lookup_insert_eq. f_equal. apply Hall; [left | done]. }
      destruct (record_status_keeps l (record_status types m0 r) X) as [w Hw];
        [by eexists|].
      rewrite Hw. apply record_status_inv in Hw as [E|(r' & Hr' & Hty' & _)].
      * congruence.
      * exfalso. apply Hno. by exists r'.
Qed.

End SubmissionMap.

Lemma initial_pending (X : string) (v : string) :
  initial_submissionMap !! X = Some v → v = "pending".
Proof.
  unfold initial_submissionMap.
  destruct (decide (X = "Defaulter work")) as [->|H1].
  { rewrite lookup_insert_eq. by intros [= <-]. }
  rewrite lookup_insert_ne by done.
  destruct (decide (X = "TA")) as [->|H2].
  { rewrite lookup_insert_eq. by intros [= <-]. }
  rewrite lookup_insert_ne by done.
  destruct (decide (X = "CIE")) as [->|H3].
  { rewrite lookup_insert_eq. by intros [= <-]. }
  rewrite lookup_insert_ne by done. by rewrite lookup_empty.
Qed.

Lemma total_completed (m : gmap string string) (X : string) :
  m !!! X = "completed" ↔ m !! X = Some "completed".
Proof.
  rewrite lookup_total_alt. destruct (m !! X) as [v|]; simpl.
  - split; [by intros -> | by intros [= ->]].
  - split; [|done]. by intros [=].
Qed.

Section StatusOfSubject.
Variables (types : list SubmissionType) (all : list Submission) (student subject : Id).
Hypothesis Hids : NoDup (st_id <$> types).
Hypothesis Hnames : NoDup (st_name <$> types).
Hypothesis Hkeys : Completion.one_row_per_key all.

Let submissions := filter (λ sub, sub_student_id sub = student) all.
Let subjectSubmissions := filter (λ s, sub_subject_id s = subject) submissions.

(** The rows of one subject that resolve to one type name are one row. *)
Lemma one_row_per_name (X : string) (r r' : Submission) :
  r ∈ subjectSubmissions → r' ∈ subjectSubmissions →
  named types X r → named types X r' → r' = r.
Proof.
  unfold subjectSubmissions, submissions. rewrite !list_elem_of_filter.
  intros (Hsubj & Hstud & Hin) (Hsubj' & Hstud' & Hin')
         (t & Ht & Hid & Hn) (t' & Ht' & Hid' & Hn').
  assert (t' = t) as ->.
  { apply (NoDup_fmap_eq st_name types); [done..|]. by rewrite Hn, Hn'. }
  apply (NoDup_fmap_eq Completion.submission_key all); [done..|].
  unfold Completion.submission_key.
  by rewrite Hstud, Hstud', Hsubj, Hsubj', <- Hid, <- Hid'.
Qed.

Lemma status_completed_iff (X : string) :
  X ≠ "" →
  submissionMap (typeMap types) subjectSubmissions !!! X = "completed"
  ↔ has_completed types submissions X subject.
Proof.
  intros HX. rewrite total_completed. unfold submissionMap. split.
  - intros Hm. apply record_status_inv in Hm as [H0|(r & Hin & Hty & Hc)].
    + by apply initial_pending in H0.
    + exists r. apply typeMap_named in Hty; [|done].
      unfold subjectSubmissions in Hin. apply list_elem_of_filter in Hin as [Hsubj Hin].
      done.
  - intros (r & Hin & Hsubj & Hnamed & Hc).
    assert (r ∈ subjectSubmissions) as Hr.
    { unfold subjectSubmissions. by rewrite list_elem_of_filter. }
    apply record_status_mem; [done| |].
    + intros r' Hr' Hty'. apply typeMap_named in Hty'; [|done].
      by rewrite (one_row_per_name X r r').
    + exists r. split; [done|]. by apply typeMap_named.
Qed.

Lemma one_if_completed_count (X : string) :
  X ≠ "" →
  one_if_completed (submissionMap (typeMap types) subjectSubmissions !!! X)
  = count_if (has_completed types submissions X subject).
Proof.
  intros HX. unfold one_if_completed, count_if.
  destruct (decide (_ !!! X = "completed")) as [Hc|Hc];
    destruct (decide (has_completed _ _ _ _)) as [Hs|Hs]; try done.
  - exfalso. apply Hs. by apply status_completed_iff.
  - exfalso. apply Hc. by apply status_completed_iff.
Qed.

End StatusOfSubject.

Lemma foldl_sum {A} (g : A → nat) (l : list A) (n : nat) :
  foldl (λ count x, (count + g x)%nat) n l = (n + sum_list (g <$> l))%nat.
Proof.
  revert n. induction l as [|x l IH]; intros n; csimpl; [lia|]. rewrite IH. lia.
Qed.

(** The counter of the [reduce] is the specification's count. *)
Lemma completedSubmissions_spec (isDefaulter : bool) (types : list SubmissionType)
    (all : list Submission) (student : Id) (subjects : list Subject) :
  NoDup (st_id <$> types) → NoDup (st_name <$> types) → Completion.one_row_per_key all →
  let submissions := filter (λ sub, sub_student_id sub = student) all in
  completedSubmissions isDefaulter (subjectsWithSubmissions subjects submissions types)
  = spec_completed isDefaulter types submissions (subj_id <$> subjects).
Proof.
  intros Hids Hnames Hkeys submissions.
  unfold completedSubmissions, spec_completed, subjectsWithSubmissions.
  rewrite foldl_sum, <- !list_fmap_compose. simpl. f_equal.
  apply list_fmap_ext. intros i subject _. simpl.
  rewrite !(one_if_completed_count types all student (subj_id subject)) by done.
  subst submissions. destruct isDefaulter; lia.
Qed.

Lemma percentage_3_of_6 : Js.percentage 3 6 = Some 50%Z.
Proof. vm_compute. reflexivity. Qed.

(** C2. On the student dashboard of a student with [n > 0] listed
    subjects, the submission percentage is
    [Math.round((completed / (n × k)) × 100)] with [k = 3] for a defaulter
    and [k = 2] otherwise, where [completed] counts per subject the
    completed TA, the completed CIE and, for a defaulter only, the
    completed Defaulter work; a defaulter with 2 subjects and 3 such
    completions gets exactly 50.  The store holds unique submission type
    ids and names and at most one row per (student, subject, type). *)
Theorem dashboard_percentage (db : Db) (user : Caller) (body : Body) :
  get_dashboard db user = Success 200 body →
  store_keys_unique db →
  let student := d_student body in
  let n := length (d_subjects body) in
  let k := if s_defaulter student then 3%nat else 2%nat in
  let completed :=
    spec_completed (s_defaulter student) (submission_types db)
      (filter (λ sub, sub_student_id sub = s_id student) (student_submissions db))
      (ss_id <$> d_subjects body) in
  (0 < n)%nat →
  d_submissionPercentage body = Js.percentage completed (n * k)
  ∧ (s_defaulter student = true → n = 2%nat → completed = 3%nat →
     d_submissionPercentage body = Some 50%Z).
Proof.
  intros Hget (Hids & Hnames & Hkeys). unfold get_dashboard in Hget.
  destruct (caller_id user) as [student_id|]; [|done].
  destruct (Store.maybeSingle (filter _ (students db))) as [[student|]|] eqn:Est; [|done..].
  destruct (from_option _ _ _) as [studentClassId|]; [|done].
  destruct (Store.maybeSingle (filter _ (student_subject_selection db)))
    as [studentSelections|]; [|done].
  injection Hget as <-. cbv zeta. simpl.
  assert (student_id = s_id student) as ->.
  { unfold Store.maybeSingle in Est.
    destruct (filter _ (students db)) as [|x [|y l]] eqn:Ef; simplify_eq.
    assert (student ∈ filter (λ s, s_id s = student_id) (students db)) as Hin
      by (rewrite Ef; left).
    by apply list_elem_of_filter in Hin as [? _]. }
  set (subjects := dashboard_subjects _ _ _ _ _).
  intros Hn.
  assert (submissionPercentage (s_defaulter student)
            (subjectsWithSubmissions subjects
               (filter (λ sub, sub_student_id sub = s_id student) (student_submissions db))
               (submission_types db))
          = Js.percentage
              (spec_completed (s_defaulter student) (submission_types db)
                 (filter (λ sub, sub_student_id sub = s_id student) (student_submissions db))
                 (ss_id <$> subjectsWithSubmissions subjects
                    (filter (λ sub, sub_student_id sub = s_id student) (student_submissions db))
                    (submission_types db)))
              (length (subjectsWithSubmissions subjects
                    (filter (λ sub, sub_student_id sub = s_id student) (student_submissions db))
                    (submission_types db))
               * (if s_defaulter student then 3 else 2))) as Hpct.
  { unfold submissionPercentage. rewrite decide_True.
    - rewrite completedSubmissions_spec by done. do 2 f_equal.
      unfold subjectsWithSubmissions. rewrite <- list_fmap_compose. done.
    - destruct (s_defaulter student); lia. }
  split; [done|].
  intros Hd Hn2 Hc. rewrite Hpct, Hn2, Hc, Hd. apply percentage_3_of_6.
Qed.

Lemma dashboard_percentage_witness :
  Dashboard.get_dashboard Examples.scenario_db Examples.scenario_caller
    = Success 200 Examples.scenario_body
  ∧ store_keys_unique Examples.scenario_db
  ∧ d_submissionPercentage Examples.scenario_body = Some 50%Z.
Proof.
  assert (Dashboard.get_dashboard Examples.scenario_db Examples.scenario_caller
          = Success 200 Examples.scenario_body) as Hget by (vm_compute; reflexivity).
  assert (store_keys_unique Examples.scenario_db) as Hkeys.
  { unfold store_keys_unique, Completion.one_row_per_key. repeat split; by_evaluation. }
  split; [done|]. split; [done|].
  apply (dashboard_percentage Examples.scenario_db Examples.scenario_caller
           Examples.scenario_body Hget Hkeys).
  - vm_compute. lia.
  - reflexivity.
  - reflexivity.
  - vm_compute. reflexivity.
Defined.

(** C9. A student with 0 assigned subjects gets the completion
    percentage 0, a number: on the class-teacher route, when the class has
    no subject, every student row carries 0 (the [totalSubjects === 0]
    branch), and on the dashboard, when no subject is listed, the guard on
    the denominator yields 0. *)
Theorem zero_subjects_zero_percent (db : Db) :
  (∀ classId body s p,
     Completion.get_students db (Some classId) = Success 200 body →
     filter (λ subject, subj_class_id subject = Some classId) (subjects db) = [] →
     (s, p) ∈ body → p = Some 0%Z)
  ∧ (∀ user body,
       get_dashboard db user = Success 200 body →
       d_subjects body = [] →
       d_submissionPercentage body = Some 0%Z).
Proof.
  split.
  - intros classId body s p [= <-] Hnone Hin.
    apply list_elem_of_fmap in Hin as (s' & [= -> ->] & _).
    by rewrite Hnone.
  - intros user body Hget Hnone. unfold get_dashboard in Hget.
    destruct (caller_id user) as [student_id|]; [|done].
    destruct (Store.maybeSingle (filter _ (students db))) as [[student|]|]; [|done..].
    destruct (from_option _ _ _) as [studentClassId|]; [|done].
    destruct (Store.maybeSingle (filter _ (student_subject_selection db)))
      as [studentSelections|]; [|done].
    injection Hget as <-. simpl in *. by rewrite Hnone.
Qed.

Lemma zero_subjects_zero_percent_witness :
  Completion.get_students Examples.no_subject_db (Some "c1")
    = Success 200 [(Examples.student "s1" "c1" 1 true, Some 0%Z)]
  ∧ d_submissionPercentage Examples.no_subject_body = Some 0%Z.
Proof.
  assert (Completion.get_students Examples.no_subject_db (Some "c1")
          = Success 200 [(Examples.student "s1" "c1" 1 true, Some 0%Z)]) as Hget
    by (vm_compute; reflexivity).
  split; [done|].
  destruct (zero_subjects_zero_percent Examples.no_subject_db) as [_ Hdash].
  apply (Hdash Examples.scenario_caller); [vm_compute; reflexivity | reflexivity].
Defined.

End DashboardFacts.

(** ** Class, department and year rollups *)

Module RollupFacts.
Import Rollup.

Lemma NoDup_fmap_filter {A B} (f : A → B) (P : A → Prop) `{!∀ x, Decision (P x)}
    (l : list A) :
  NoDup (f <$> l) → NoDup (f <$> filter P l).
Proof.
  intros Hnd. eapply sublist_NoDup; [done|].
  apply fmap_sublist, sublist_filter.
Qed.

(** The set the loop builds, by membership. *)
Lemma elem_of_studentsWithSubmissions ta cie (submissions : list Submission) (x : Id) :
  x ∈ studentsWithSubmissions ta cie submissions
  ↔ ∃ sub, sub ∈ submissions ∧ sub_student_id sub = x
           ∧ sub_status sub = "completed"
           ∧ (Completion.of_type ta sub ∨ Completion.of_type cie sub).
Proof.
  unfold studentsWithSubmissions.
  enough (∀ acc : gset Id,
            x ∈ foldl (λ set sub,
                         if decide (sub_status sub = "completed"
                                    ∧ (Completion.of_type ta sub ∨ Completion.of_type cie sub))
                         then {[ sub_student_id sub ]} ∪ set else set) acc submissions
            ↔ x ∈ acc ∨ ∃ sub, sub ∈ submissions ∧ sub_student_id sub = x
                               ∧ sub_status sub = "completed"
                               ∧ (Completion.of_type ta sub ∨ Completion.of_type cie sub))
    as Hgen.
  { rewrite Hgen. split; [intros [Hx|Hx]; [set_solver | done] | by right]. }
  induction submissions as [|sub l IH]; intros acc; simpl.
  - split; [by left|]. intros [Hx|(sub & Hin & _)]; [done|]. by apply elem_of_nil in Hin.
  - rewrite IH. destruct (decide _) as [Hc|Hc].
    + rewrite elem_of_union, elem_of_singleton. split.
      * intros [[->|Hx]|(sub' & Hin & Hrest)].
        -- right. exists sub. split; [left|]. by destruct Hc.
        -- by left.
        -- right. exists sub'. split; [by right | done].
      * intros [Hx|(sub' & Hin & Hid & Hrest)]; [by left; right|].
        apply elem_of_cons in Hin as [->|Hin].
        -- left. by left.
        -- right. by exists sub'.
    + split.
      * intros [Hx|(sub' & Hin & Hrest)]; [by left|].
        right. exists sub'. split; [by right | done].
      * intros [Hx|(sub' & Hin & Hid & Hst & Hty)]; [by left|].
        apply elem_of_cons in Hin as [->|Hin]; [by destruct Hc|].
        right. by exists sub'.
Qed.

(** The size of the set is the number of students in scope with some
    completed TA or CIE row. *)
Lemma size_studentsWithSubmissions (db : Db) (scope : list Student) :
  NoDup (s_id <$> scope) →
  size (studentsWithSubmissions (Completion.taType (submission_types db))
          (Completion.cieType (submission_types db))
          (submissions_of db (s_id <$> scope)))
  = length (filter (has_completed_ta_or_cie db) scope).
Proof.
  intros Hnd.
  rewrite <- (length_fmap s_id), <- (size_list_to_set (C:=gset Id))
    by by apply NoDup_fmap_filter.
  f_equal. apply set_eq. intros x.
  rewrite elem_of_studentsWithSubmissions, elem_of_list_to_set, list_elem_of_fmap.
  unfold submissions_of. split.
  - intros (sub & Hin & Hid & Hst & Hty).
    apply list_elem_of_filter in Hin as [Hscope Hin].
    apply list_elem_of_fmap in Hscope as (s & Hs & Hsin).
    exists s. split; [congruence|]. apply list_elem_of_filter. split; [|done].
    exists sub. by rewrite <- Hs.
  - intros (s & -> & Hs). apply list_elem_of_filter in Hs as [(sub & Hin & Hid & Hst & Hty) Hs].
    exists sub. split; [|done]. apply list_elem_of_filter. split; [|done].
    rewrite Hid. by apply list_elem_of_fmap_2.
Qed.

Lemma scope_statistics_percentage (db : Db) (classIds : list Id) :
  NoDup (s_id <$> students db) →
  percentage (scope_statistics db classIds)
  = amended_percentage db (scope_students db classIds).
Proof.
  intros Hnd. unfold scope_statistics, amended_percentage, scope_students.
  destruct (decide (length _ = 0%nat)); [done|]. simpl.
  by rewrite size_studentsWithSubmissions by by apply NoDup_fmap_filter.
Qed.

(** C3, amended. In the class, the department and the year rollup the
    reported percentage is 0 for an empty scope and otherwise
    [Math.round((c / t) × 100)], where [t] is the number of students in
    scope and [c] the number of them that have at least one completed
    submission of type TA or CIE (one of the two is enough).  Student ids
    are unique in the store. *)
Theorem rollup_percentage (db : Db) :
  NoDup (s_id <$> students db) →
  (∀ class_id stats,
     get_dashboard_statistics db (Some class_id) = Success 200 stats →
     overallSubmission stats
     = amended_percentage db (filter (λ s, s_class_id s = Some class_id) (students db)))
  ∧ (∀ dept,
       percentage (department_statistics db dept)
       = amended_percentage db
           (scope_students db
              (c_id <$> filter (λ c, c_department_id c = Some dept) (classes db))))
  ∧ (∀ department_id l year stat,
       get_year_statistics db (Some department_id) = Success 200 l →
       (year, stat) ∈ l →
       percentage stat
       = amended_percentage db
           (scope_students db
              (c_id <$> filter (λ c, c_department_id c = Some department_id ∧ c_year c = year)
                               (classes db)))).
Proof.
  intros Hnd. split; [|split].
  - intros class_id stats. unfold get_dashboard_statistics, amended_percentage.
    destruct (decide (length _ = 0%nat)); [by intros [= <-]|].
    intros [= <-]. simpl.
    by rewrite size_studentsWithSubmissions by by apply NoDup_fmap_filter.
  - intros dept. unfold department_statistics.
    destruct (c_id <$> filter _ (classes db)) as [|c l] eqn:E.
    + unfold amended_percentage, scope_students. simpl.
      rewrite decide_True; [done|].
      destruct (filter _ (students db)) as [|s l'] eqn:Ef; [done|]. exfalso.
      assert (s ∈ filter (λ s, s_class_id s ∈ @nil (option Id)) (students db)) as Hs
        by (rewrite Ef; left).
      apply list_elem_of_filter in Hs as [Hs _]. by apply elem_of_nil in Hs.
    + by apply scope_statistics_percentage.
  - intros department_id l year stat [= <-] Hin.
    apply list_elem_of_fmap in Hin as ([y ids] & [= -> ->] & Hg).
    unfold yearGroups in Hg. apply list_elem_of_fmap in Hg as (y' & [= -> ->] & _).
    by apply scope_statistics_percentage.
Qed.

(** The order of the operations matters in binary64: the routes divide
    first, and 29 of 200 rounds to 14 where [100 × 29 / 200] rounds to
    15. *)
Lemma division_before_scaling :
  Js.percentage 29 200 = Some 14%Z ∧ stated_percentage 29 200 = Some 15%Z.
Proof. split; vm_compute; reflexivity. Qed.

Lemma rollup_percentage_witness :
  NoDup (s_id <$> students Examples.ta_only_db)
  ∧ percentage (department_statistics Examples.ta_only_db "d1") = Some 100%Z.
Proof.
  assert (NoDup (s_id <$> students Examples.ta_only_db)) as Hnd by by_evaluation.
  split; [done|].
  destruct (rollup_percentage Examples.ta_only_db Hnd) as (_ & Hdept & _).
  rewrite Hdept. vm_compute. reflexivity.
Defined.

(** C3 as stated fails: with one student whose only completed row is a
    TA, nobody has both a TA and a CIE completed, and yet the class, the
    department and the year rollup all report 100. *)
Lemma rollup_both_counterexample :
  stated_percentage
    (length (filter (has_completed_ta_and_cie Examples.ta_only_db)
                    (students Examples.ta_only_db)))
    (length (students Examples.ta_only_db))
    = Some 0%Z
  ∧ get_dashboard_statistics Examples.ta_only_db (Some "c1")
    = Success 200 {| overallSubmission := Some 100%Z; submissionMarked := Some 0%Z;
                     defaulterWorkSubmitted := Some 0%Z;
                     totalStudents := 1; defaulterCount := 0 |}
  ∧ percentage (department_statistics Examples.ta_only_db "d1") = Some 100%Z
  ∧ get_year_statistics Examples.ta_only_db (Some "d1")
    = Success 200 [ (2%Z, {| percentage := Some 100%Z; scope_totalStudents := 1;
                             completedStudents := 1; classCount := 1 |}) ].
Proof. vm_compute. repeat split; reflexivity. Qed.

End RollupFacts.

(** ** Elective eligibility *)

Module ElectivesFacts.
Import Electives.

(** In a Year-2 class the student route never pushes to the PE
    bucket. *)
Lemma categorize_year2 department_id names (offered : list Offered) (acc : Buckets) :
  pe (foldl (categorize 2 department_id names) acc offered) = pe acc.
Proof.
  revert acc. induction offered as [|o l IH]; intros acc; simpl; [done|].
  rewrite IH. unfold categorize.
  destruct (offered_subject o) as [subject|]; [|done].
  repeat (match goal with |- context [if ?b then _ else _] => destruct b end; simpl; try done).
Qed.

(** What the student route pushes to the PE bucket stems from an offered
    row of the caller's department. *)
Lemma categorize_pe year department_id names (offered : list Offered) (acc : Buckets)
    (entry : SubjectData) :
  entry ∈ pe (foldl (categorize year department_id names) acc offered) →
  entry ∈ pe acc
  ∨ ∃ o subject, o ∈ offered ∧ offered_subject o = Some subject
                 ∧ sd_id entry = subj_id subject
                 ∧ os_department_id (offered_row o) = department_id.
Proof.
  revert acc. induction offered as [|o l IH]; intros acc; simpl; [by left|].
  intros Hin. apply IH in Hin as [Hin|(o' & subject & Ho' & Hrest)].
  - unfold categorize in Hin.
    destruct (offered_subject o) as [subject|] eqn:Es; [|by left].
    repeat (match type of Hin with
            | context [if ?b then _ else _] => destruct b eqn:?; simpl in Hin
            end); try (by left).
    apply elem_of_app in Hin as [Hin|Hin]; [by left|].
    apply list_elem_of_singleton in Hin as ->.
    right. exists o, subject. split; [left | done].
  - right. exists o', subject. split; [by right | done].
Qed.

Lemma categorize_for_teacher_pe department_id names (offered : list Offered) (acc : Buckets)
    (entry : SubjectData) :
  entry ∈ pe (foldl (categorize_for_teacher department_id names) acc offered) →
  entry ∈ pe acc
  ∨ ∃ o subject, o ∈ offered ∧ offered_subject o = Some subject
                 ∧ sd_id entry = subj_id subject
                 ∧ os_department_id (offered_row o) = department_id.
Proof.
  revert acc. induction offered as [|o l IH]; intros acc; simpl; [by left|].
  intros Hin. apply IH in Hin as [Hin|(o' & subject & Ho' & Hrest)].
  - unfold categorize_for_teacher in Hin.
    destruct (offered_subject o) as [subject|] eqn:Es; [|by left].
    repeat (match type of Hin with
            | context [if ?b then _ else _] => destruct b eqn:?; simpl in Hin
            end); try (by left).
    apply elem_of_app in Hin as [Hin|Hin]; [by left|].
    apply list_elem_of_singleton in Hin as ->.
    right. exists o, subject. split; [left | done].
  - right. exists o', subject. split; [by right | done].
Qed.

(** The joined rows are the active rows of the year, and the joined
    subject carries the row's subject id. *)
Lemma offeredSubjects_row (db : Db) (year : Z) (o : Offered) (subject : Subject) :
  o ∈ offeredSubjects db year → offered_subject o = Some subject →
  offered_row o ∈ department_offered_subjects db
  ∧ os_year (offered_row o) = year
  ∧ os_is_active (offered_row o) = true
  ∧ subj_id subject = os_subject_id (offered_row o).
Proof.
  unfold offeredSubjects. intros Hin Hs.
  apply list_elem_of_fmap in Hin as (row & -> & Hrow). simpl in *.
  apply list_elem_of_filter in Hrow as [[Hy Ha] Hrow].
  apply find_Some in Hs as [_ Hid]. done.
Qed.

Lemma pe_from_department (db : Db) (year : Z) (department_id : option Id)
    (entry : SubjectData) :
  (∃ o subject, o ∈ offeredSubjects db year ∧ offered_subject o = Some subject
                ∧ sd_id entry = subj_id subject
                ∧ os_department_id (offered_row o) = department_id) →
  from_department db year department_id entry.
Proof.
  intros (o & subject & Ho & Hs & Hid & Hd).
  destruct (offeredSubjects_row db year o subject Ho Hs) as (Hin & Hy & Ha & Hsid).
  exists (offered_row o). rewrite Hid, Hsid. done.
Qed.

(** C7, amended. On the student route a Year-2 class gets an empty PE
    bucket whatever PE rows are offered; and on the student route and the
    class-teacher route alike, for every year, each subject of the PE
    bucket stems from an active offered row of the class's year whose
    department is the class's department. *)
Theorem pe_bucket (db : Db) (class_id : option Id) :
  (∀ student_id body c,
     get_elective_subjects db student_id class_id = Success 200 body →
     class_of db class_id c →
     (c_year c = 2%Z → pe (electives body) = [])
     ∧ (∀ entry, entry ∈ pe (electives body) →
          from_department db (c_year c) (c_department_id c) entry))
  ∧ (∀ studentId body c,
       get_elective_subjects_of_student db class_id studentId = Success 200 body →
       class_of db class_id c →
       ∀ entry, entry ∈ pe (electives body) →
         from_department db (c_year c) (c_department_id c) entry).
Proof.
  split.
  - intros student_id body c Hget [Hc Hid]. unfold get_elective_subjects in Hget.
    destruct (Store.maybeSingle (filter _ (classes db))) as [[classInfo|]|] eqn:Ec; [|done..].
    destruct (Store.maybeSingle (filter _ (student_subject_selection db))) as [cur|]; [|done].
    injection Hget as <-. simpl.
    apply maybeSingle_Some in Ec.
    assert (c ∈ filter (λ c, Some (c_id c) = class_id) (classes db)) as Hcf
      by by apply list_elem_of_filter.
    rewrite Ec in Hcf. apply list_elem_of_singleton in Hcf as ->.
    split.
    + intros ->. by rewrite categorize_year2.
    + intros entry Hin. apply categorize_pe in Hin as [Hin|Hin].
      * by apply elem_of_nil in Hin.
      * by apply pe_from_department.
  - intros studentId body c Hget [Hc Hid]. unfold get_elective_subjects_of_student in Hget.
    destruct (Store.single (filter _ (students db))) as [student|]; [|done].
    destruct (decide _); [done|].
    destruct (Store.single (filter _ (classes db))) as [classInfo|] eqn:Ec; [|done].
    destruct (Store.maybeSingle (filter _ (student_subject_selection db))) as [cur|]; [|done].
    injection Hget as <-. simpl.
    apply single_Some in Ec.
    assert (c ∈ filter (λ c, Some (c_id c) = class_id) (classes db)) as Hcf
      by by apply list_elem_of_filter.
    rewrite Ec in Hcf. apply list_elem_of_singleton in Hcf as ->.
    intros entry Hin. apply categorize_for_teacher_pe in Hin as [Hin|Hin].
    + by apply elem_of_nil in Hin.
    + by apply pe_from_department.
Qed.

Lemma pe_bucket_witness :
  get_elective_subjects Examples.year2_pe_db "s1" (Some "c1")
    = Success 200 Examples.year2_pe_student_body
  ∧ class_of Examples.year2_pe_db (Some "c1") Examples.year2_class
  ∧ pe (electives Examples.year2_pe_student_body) = [].
Proof.
  assert (get_elective_subjects Examples.year2_pe_db "s1" (Some "c1")
          = Success 200 Examples.year2_pe_student_body) as Hget by (vm_compute; reflexivity).
  assert (class_of Examples.year2_pe_db (Some "c1") Examples.year2_class) as Hc.
  { split; [left | reflexivity]. }
  split; [done|]. split; [done|].
  destruct (pe_bucket Examples.year2_pe_db (Some "c1")) as [Hstudent _].
  destruct (Hstudent "s1" Examples.year2_pe_student_body Examples.year2_class Hget Hc)
    as [Hyear2 _].
  apply Hyear2. reflexivity.
Defined.

(** C7 as stated fails on the class-teacher route: for a Year-2 class
    whose department offers a professional elective to Year 2, the PE
    bucket lists it. *)
Lemma pe_bucket_year2_counterexample :
  class_of Examples.year2_pe_db (Some "c1") Examples.year2_class
  ∧ c_year Examples.year2_class = 2%Z
  ∧ get_elective_subjects_of_student Examples.year2_pe_db (Some "c1") "s1"
    = Success 200
        {| electives :=
             {| mdm := []; oe := [];
                pe := [ {| sd_id := "P"; sd_code := Some "P"; sd_name := Some "P";
                           sd_semester := None;
                           sd_faculties := [ {| fo_id := "f1"; fo_name := "Prof. F" |} ] |} ] |};
           currentSelections := None |}.
Proof.
  split; [split; [left | reflexivity]|]. split; [reflexivity|]. vm_compute. reflexivity.
Qed.

End ElectivesFacts.

(** ** The elective selection life cycle *)

Module SelectionFacts.
Import Selection.

(** An update through [.eq("student_id", id)] rewrites the student's
    rows and no other. *)
Lemma selection_of_update (db : Db) (student_id id : Id)
    (f : StudentSelection → StudentSelection) :
  (∀ row, sel_student_id (f row) = sel_student_id row) →
  selection_of (update_selection db student_id f) id
  = if decide (id = student_id) then f <$> selection_of db id else selection_of db id.
Proof.
  intros Hf. unfold selection_of, update_selection. simpl.
  induction (student_subject_selection db) as [|row l IH]; [by destruct (decide _)|].
  rewrite fmap_cons, !filter_cons, IH.
  destruct (decide (sel_student_id row = student_id)) as [Hr|Hr].
  - rewrite Hf. destruct (decide (id = student_id)) as [->|Hne].
    + rewrite !decide_True by done. by rewrite fmap_cons.
    + rewrite !decide_False by congruence. done.
  - destruct (decide (id = student_id)) as [->|Hne].
    + by rewrite !decide_False by done.
    + done.
Qed.

Lemma selection_of_insert (db : Db) (row : StudentSelection) (id : Id) :
  selection_of (insert_selection db row) id
  = (selection_of db id ++ (if decide (sel_student_id row = id) then [row] else []))%list.
Proof.
  unfold selection_of, insert_selection. simpl.
  rewrite filter_app, filter_cons, filter_nil. by destruct (decide _).
Qed.




(** A student with no selection row is turned away before the year is
    looked at. *)
Lemma lock_without_selection (db : Db) (student_id : Id) (class_id : option Id) :
  is_Some (Store.maybeSingle (filter (λ c, Some (c_id c) = class_id) (classes db))) →
  selection_of db student_id = [] →
  lock_selections db student_id class_id
  = (db, Failure 400
           "No elective selections found. Please select your elective subjects first.").
Proof.
  intros [classInfo Hclass] Hsel. unfold lock_selections. by rewrite Hclass, Hsel.
Qed.







(** *** The pairing-and-validity invariant *)

Lemma set_category_ok (db : Db) type subject_id faculty_id row :
  teaches db faculty_id subject_id → row_ok db row →
  row_ok db (set_category type subject_id faculty_id row).
Proof.
  intros Ht (Hm & Ho & Hp). unfold set_category.
  repeat destruct (decide _); done.
Qed.

Lemma invariant_update (db : Db) (student_id : Id) (f : StudentSelection → StudentSelection) :
  (∀ row, row_ok db row → row_ok db (f row)) →
  invariant db → invariant (update_selection db student_id f).
Proof.
  intros Hf Hinv row Hin. unfold update_selection in Hin. simpl in Hin.
  apply list_elem_of_fmap in Hin as (old & -> & Hold).
  change (row_ok db (if decide (sel_student_id old = student_id) then f old else old)).
  destruct (decide _); [apply Hf|]; by apply Hinv.
Qed.

Lemma invariant_insert (db : Db) (row : StudentSelection) :
  row_ok db row → invariant db → invariant (insert_selection db row).
Proof.
  intros Hrow Hinv r Hin. unfold insert_selection in Hin. simpl in Hin.
  change (row_ok db r).
  apply elem_of_app in Hin as [Hin|Hin]; [by apply Hinv|].
  by apply list_elem_of_singleton in Hin as ->.
Qed.

Lemma links_teaches (db : Db) (faculty_id subject_id : Id) (fs : SubjectAssignment) :
  Store.maybeSingle (links db faculty_id subject_id) = Some (Some fs) →
  teaches db faculty_id subject_id.
Proof.
  intros Hl. apply maybeSingle_Some in Hl.
  apply filter_singleton in Hl as [Hin [Hs Hf]].
  left. by exists fs.
Qed.

(** C8, amended. The student's writes keep the pairing-and-validity
    invariant: after a select call, and after a lock call, every
    selection row still pairs each non-null subject with a non-null
    faculty that has a matching assignment or offering for it; and so does
    the class-teacher's unlock. *)
Theorem student_writes_keep_invariant (db : Db) (student_id : Id) :
  invariant db →
  (∀ body, invariant (fst (select_elective db student_id body)))
  ∧ (∀ class_id, invariant (fst (lock_selections db student_id class_id)))
  ∧ (∀ class_id, invariant (fst (unlock_student_selections db class_id student_id))).
Proof.
  intros Hinv. split; [|split].
  - intros body. unfold select_elective.
    destruct (req_subject_id body) as [subject_id|]; [|done].
    destruct (req_faculty_id body) as [faculty_id|]; [|done].
    destruct (req_type body) as [type|]; [|done].
    destruct (decide _); [|done].
    destruct (Store.maybeSingle (selection_of db student_id)) as [existing|]; [|done].
    destruct (is_locked existing); [done|].
    destruct (Store.maybeSingle (links db faculty_id subject_id)) as [[fs|]|] eqn:El; [|done..].
    apply links_teaches in El.
    destruct existing as [old|]; simpl.
    + apply invariant_update; [|done]. intros row. by apply set_category_ok.
    + apply invariant_insert; [|done]. by apply set_category_ok.
  - intros class_id. unfold lock_selections.
    destruct (Store.maybeSingle (filter _ (classes db))) as [classInfo|]; [|done].
    destruct (Store.maybeSingle (selection_of db student_id)) as [[selections|]|]; [|done..].
    destruct (missingSubjects _ _); [|done]. simpl.
    by apply invariant_update.
  - intros class_id. unfold unlock_student_selections.
    destruct (Store.single _) as [student|]; [|done].
    destruct (decide _); [done|]. simpl.
    by apply invariant_update.
Qed.

Lemma year3_invariant (row : StudentSelection) :
  row ∈ [Examples.partial_selection; Examples.locked_selection] →
  invariant (Examples.year3_db [row]).
Proof.
  intros Hrow r Hin. apply list_elem_of_singleton in Hin as ->.
  assert (∀ s, s ∈ ["M"; "O"; "P"] → teaches (Examples.year3_db [row]) "f1" s) as Ht.
  { intros s Hs. left. exists (Examples.elective_link s). split; [|done].
    simpl. apply list_elem_of_fmap_2 with (f := Examples.elective_link) in Hs. exact Hs. }
  apply elem_of_cons in Hrow as [->|Hrow];
    [|apply list_elem_of_singleton in Hrow as ->];
    repeat split; simpl; try done; apply Ht; by_evaluation.
Qed.

Lemma student_writes_keep_invariant_witness :
  invariant (Examples.year3_db [Examples.partial_selection])
  ∧ invariant
      (fst (select_elective (Examples.year3_db [Examples.partial_selection]) "s1"
              {| req_subject_id := Some "P"; req_faculty_id := Some "f1";
                 req_type := Some "PE" |})).
Proof.
  assert (invariant (Examples.year3_db [Examples.partial_selection])) as Hinv.
  { apply year3_invariant. left. }
  split; [done|].
  by destruct (student_writes_keep_invariant _ "s1" Hinv) as [Hselect _].
Defined.

(** C8 as stated fails on the class-teacher's update: from a store that
    satisfies the invariant it writes the subject M with no faculty (and
    the subject O with a faculty who does not teach it). *)
Lemma teacher_update_breaks_invariant :
  invariant (Examples.year3_db [Examples.locked_selection])
  ∧ snd (update_student (Examples.year3_db [Examples.locked_selection])
           (Some "c3") "s1" Examples.unchecked_update)
    = Success 200 "Student updated successfully"
  ∧ ¬ invariant
        (fst (update_student (Examples.year3_db [Examples.locked_selection])
                (Some "c3") "s1" Examples.unchecked_update)).
Proof.
  split; [apply year3_invariant; right; left|]. split; [reflexivity|].
  intros Hinv.
  destruct (Hinv (overwrite Examples.unchecked_overwrite Examples.locked_selection))
    as [Hmdm _]; [left|].
  exact Hmdm.
Qed.

(** C10. A class-teacher update that supplies [electiveSelections], for
    a student of the teacher's class, succeeds and leaves the student's
    selection row with exactly the supplied values, a category not
    supplied being null; the lock flag is kept (false for a fresh row).
    Nothing is assumed on the lock or on who teaches what: the write
    happens on a locked row and with a faculty that has no assignment or
    offering for the subject. *)
Theorem teacher_overwrite (db : Db) (classId id : Id) (body : UpdateRequest)
    (es : ElectiveSelections) (student : Student) :
  filter (λ s, s_id s = id) (students db) = [student] →
  s_class_id student = Some classId →
  upd_electiveSelections body = Some es →
  (length (selection_of db id) ≤ 1)%nat →
  let result := update_student db (Some classId) id body in
  snd result = Success 200 "Student updated successfully"
  ∧ selection_of (fst result) id
    = [ {| sel_student_id := id;
           mdm_id := es_mdm_id es; oe_id := es_oe_id es; pe_id := es_pe_id es;
           mdm_faculty_id := es_mdm_faculty_id es;
           oe_faculty_id := es_oe_faculty_id es;
           pe_faculty_id := es_pe_faculty_id es;
           selections_locked := is_locked (head (selection_of db id)) |} ].
Proof.
  intros Hst Hclass Hes Hsel result. subst result.
  unfold update_student. rewrite Hst. simpl.
  rewrite decide_False by (intros Hne; by apply Hne).
  rewrite Hes.
  set (db1 := with_students db _).
  assert (selection_of db1 id = selection_of db id) as Hsame by reflexivity.
  rewrite Hsame.
  destruct (maybeSingle_cases _ Hsel) as [[Hrows ->]|(old & Hrows & ->)]; simpl.
  - split; [done|].
    rewrite selection_of_insert, Hsame, Hrows. simpl. by rewrite decide_True.
  - split; [done|].
    rewrite selection_of_update, decide_True, Hsame, Hrows by done. simpl.
    assert (old ∈ selection_of db id) as Hold by (rewrite Hrows; left).
    apply list_elem_of_filter in Hold as [Hid _].
    unfold overwrite. by rewrite Hid.
Qed.

Lemma teacher_overwrite_witness :
  selections_locked Examples.locked_selection = true
  ∧ ¬ teaches (Examples.year3_db [Examples.locked_selection]) "f2" "O"
  ∧ selection_of
      (fst (update_student (Examples.year3_db [Examples.locked_selection])
              (Some "c3") "s1" Examples.unchecked_update)) "s1"
    = [ {| sel_student_id := "s1";
           mdm_id := Some "M"; oe_id := Some "O"; pe_id := None;
           mdm_faculty_id := None; oe_faculty_id := Some "f2"; pe_faculty_id := None;
           selections_locked := true |} ].
Proof.
  split; [reflexivity|]. split.
  - intros [(fs & Hin & Hf & _)|(os & Hin & _)].
    + simpl in Hin. rewrite !elem_of_cons, elem_of_nil in Hin.
      destruct Hin as [->|[->|[->|[]]]]; discriminate.
    + simpl in Hin. by apply elem_of_nil in Hin.
  - destruct (teacher_overwrite (Examples.year3_db [Examples.locked_selection])
                "c3" "s1" Examples.unchecked_update Examples.unchecked_overwrite
                (Examples.student "s1" "c3" 1 false)) as [_ Hrow];
      [reflexivity | reflexivity | reflexivity | vm_compute; lia |].
    etrans; [apply Hrow | reflexivity].
Defined.

End SelectionFacts.

(** ** Enrolment reconciliation *)

Module ReconcilerFacts.
Import Reconciler.





Lemma elem_of_order_by_roll_no (l : list Student) (st : Student) :
  st ∈ Store.order_by_roll_no l ↔ st ∈ l.
Proof. unfold Store.order_by_roll_no. by rewrite merge_sort_Permutation. Qed.

(** *** Source 1, on both routes *)

Lemma elem_of_direct_students (db : Db) (f s : Id) (st : Student) :
  st ∈ direct_students db f s
  ↔ ∃ a, a ∈ faculty_subjects db ∧ fs_faculty_id a = f ∧ fs_subject_id a = Some s
         ∧ st ∈ students db ∧ in_assignment a st.
Proof.
  unfold direct_students, students_of_assignment. rewrite list_elem_of_bind. split.
  - intros (a & Hst & Ha). apply list_elem_of_filter in Ha as [[Hf Hs] Ha].
    apply elem_of_order_by_roll_no, list_elem_of_filter in Hst as [Hin Hst].
    by exists a.
  - intros (a & Ha & Hf & Hs & Hst & Hin). exists a. split.
    + apply elem_of_order_by_roll_no, list_elem_of_filter. done.
    + apply list_elem_of_filter. done.
Qed.


Lemma joined_subject_id (db : Db) (a : SubjectAssignment) (subject : Subject) :
  joined_subject db a = Some subject → fs_subject_id a = Some (subj_id subject).
Proof.
  unfold joined_subject. destruct (fs_subject_id a) as [i|]; simpl; [|done].
  intros Hj. apply find_Some in Hj as [_ Hid]. by rewrite Hid.
Qed.

Lemma joined_subject_exists (db : Db) (a : SubjectAssignment) (i : Id) :
  fs_subject_id a = Some i → subject_exists db i → is_Some (joined_subject db a).
Proof.
  unfold joined_subject. intros -> (subject & Hin & Hid). simpl.
  by eapply find_is_Some.
Qed.



(** *** Source 2, on both routes *)

Lemma selects_named (f s : Id) (sel : StudentSelection) :
  selects f s sel →
  mdm_faculty_id sel = Some f ∨ oe_faculty_id sel = Some f ∨ pe_faculty_id sel = Some f.
Proof. intros [[? _]|[[? _]|[? _]]]; tauto. Qed.


Lemma elem_of_electiveSelections (db : Db) (f s : Id) (sel : StudentSelection) :
  sel ∈ student_subject_selection db → selects f s sel → sel ∈ electiveSelections db f.
Proof.
  intros Hin Hsel. unfold electiveSelections. apply list_elem_of_filter.
  split; [by eapply selects_named | done].
Qed.

Lemma elem_of_elective_students (db : Db) (f s : Id) (st : Student) :
  st ∈ elective_students db f s
  ↔ st ∈ students db
    ∧ ∃ sel, sel ∈ student_subject_selection db ∧ selects f s sel
             ∧ sel_student_id sel = s_id st.
Proof.
  unfold elective_students.
  set (ids := sel_student_id <$> filter (selects f s) (electiveSelections db f)).
  assert (s_id st ∈ ids
          ↔ ∃ sel, sel ∈ student_subject_selection db ∧ selects f s sel
                   ∧ sel_student_id sel = s_id st) as Hids.
  { unfold ids. rewrite list_elem_of_fmap. split.
    - intros (sel & Hid & Hsel). apply list_elem_of_filter in Hsel as [Hs Hsel].
      apply list_elem_of_filter in Hsel as [_ Hsel]. by exists sel.
    - intros (sel & Hin & Hs & Hid). exists sel. split; [done|].
      apply list_elem_of_filter. split; [done|]. by eapply elem_of_electiveSelections. }
  rewrite <- Hids. destruct ids as [|i l] eqn:E.
  - split; [intros Hst; by apply elem_of_nil in Hst|].
    intros [_ Hi]. by apply elem_of_nil in Hi.
  - rewrite elem_of_order_by_roll_no, list_elem_of_filter. tauto.
Qed.

Lemma elem_of_chosen (f : Id) (faculty subject : option Id) (i : Id) :
  i ∈ chosen f faculty subject ↔ faculty = Some f ∧ subject = Some i.
Proof.
  unfold chosen. destruct (decide (faculty = Some f)) as [Hf|Hf].
  - destruct subject as [j|]; simpl.
    + rewrite list_elem_of_singleton. split; [by intros -> | by intros [_ [= ->]]].
    + rewrite elem_of_nil. split; [done | by intros [_ ?]].
  - rewrite elem_of_nil. split; [done | by intros [? _]].
Qed.

Lemma elem_of_electiveSubjectIds (f : Id) (sels : list StudentSelection) (i : Id) :
  i ∈ electiveSubjectIds f sels ↔ ∃ sel, sel ∈ sels ∧ selects f i sel.
Proof.
  unfold electiveSubjectIds. rewrite uniq_elem_of, list_elem_of_bind.
  split; intros (sel & H1 & H2).
  - exists sel. split; [done|]. unfold selects.
    rewrite !elem_of_app, !elem_of_chosen in H1. tauto.
  - exists sel. split; [|done]. unfold selects in H2.
    rewrite !elem_of_app, !elem_of_chosen. tauto.
Qed.







(** The faculty route does not de-duplicate: it lists the doubly
    enrolled student once per source. *)
Lemma faculty_route_lists_per_source :
  s_id <$> listed_under Examples.both_ways_db "f1" "M" = ["s1"; "s2"; "s1"; "s3"].
Proof. vm_compute. reflexivity. Qed.


End ReconcilerFacts.


(** ** Marking a submission *)

Section ListFacts.
Context {A : Type}.

(** A filter commutes with a map that does not change what it tests. *)
Lemma filter_fmap_preserved (P : A → Prop) `{!∀ x, Decision (P x)} (g : A → A)
    (l : list A) :
  (∀ x, P (g x) ↔ P x) → filter P (g <$> l) = g <$> filter P l.
Proof.
  intros Hg. induction l as [|x l IH]; [done|].
  rewrite fmap_cons, !filter_cons, IH.
  destruct (decide (P x)) as [Hx|Hx].
  - rewrite decide_True by (by apply Hg). done.
  - rewrite decide_False by (by rewrite Hg). done.
Qed.

Lemma filter_nil_iff (P : A → Prop) `{!∀ x, Decision (P x)} (l : list A) :
  filter P l = [] ↔ ∀ x, x ∈ l → ¬ P x.
Proof.
  split.
  - intros Hf x Hx HP. assert (x ∈ filter P l) as Hin by (by apply list_elem_of_filter).
    rewrite Hf in Hin. by apply elem_of_nil in Hin.
  - intros Hall. induction l as [|x l IH]; [done|].
    rewrite filter_cons, decide_False by (apply Hall; left).
    apply IH. intros y Hy. apply Hall. by right.
Qed.

Lemma filter_all (P : A → Prop) `{!∀ x, Decision (P x)} (l : list A) :
  (∀ x, x ∈ l → P x) → filter P l = l.
Proof.
  intros Hall. induction l as [|x l IH]; [done|].
  rewrite filter_cons, decide_True by (apply Hall; left).
  f_equal. apply IH. intros y Hy. apply Hall. by right.
Qed.

Lemma fmap_id_on (g : A → A) (l : list A) :
  (∀ x, x ∈ l → g x = x) → g <$> l = l.
Proof.
  intros Hg. induction l as [|x l IH]; [done|].
  rewrite fmap_cons, Hg by left. f_equal. apply IH. intros y Hy. apply Hg. by right.
Qed.

End ListFacts.

Module MarkingFacts.
Import Marking.

(** What a success of the handler went through. *)
Lemma mark_success (db : Db) (marked_by : Id) (body : MarkRequest)
    (db' : Db) (code : Z) (msg : string) :
  mark_submission db marked_by body = (db', Success code msg) →
  ∃ student subject type status allowed subType,
    body = request student subject type status
    ∧ status_allowed status
    ∧ Selection.links db marked_by subject = [allowed]
    ∧ types_named db type = [subType]
    ∧ ((∃ existing, rows_of db student subject (st_id subType) = [existing]
                    ∧ db' = update_submission db existing status ∧ code = 200%Z)
       ∨ (rows_of db student subject (st_id subType) = []
          ∧ db' = insert_submission db
                    {| sub_student_id := student; sub_subject_id := subject;
                       sub_submission_type_id := st_id subType; sub_status := status |}
          ∧ code = 201%Z)).
Proof.
  unfold mark_submission. destruct body as [[student|] [subject|] [type|] [status|]]; simpl;
    try (intros [= _ ?]; discriminate); try discriminate.
  destruct (decide (status_allowed status)) as [Hs|Hs]; [|discriminate].
  destruct (Store.maybeSingle (Selection.links db marked_by subject))
    as [[allowed|]|] eqn:El; try discriminate.
  destruct (Store.maybeSingle (types_named db type)) as [[subType|]|] eqn:Et;
    try discriminate.
  apply maybeSingle_Some in El, Et.
  destruct (Store.maybeSingle (rows_of db student subject (st_id subType)))
    as [[existing|]|] eqn:Er; try discriminate.
  - apply maybeSingle_Some in Er. intros [= <- <- _].
    exists student, subject, type, status, allowed, subType.
    repeat split; try done. left. by exists existing.
  - intros [= <- <- _].
    exists student, subject, type, status, allowed, subType.
    repeat split; try done. right.
    destruct (rows_of db student subject (st_id subType)) as [|? [|? ?]]; done.
Qed.

Lemma key_set_status (status : string) (sub : Submission) :
  Completion.submission_key (set_status status sub) = Completion.submission_key sub.
Proof. done. Qed.

Lemma rows_of_key (db : Db) (student subject type : Id) (sub : Submission) :
  sub ∈ rows_of db student subject type
  ↔ sub ∈ student_submissions db ∧ Completion.submission_key sub = (student, subject, type).
Proof.
  unfold rows_of, Completion.submission_key. rewrite list_elem_of_filter.
  split.
  - intros [(-> & -> & ->) Hin]. done.
  - intros [Hin [= -> -> ->]]. done.
Qed.

(** The rows of the key after the update through [existing]. *)
Lemma rows_of_update (db : Db) (student subject type : Id) (existing : Submission)
    (status : string) :
  rows_of db student subject type = [existing] →
  rows_of (update_submission db existing status) student subject type
  = [ {| sub_student_id := student; sub_subject_id := subject;
         sub_submission_type_id := type; sub_status := status |} ].
Proof.
  intros Hr.
  assert (existing ∈ rows_of db student subject type) as He by (rewrite Hr; left).
  apply rows_of_key in He as [_ Hk].
  unfold rows_of, update_submission. simpl.
  rewrite filter_fmap_preserved.
  - fold (rows_of db student subject type). rewrite Hr. simpl.
    rewrite decide_True by done. unfold set_status.
    injection Hk as -> -> ->. done.
  - intros x. by destruct (decide _).
Qed.

Lemma rows_of_insert (db : Db) (student subject type : Id) (status : string) :
  rows_of db student subject type = [] →
  rows_of (insert_submission db
             {| sub_student_id := student; sub_subject_id := subject;
                sub_submission_type_id := type; sub_status := status |})
          student subject type
  = [ {| sub_student_id := student; sub_subject_id := subject;
         sub_submission_type_id := type; sub_status := status |} ].
Proof.
  intros Hr. unfold rows_of, insert_submission in *. simpl.
  rewrite filter_app, Hr, filter_cons, decide_True by done. done.
Qed.

(** X1. A successful mark leaves exactly one row of the student, the
    subject and the named submission type, with the status as sent; the
    rows of every other key and the other tables are as before. *)
Theorem mark_then_read (db : Db) (marked_by student subject : Id) (type status : string)
    (db' : Db) (code : Z) (msg : string) :
  mark_submission db marked_by (request student subject type status)
  = (db', Success code msg) →
  ∃ subType,
    types_named db type = [subType]
    ∧ rows_of db' student subject (st_id subType)
      = [ {| sub_student_id := student; sub_subject_id := subject;
             sub_submission_type_id := st_id subType; sub_status := status |} ]
    ∧ filter (λ sub, Completion.submission_key sub ≠ (student, subject, st_id subType))
             (student_submissions db')
      = filter (λ sub, Completion.submission_key sub ≠ (student, subject, st_id subType))
               (student_submissions db)
    ∧ with_submissions db' (student_submissions db) = db.
Proof.
  intros Hm. apply mark_success in Hm
    as (st & su & ty & sta & allowed & subType & Hb & Hs & Hl & Ht & Hcase).
  injection Hb as <- <- <- <-.
  exists subType. split; [done|].
  destruct Hcase as [(existing & Hr & -> & _)|(Hr & -> & _)].
  - split; [by apply rows_of_update|]. split; [|by destruct db].
    assert (existing ∈ rows_of db student subject (st_id subType)) as He by (rewrite Hr; left).
    apply rows_of_key in He as [_ Hk].
    unfold update_submission. simpl. rewrite filter_fmap_preserved.
    + apply fmap_id_on. intros x Hx. apply list_elem_of_filter in Hx as [Hx _].
      rewrite decide_False; [done|]. by rewrite Hk.
    + intros x. by destruct (decide _).
  - split; [by apply rows_of_insert|]. split; [|by destruct db].
    unfold insert_submission. simpl.
    rewrite filter_app, filter_cons, decide_False, filter_nil, app_nil_r; [done|].
    intros Hne. by apply Hne.
Qed.

Lemma mark_then_read_witness :
  ∃ subType,
    types_named MarkingExamples.lab_db "TA" = [subType]
    ∧ rows_of (mark_submission MarkingExamples.lab_db "f1"
                 (request "s1" "L" "TA" "completed")).1 "s1" "L" (st_id subType)
      = [ Examples.submission "s1" "L" (st_id subType) "completed" ]
    ∧ filter (λ sub, Completion.submission_key sub ≠ ("s1", "L", st_id subType))
             (student_submissions
                (mark_submission MarkingExamples.lab_db "f1"
                   (request "s1" "L" "TA" "completed")).1)
      = filter (λ sub, Completion.submission_key sub ≠ ("s1", "L", st_id subType))
               (student_submissions MarkingExamples.lab_db)
    ∧ with_submissions
        (mark_submission MarkingExamples.lab_db "f1" (request "s1" "L" "TA" "completed")).1
        (student_submissions MarkingExamples.lab_db)
      = MarkingExamples.lab_db.
Proof.
  apply (mark_then_read MarkingExamples.lab_db "f1" "s1" "L" "TA" "completed" _ 200
           "TA submission updated to completed successfully.").
  reflexivity.
Defined.

(** X2. The handler keeps the store at one row per (student, subject,
    submission type), whatever the request and its outcome. *)
Theorem mark_keeps_one_row_per_key (db : Db) (marked_by : Id) (body : MarkRequest) :
  Completion.one_row_per_key (student_submissions db) →
  Completion.one_row_per_key
    (student_submissions (mark_submission db marked_by body).1).
Proof.
  intros Hkey.
  destruct (mark_submission db marked_by body) as [db' r] eqn:Hm. simpl.
  destruct r as [code msg|code err].
  - apply mark_success in Hm
      as (st & su & ty & sta & allowed & subType & _ & _ & _ & _ & Hcase).
    unfold Completion.one_row_per_key in *.
    destruct Hcase as [(existing & Hr & -> & _)|(Hr & -> & _)].
    + unfold update_submission. simpl. rewrite <- list_fmap_compose.
      erewrite list_fmap_ext; [exact Hkey|].
      intros i x _. simpl. by destruct (decide _).
    + unfold insert_submission. simpl. rewrite fmap_app. apply NoDup_app.
      split; [done|]. split; [|apply NoDup_singleton].
      intros k Hk Hk'. simpl in Hk'. apply list_elem_of_singleton in Hk' as ->.
      apply list_elem_of_fmap in Hk as (x & Hx & Hin).
      assert (x ∈ rows_of db st su (st_id subType)) as Hrow by (by apply rows_of_key).
      rewrite Hr in Hrow. by apply elem_of_nil in Hrow.
  - assert (db' = db) as ->; [|done].
    revert Hm. unfold mark_submission.
    repeat (match goal with
            | |- context [match ?x with _ => _ end] => destruct x
            end; simpl); congruence.
Qed.

Lemma mark_keeps_one_row_per_key_witness :
  Completion.one_row_per_key (student_submissions MarkingExamples.lab_db)
  ∧ Completion.one_row_per_key
      (student_submissions
         (mark_submission MarkingExamples.lab_db "f1" (request "s2" "L" "TA" "pending")).1).
Proof.
  assert (Completion.one_row_per_key (student_submissions MarkingExamples.lab_db)) as Hk.
  { unfold Completion.one_row_per_key. by_evaluation. }
  split; [exact Hk|].
  exact (mark_keeps_one_row_per_key MarkingExamples.lab_db "f1"
           (request "s2" "L" "TA" "pending") Hk).
Defined.

Lemma with_submissions_twice (db : Db) (rows rows' : list Submission) :
  with_submissions (with_submissions db rows) rows' = with_submissions db rows'.
Proof. done. Qed.



(** X4. The caller is authorised by exactly one faculty_subjects row
    that links the caller to the subject: with no such row the answer is
    403, with several (the subject taught to two batches) the single-row
    fetch fails and the answer is 500; the store is unchanged in both
    cases. *)
Theorem mark_needs_one_link (db : Db) (marked_by student subject : Id)
    (type status : string) :
  status_allowed status →
  (Selection.links db marked_by subject = [] →
   mark_submission db marked_by (request student subject type status)
   = (db, Failure 403 "You are not authorized to mark submissions for this subject."))
  ∧ ((1 < length (Selection.links db marked_by subject))%nat →
     mark_submission db marked_by (request student subject type status)
     = (db, Failure 500 "store error")).
Proof.
  intros Hs. unfold mark_submission. simpl. rewrite decide_True by done. split.
  - intros ->. done.
  - intros Hlen. destruct (Selection.links db marked_by subject) as [|a [|b l]];
      simpl in *; [lia | lia | done].
Qed.

Lemma mark_needs_one_link_witness :
  status_allowed "Completed"
  ∧ (1 < length (Selection.links MarkingExamples.lab_db "f2" "T"))%nat
  ∧ mark_submission MarkingExamples.lab_db "f2" (request "s1" "T" "TA" "Completed")
    = (MarkingExamples.lab_db, Failure 500 "store error").
Proof.
  assert (status_allowed "Completed") as Hs by by_evaluation.
  assert (1 < length (Selection.links MarkingExamples.lab_db "f2" "T"))%nat as Hl
    by (vm_compute; lia).
  split; [exact Hs|]. split; [exact Hl|].
  exact (proj2 (mark_needs_one_link MarkingExamples.lab_db "f2" "s1" "T" "TA" "Completed" Hs)
           Hl).
Defined.

(** X5. After a successful mark of type TA on a practical subject, the
    class teacher's completion test of the subject for the student is
    true exactly when the status sent is the text [completed]: a status
    that passes the case-insensitive check in another spelling is stored
    as sent and does not count. *)
Theorem mark_ta_completes_practical (db : Db) (marked_by student : Id) (subject : Subject)
    (status : string) (db' : Db) (code : Z) (msg : string) :
  subj_type subject = Some "practical" →
  mark_submission db marked_by (request student (subj_id subject) "TA" status)
  = (db', Success code msg) →
  Completion.isSubjectComplete
    (Completion.taType (submission_types db')) (Completion.cieType (submission_types db'))
    (filter (λ sub, sub_student_id sub = student) (student_submissions db')) subject
  = bool_decide (status = "completed").
Proof.
  intros Hp Hm. apply mark_success in Hm
    as (st & su & ty & sta & allowed & subType & Hb & _ & _ & Ht & Hcase).
  injection Hb as <- <- <- <-.
  set (row := {| sub_student_id := student; sub_subject_id := subj_id subject;
                 sub_submission_type_id := st_id subType; sub_status := status |}).
  assert (rows_of db' student (subj_id subject) (st_id subType) = [row]
          ∧ submission_types db' = submission_types db) as [Hr Hty].
  { destruct Hcase as [(existing & Hr & -> & _)|(Hr & -> & _)].
    - split; [by apply rows_of_update | done].
    - split; [by apply rows_of_insert | done]. }
  unfold Completion.isSubjectComplete. rewrite decide_True by done.
  unfold Completion.taType. rewrite Hty, !find_head_filter.
  unfold types_named in Ht. rewrite Ht. simpl.
  rewrite !list_filter_filter.
  erewrite list_filter_iff; [unfold rows_of in Hr; rewrite Hr|]; [done|].
  intros sub. unfold Completion.of_type. simpl. split.
  - intros [[[= Hty'] Hsu] Hst]. done.
  - intros (Hst & Hsu & Hty'). by rewrite Hty'.
Qed.

Lemma mark_ta_completes_practical_witness :
  Completion.isSubjectComplete
    (Completion.taType
       (submission_types
          (mark_submission MarkingExamples.lab_db "f1" (request "s1" "L" "TA" "Completed")).1))
    (Completion.cieType
       (submission_types
          (mark_submission MarkingExamples.lab_db "f1" (request "s1" "L" "TA" "Completed")).1))
    (filter (λ sub, sub_student_id sub = "s1")
       (student_submissions
          (mark_submission MarkingExamples.lab_db "f1" (request "s1" "L" "TA" "Completed")).1))
    (Examples.subject "L" "practical" (Some "c1"))
  = bool_decide ("Completed" = "completed").
Proof.
  apply (mark_ta_completes_practical MarkingExamples.lab_db "f1" "s1"
           (Examples.subject "L" "practical" (Some "c1")) "Completed" _ 200
           "TA submission updated to Completed successfully.").
  - reflexivity.
  - reflexivity.
Defined.

End MarkingFacts.


(** ** The subjects of a faculty *)

Module FacultySubjectsFacts.
Import FacultySubjects.

Lemma consistent_nothing : consistent nothing_seen.
Proof.
  split; [|constructor]. intros i. simpl. rewrite elem_of_nil. set_solver.
Qed.

Lemma add_consistent (seen : Seen) (subject : option Subject) :
  consistent seen → consistent (add seen subject).
Proof.
  intros [Hset Hnd]. destruct subject as [s|]; simpl; [|done].
  destruct (decide (subj_id s ∈ subjectIds seen)) as [Hin|Hin]; [done|].
  split; simpl.
  - intros i. rewrite fmap_app, elem_of_app, elem_of_union, elem_of_singleton, Hset.
    simpl. rewrite list_elem_of_singleton. tauto.
  - rewrite fmap_app. apply NoDup_app. split; [done|]. split; [|apply NoDup_singleton].
    intros i Hi Hi'. simpl in Hi'. apply list_elem_of_singleton in Hi' as ->.
    apply Hin. by apply Hset.
Qed.

Lemma add_elem_of (seen : Seen) (subject : option Subject) (i : Id) :
  consistent seen →
  i ∈ subjectIds (add seen subject)
  ↔ i ∈ subjectIds seen ∨ ∃ s, subject = Some s ∧ subj_id s = i.
Proof.
  intros [Hset Hnd]. destruct subject as [s|]; simpl.
  - destruct (decide (subj_id s ∈ subjectIds seen)) as [Hin|Hin]; simpl.
    + split; [by left|]. intros [?|(s' & [= <-] & <-)]; done.
    + rewrite elem_of_union, elem_of_singleton. split.
      * intros [->|?]; [right; by exists s | by left].
      * intros [?|(s' & [= <-] & <-)]; [by right | by left].
  - split; [by left|]. intros [?|(s' & ? & _)]; done.
Qed.

Section Loop.
Context {A : Type} (g : A → option Subject).

Lemma loop_consistent (l : list A) (seen : Seen) :
  consistent seen → consistent (foldl (λ seen x, add seen (g x)) seen l).
Proof.
  revert seen. induction l as [|x l IH]; intros seen Hc; simpl; [done|].
  apply IH. by apply add_consistent.
Qed.

Lemma loop_elem_of (l : list A) (seen : Seen) (i : Id) :
  consistent seen →
  i ∈ subjectIds (foldl (λ seen x, add seen (g x)) seen l)
  ↔ i ∈ subjectIds seen ∨ ∃ x s, x ∈ l ∧ g x = Some s ∧ subj_id s = i.
Proof.
  revert seen. induction l as [|x l IH]; intros seen Hc; simpl.
  - split; [by left|]. intros [?|(x & s & Hx & _)]; [done|]. by apply elem_of_nil in Hx.
  - rewrite IH by (by apply add_consistent). rewrite add_elem_of by done. split.
    + intros [[?|(s & Hs & Hi)]|(y & s & Hy & Hs & Hi)].
      * by left.
      * right. exists x, s. split; [left | done].
      * right. exists y, s. split; [by right | done].
    + intros [?|(y & s & Hy & Hs & Hi)]; [by left; left|].
      apply elem_of_cons in Hy as [->|Hy].
      * left. right. by exists s.
      * right. by exists y, s.
Qed.

End Loop.

Lemma assigned_and_offered_consistent (db : Db) (f : Id) :
  consistent (assigned_and_offered db f).
Proof.
  unfold assigned_and_offered. apply loop_consistent, loop_consistent, consistent_nothing.
Qed.

(** The third loop of the faculty route, guard included. *)
Lemma get_subjects_fold (db : Db) (f : Id) :
  get_subjects db f
  = uniqueSubjects
      (foldl (λ seen subject, add seen (Some subject)) (assigned_and_offered db f)
         (filter (λ s, subj_id s ∈ Reconciler.electiveSubjectIds f
                                      (Reconciler.electiveSelections db f))
                 (subjects db))).
Proof.
  unfold get_subjects.
  destruct (Reconciler.electiveSubjectIds f (Reconciler.electiveSelections db f)) eqn:E;
    [|done].
  rewrite (proj2 (filter_nil_iff _ _)); [done|].
  intros x _ Hx. by apply elem_of_nil in Hx.
Qed.

Lemma allSubjects_fold (db : Db) (f : Id) :
  allSubjects db f
  = uniqueSubjects
      (foldl (λ seen subject, add seen (Some subject)) (assigned_and_offered db f)
         (filter (λ s, subj_id s ∈ unseen_electiveSubjectIds f
                                      (subjectIds (assigned_and_offered db f))
                                      (Reconciler.electiveSelections db f))
                 (subjects db))).
Proof.
  unfold allSubjects.
  destruct (unseen_electiveSubjectIds f _ (Reconciler.electiveSelections db f)) eqn:E;
    [|done].
  rewrite (proj2 (filter_nil_iff _ _)); [done|].
  intros x _ Hx. by apply elem_of_nil in Hx.
Qed.

Lemma elem_of_chosen_unseen (f : Id) (seen : gset Id) (faculty subject : option Id) (i : Id) :
  i ∈ chosen_unseen f seen faculty subject
  ↔ i ∈ Reconciler.chosen f faculty subject ∧ i ∉ seen.
Proof.
  unfold chosen_unseen, Reconciler.chosen.
  destruct (decide (faculty = Some f)) as [Hf|Hf]; [|rewrite elem_of_nil; tauto].
  destruct subject as [j|]; simpl; [|rewrite elem_of_nil; tauto].
  destruct (decide (j ∈ seen)) as [Hj|Hj].
  - rewrite elem_of_nil, list_elem_of_singleton. split; [done|]. by intros [-> ?].
  - rewrite list_elem_of_singleton. split; [by intros -> | tauto].
Qed.

Lemma elem_of_unseen (f : Id) (seen : gset Id) (sels : list StudentSelection) (i : Id) :
  i ∈ unseen_electiveSubjectIds f seen sels
  ↔ i ∈ Reconciler.electiveSubjectIds f sels ∧ i ∉ seen.
Proof.
  unfold unseen_electiveSubjectIds, Reconciler.electiveSubjectIds.
  rewrite !uniq_elem_of, !list_elem_of_bind. split.
  - intros (sel & Hi & Hsel). rewrite !elem_of_app, !elem_of_chosen_unseen in Hi.
    split; [|tauto]. exists sel. rewrite !elem_of_app. tauto.
  - intros [(sel & Hi & Hsel) Hn]. exists sel. split; [|done].
    rewrite !elem_of_app in Hi. rewrite !elem_of_app, !elem_of_chosen_unseen. tauto.
Qed.

(** A subject that is listed already is skipped by the loop, so that
    leaving it out of the loop's input changes nothing. *)
Lemma skip_seen (P Q : Subject → Prop) `{!∀ s, Decision (P s)} `{!∀ s, Decision (Q s)}
    (seen0 : gset Id) (l : list Subject) (seen : Seen) :
  (∀ s, Q s ↔ P s ∧ subj_id s ∉ seen0) →
  seen0 ⊆ subjectIds seen →
  foldl (λ seen subject, add seen (Some subject)) seen (filter Q l)
  = foldl (λ seen subject, add seen (Some subject)) seen (filter P l).
Proof.
  intros HQ. revert seen. induction l as [|x l IH]; intros seen Hsub; [done|].
  rewrite !filter_cons. destruct (decide (P x)) as [HP|HP].
  - destruct (decide (subj_id x ∈ seen0)) as [Hx|Hx].
    + rewrite decide_False by (rewrite HQ; tauto). simpl.
      rewrite decide_True by (by apply Hsub). by apply IH.
    + rewrite decide_True by (rewrite HQ; tauto). simpl. apply IH.
      destruct (decide (subj_id x ∈ subjectIds seen)); simpl; [done|].
      intros i Hi. apply elem_of_union. right. by apply Hsub.
  - rewrite decide_False by (rewrite HQ; tauto). by apply IH.
Qed.

Lemma allSubjects_get_subjects (db : Db) (f : Id) :
  allSubjects db f = get_subjects db f.
Proof.
  rewrite allSubjects_fold, get_subjects_fold. f_equal.
  apply (skip_seen _ _ (subjectIds (assigned_and_offered db f))); [|done].
  intros s. apply elem_of_unseen.
Qed.

(** X6. For the role faculty the class-teacher route [GET /subjects]
    lists exactly the entries of the faculty route [GET /subjects], in the
    same order, split into the practical ones and the others: leaving the
    listed subjects out of the elective ids beforehand changes nothing. *)
Theorem split_subjects_agree (db : Db) (userId : Id) :
  get_split_subjects db userId "faculty"
  = OfFaculty (filter (λ s, e_type s ≠ Some "practical") (get_subjects db userId))
              (filter (λ s, e_type s = Some "practical") (get_subjects db userId)).
Proof.
  unfold get_split_subjects. rewrite decide_True by done.
  by rewrite allSubjects_get_subjects.
Qed.

Lemma get_subjects_consistent (db : Db) (f : Id) :
  ∃ seen, consistent seen ∧ get_subjects db f = uniqueSubjects seen
          ∧ ∀ i, i ∈ subjectIds seen
                 ↔ i ∈ subjectIds (assigned_and_offered db f)
                   ∨ ∃ x s, x ∈ filter (λ s, subj_id s ∈ Reconciler.electiveSubjectIds f
                                                (Reconciler.electiveSelections db f))
                                       (subjects db)
                            ∧ Some x = Some s ∧ subj_id s = i.
Proof.
  eexists. split; [|split; [apply get_subjects_fold|]].
  - apply loop_consistent, assigned_and_offered_consistent.
  - intros i. apply (loop_elem_of Some), assigned_and_offered_consistent.
Qed.

(** X7. The faculty route lists no subject twice. *)
Theorem subjects_listed_once (db : Db) (facultyId : Id) :
  NoDup (e_id <$> get_subjects db facultyId).
Proof.
  destruct (get_subjects_consistent db facultyId) as (seen & [_ Hnd] & -> & _). done.
Qed.

Lemma elem_of_assigned_and_offered (db : Db) (f i : Id) :
  i ∈ subjectIds (assigned_and_offered db f)
  ↔ Reconciler.subject_exists db i ∧ Selection.teaches db f i.
Proof.
  unfold assigned_and_offered.
  rewrite loop_elem_of by apply loop_consistent, consistent_nothing.
  rewrite loop_elem_of by apply consistent_nothing.
  unfold Selection.teaches, Reconciler.subject_exists. split.
  - intros [[Hi|(fs & s & Hfs & Hj & Hi)]|(os & s & Hos & Hj & Hi)].
    + simpl in Hi. set_solver.
    + apply list_elem_of_filter in Hfs as [Hf Hfs].
      pose proof (ReconcilerFacts.joined_subject_id _ _ _ Hj) as Hid.
      unfold Reconciler.joined_subject in Hj. rewrite Hid in Hj. simpl in Hj.
      apply find_Some in Hj as [Hin _]. split; [by exists s|].
      left. exists fs. by rewrite Hid, Hi.
    + apply list_elem_of_filter in Hos as [Hf Hos].
      apply find_Some in Hj as [Hin Hid]. split; [by exists s|].
      right. exists os. by rewrite <- Hid, Hi.
  - intros [(s & Hin & Hid) [(fs & Hfs & Hf & Hs)|(os & Hos & Hs & Hf)]].
    + left. right.
      destruct (ReconcilerFacts.joined_subject_exists db fs i Hs) as [s' Hj];
        [by exists s|].
      exists fs, s'. split; [by apply list_elem_of_filter|]. split; [done|].
      apply ReconcilerFacts.joined_subject_id in Hj. congruence.
    + right. destruct (find_is_Some (λ s, subj_id s = os_subject_id os) (subjects db) s)
        as [s' Hj]; [done | congruence |].
      exists os, s'. split; [by apply list_elem_of_filter|]. split; [done|].
      apply find_Some in Hj as [_ Hid']. congruence.
Qed.

(** X8. A subject is listed for a faculty exactly when it is in the
    subjects table and something links the faculty to it: an assignment
    row, an offered row that names the faculty, or a student's selection
    that names the faculty for it. *)
Theorem subjects_listed_iff_linked (db : Db) (facultyId i : Id) :
  i ∈ e_id <$> get_subjects db facultyId
  ↔ Reconciler.subject_exists db i ∧ linked db facultyId i.
Proof.
  destruct (get_subjects_consistent db facultyId) as (seen & [Hset _] & -> & Hi).
  rewrite <- Hset, Hi, elem_of_assigned_and_offered. unfold linked. split.
  - intros [[He Ht]|(x & s & Hx & [= <-] & Hid)]; [tauto|].
    apply list_elem_of_filter in Hx as [Hx Hin]. split; [by exists x|].
    right. rewrite Hid in Hx.
    apply ReconcilerFacts.elem_of_electiveSubjectIds in Hx as (sel & Hsel & Hs).
    apply list_elem_of_filter in Hsel as [_ Hsel]. by exists sel.
  - intros [He [Ht|(sel & Hsel & Hs)]]; [by left|].
    right. destruct He as (s & Hin & Hid). exists s, s. split; [|done].
    apply list_elem_of_filter. split; [|done]. rewrite Hid.
    apply ReconcilerFacts.elem_of_electiveSubjectIds. exists sel. split; [|done].
    by eapply ReconcilerFacts.elem_of_electiveSelections.
Qed.

(** *** The submission route *)

Section SubjectMap.
Context (P Q : Id → Prop).

Lemma set_new_ok (m : SubjectMap) (e : Grouped) :
  map_ok P Q m → P (g_id e) → (Q (g_id e) → is_Some (g_batches e)) →
  map_ok P Q (set_new m e) ∧ has (set_new m e) (g_id e).
Proof.
  intros [Hnd Hall] HP HQ. unfold set_new.
  destruct (decide (has m (g_id e))) as [Hin|Hin]; [done|].
  split; [split|].
  - rewrite fmap_app. apply NoDup_app. split; [done|]. split; [|apply NoDup_singleton].
    intros k Hk Hk'. simpl in Hk'. apply list_elem_of_singleton in Hk' as ->. done.
  - apply Forall_app. split; [done|]. apply Forall_singleton. done.
  - unfold has. rewrite fmap_app, elem_of_app. right. simpl. left.
Qed.

Lemma push_batch_ok (m : SubjectMap) (i : Id) (ref : BatchRef) :
  Forall (entry_ok P Q) m → has m i → Q i →
  ∃ m', push_batch m i ref = Some m' ∧ m'.*1 = m.*1 ∧ Forall (entry_ok P Q) m'.
Proof.
  intros Hall Hin HQ. induction m as [|[k e] m IH]; simpl.
  - by apply elem_of_nil in Hin.
  - apply Forall_cons in Hall as [(Hid & HP & Hb) Hall]. simpl in *.
    destruct (decide (k = i)) as [->|Hne].
    + destruct (Hb HQ) as [refs ->]. eexists. split; [done|]. split; [done|].
      apply Forall_cons. split; [|done]. split; [done|]. split; [done|].
      intros _. simpl. by eexists.
    + unfold has in Hin. rewrite fmap_cons, elem_of_cons in Hin. simpl in Hin.
      destruct Hin as [Hin|Hin]; [congruence|].
      destruct (IH Hall Hin) as (m' & -> & Hk & Hok). eexists. split; [done|].
      split; [by rewrite !fmap_cons, Hk|]. apply Forall_cons. done.
Qed.

End SubjectMap.

Lemma map_ok_weaken (P Q Q' : Id → Prop) (m : SubjectMap) :
  (∀ i, Q' i → Q i) → map_ok P Q m → map_ok P Q' m.
Proof.
  intros HQ [Hnd Hall]. split; [done|]. eapply Forall_impl; [exact Hall|].
  intros p (H1 & H2 & H3). split; [done|]. split; [done|]. intros Hq. by apply H3, HQ.
Qed.

Lemma joined_subject_find (db : Db) (fs : SubjectAssignment) (s : Subject) :
  Reconciler.joined_subject db fs = Some s →
  Js.find (λ s', subj_id s' = subj_id s) (subjects db) = Some s.
Proof.
  intros Hj. pose proof (ReconcilerFacts.joined_subject_id _ _ _ Hj) as Hid.
  unfold Reconciler.joined_subject in Hj. by rewrite Hid in Hj.
Qed.

Lemma group_ok (db : Db) (f : Id) (names : gmap Id string) (m : SubjectMap)
    (fs : SubjectAssignment) :
  fs ∈ assignments db f →
  map_ok (known db f) (practical_id db) m →
  ∃ m', group db names (Some m) fs = Some m'
        ∧ map_ok (known db f) (practical_id db) m'.
Proof.
  intros Hfs Hm. unfold group. simpl.
  destruct (Reconciler.joined_subject db fs) as [s|] eqn:Hj; [|by exists m].
  assert (known db f (subj_id s)) as Hk.
  { pose proof (joined_subject_find _ _ _ Hj) as Hfind.
    apply find_Some in Hfind as [Hin _]. split; [by exists s|].
    left. left. exists fs. apply list_elem_of_filter in Hfs as [Hf Hfs].
    split; [done|]. split; [done|]. by eapply ReconcilerFacts.joined_subject_id. }
  destruct (decide (subj_type s = Some "theory")) as [Ht|Ht].
  - eexists. split; [done|]. apply set_new_ok; [done | done |]. simpl.
    intros (s' & Hfind & Hp). rewrite (joined_subject_find _ _ _ Hj) in Hfind.
    injection Hfind as <-. congruence.
  - destruct (decide (subj_type s = Some "practical")) as [Hp|Hp]; [|by exists m].
    match goal with
    | |- context [set_new m ?e] =>
        destruct (set_new_ok (known db f) (practical_id db) m e Hm) as [Hm' Hhas];
          [done | by eexists |]
    end. simpl in Hhas.
    destruct (fs_batch_id fs) as [b|]; [|by eexists].
    destruct (names !! b) as [batchName|]; [|by eexists].
    destruct (decide (batchName = "")); [by eexists|].
    destruct Hm' as [Hnd Hall].
    edestruct (push_batch_ok (known db f) (practical_id db)) as (m' & Hpush & Hkeys & Hok);
      [exact Hall | exact Hhas | |].
    + exists s. split; [by eapply joined_subject_find | done].
    + exists m'. split; [exact Hpush|]. split; [by rewrite Hkeys | done].
Qed.

Lemma group_loop_ok (db : Db) (f : Id) (names : gmap Id string)
    (l : list SubjectAssignment) (m : SubjectMap) :
  (∀ fs, fs ∈ l → fs ∈ assignments db f) →
  map_ok (known db f) (practical_id db) m →
  ∃ m', foldl (group db names) (Some m) l = Some m'
        ∧ map_ok (known db f) (practical_id db) m'.
Proof.
  revert m. induction l as [|fs l IH]; intros m Hl Hm; [by exists m|].
  destruct (group_ok db f names m fs) as (m1 & Hg & Hm1); [apply Hl; left | done |].
  change (foldl (group db names) (Some m) (fs :: l))
    with (foldl (group db names) (group db names (Some m) fs) l).
  rewrite Hg. apply IH; [|done]. intros fs' Hin. apply Hl. by right.
Qed.

Lemma set_new_loop_ok {A} (P : Id → Prop) (step : A → option Grouped)
    (F : SubjectMap → A → SubjectMap) (l : list A) (m : SubjectMap) :
  (∀ m x, F m x = match step x with Some e => set_new m e | None => m end) →
  (∀ x e, x ∈ l → step x = Some e → P (g_id e) ∧ g_batches e = None) →
  map_ok P (λ _, False) m →
  map_ok P (λ _, False) (foldl F m l).
Proof.
  intros HF. revert m. induction l as [|x l IH]; intros m Hl Hm; simpl; [done|].
  apply IH; [intros y e Hy; apply Hl; by right|].
  rewrite HF. destruct (step x) as [e|] eqn:E; [|done].
  destruct (Hl x e) as [HP _]; [left | done |].
  by apply set_new_ok.
Qed.

Lemma subjectMap_ok (db : Db) (batches : list Batch) (f : Id) :
  ∃ m, subjectMap db batches f = Some m ∧ map_ok (known db f) (λ _, False) m.
Proof.
  unfold subjectMap. cbv zeta.
  destruct (group_loop_ok db f (batchMap batches (assignments db f))
              (assignments db f) []) as (m1 & Hg & Hm1); [done | |].
  { split; [constructor | constructor]. }
  unfold SubjectMap in *. rewrite Hg. simpl. eexists. split; [done|].
  apply (map_ok_weaken _ _ (λ _, False)) in Hm1; [|done].
  match goal with
  | |- context [foldl ?F m1 (offered_to db f)] => set (m2 := foldl F m1 (offered_to db f))
  end.
  assert (map_ok (known db f) (λ _, False) m2) as Hm2.
  { subst m2.
    apply (set_new_loop_ok (known db f)
             (λ offered, (λ subject,
                {| g_id := subj_id subject; g_code := subj_code subject;
                   g_name := subj_name subject; g_type := subj_type subject;
                   g_batches := None |}) <$> offered_subject db offered)).
    - intros m os. by destruct (offered_subject db os).
    - intros os e Hos He. destruct (offered_subject db os) as [s|] eqn:Hj; [|done].
      injection He as <-. simpl. split; [|done].
      apply list_elem_of_filter in Hos as [Hf Hos].
      apply find_Some in Hj as [Hin Hid]. split; [by exists s|].
      left. right. by exists os.
    - done. }
  destruct (Reconciler.electiveSubjectIds f (Reconciler.electiveSelections db f))
    as [|i0 ids] eqn:E; [done|]. rewrite <- E.
  apply (set_new_loop_ok (known db f)
           (λ subject, Some
              {| g_id := subj_id subject; g_code := subj_code subject;
                 g_name := subj_name subject;
                 g_type := Some (type_or_theory (subj_type subject));
                 g_batches := None |})).
  - done.
  - intros s e Hs [= <-]. simpl. split; [|done].
    apply list_elem_of_filter in Hs as [Hi Hin]. split; [by exists s|].
    right. apply ReconcilerFacts.elem_of_electiveSubjectIds in Hi as (sel & Hsel & Hs).
    apply list_elem_of_filter in Hsel as [_ Hsel]. by exists sel.
  - done.
Qed.

(** X9. The submission route [GET /faculty-subjects] always answers: the
    in-place push of a batch never meets an entry without the field
    [batches].  Its two lists together hold no subject twice, and every
    subject they hold is in the subjects table and linked to the faculty
    by an assignment, an offered row or a selection. *)
Theorem faculty_subjects_grouped (db : Db) (batches : list Batch) (faculty_id : Id) :
  ∃ groups,
    get_faculty_subjects db batches faculty_id = Success 200 groups
    ∧ NoDup (g_id <$> (theory groups ++ practical groups))
    ∧ ∀ i, i ∈ g_id <$> (theory groups ++ practical groups) →
           Reconciler.subject_exists db i ∧ linked db faculty_id i.
Proof.
  destruct (subjectMap_ok db batches faculty_id) as (m & Hm & [Hnd Hall]).
  unfold get_faculty_subjects. rewrite Hm. eexists. split; [done|]. simpl.
  assert (g_id <$> m.*2 = m.*1) as Hids.
  { rewrite <- list_fmap_compose. apply list_fmap_ext. intros i p Hp. simpl.
    rewrite Forall_forall in Hall. apply (Hall p). by eapply list_elem_of_lookup_2. }
  assert ((filter (λ s, g_type s ≠ Some "practical") m.*2
           ++ filter (λ s, g_type s = Some "practical") m.*2) ≡ₚ m.*2) as Hperm.
  { rewrite Permutation_app_comm. apply filter_app_complement. }
  split.
  - rewrite Hperm, Hids. done.
  - intros i. rewrite Hperm, Hids. intros Hi.
    apply list_elem_of_fmap in Hi as (p & -> & Hp).
    rewrite Forall_forall in Hall. by destruct (Hall p Hp) as (_ & Hk & _).
Qed.

End FacultySubjectsFacts.


(** ** The subjects of a student *)

Module StudentSubjectsFacts.
Import StudentSubjects.

(** What a success of the route went through. *)
Lemma get_subjects_success (db : Db) (table : list Availability.Row)
    (user : Dashboard.Caller) (body : SubjectsByType) :
  get_subjects db table user = Success 200 body →
  ∃ student_id class_id classInfo studentSelections,
    Dashboard.caller_id user = Some student_id
    ∧ Dashboard.caller_class_id user = Some class_id
    ∧ Store.maybeSingle (filter (λ c, c_id c = class_id) (classes db)) = Some classInfo
    ∧ Store.maybeSingle (Selection.selection_of db student_id) = Some studentSelections.
Proof.
  unfold get_subjects.
  destruct (Dashboard.caller_id user) as [student_id|]; [|done].
  destruct (Dashboard.caller_class_id user) as [class_id|]; [|done].
  destruct (Store.maybeSingle (filter _ (classes db))) as [classInfo|] eqn:Ec; [|done].
  destruct (Store.maybeSingle (Selection.selection_of db student_id))
    as [studentSelections|] eqn:Es; [|done].
  intros _. by exists student_id, class_id, classInfo, studentSelections.
Qed.

Lemma elem_of_elective_entry (db : Db) (shown : bool) (ids : list Id)
    (names : gmap Id string) (subject faculty : option Id) (description : string) (i : Id) :
  (∀ j, subject = Some j → j ∈ ids) →
  i ∈ ee_id <$> elective_entry shown
                  match ids with
                  | [] => []
                  | _ => filter (λ s, subj_id s ∈ ids) (subjects db)
                  end
                  names subject faculty description
  ↔ shown = true ∧ subject = Some i ∧ Reconciler.subject_exists db i.
Proof.
  intros Hids. unfold elective_entry. destruct shown.
  2: { rewrite fmap_nil, elem_of_nil. split; [done | by intros [? _]]. }
  destruct subject as [j|].
  2: { rewrite fmap_nil, elem_of_nil. split; [done | by intros (_ & ? & _)]. }
  assert (match ids with
          | [] => []
          | _ => filter (λ s, subj_id s ∈ ids) (subjects db)
          end = filter (λ s, subj_id s ∈ ids) (subjects db)) as ->.
  { destruct ids; [|done]. specialize (Hids j eq_refl). by apply elem_of_nil in Hids. }
  destruct (Js.find _ _) as [found|] eqn:Hf; simpl.
  - apply find_Some in Hf as [Hin Hid]. apply list_elem_of_filter in Hin as [_ Hin].
    rewrite list_elem_of_singleton. split.
    + intros ->. split; [done|]. split; [by rewrite Hid|]. by exists found.
    + intros (_ & [= ->] & _). done.
  - rewrite elem_of_nil. split; [done|]. intros (_ & [= ->] & (s & Hin & Hid)).
    rewrite find_None in Hf. apply (Hf s); [|done].
    apply list_elem_of_filter. split; [|done]. rewrite Hid. by apply Hids.
Qed.

(** The year-requirement table, by category. *)
Lemma required_years (year : Z) :
  ("MDM" ∈ Selection.required year ↔ (year = 2 ∨ year = 3)%Z)
  ∧ ("OE" ∈ Selection.required year ↔ (year = 2 ∨ year = 3 ∨ year = 4)%Z)
  ∧ ("PE" ∈ Selection.required year ↔ (year = 3 ∨ year = 4)%Z).
Proof.
  unfold Selection.required.
  destruct (decide (year = 2)%Z) as [->|H2];
    [|destruct (decide (year = 3)%Z) as [->|H3];
      [|destruct (decide (year = 4)%Z) as [->|H4]]];
    repeat split; intros Hy; try lia; try by_evaluation;
    exfalso; revert Hy; by_evaluation.
Qed.

Lemma elective_entry_length shown electiveSubjects names subject faculty description :
  (length (elective_entry shown electiveSubjects names subject faculty description) ≤ 1)%nat.
Proof.
  unfold elective_entry. destruct shown; [|simpl; lia].
  destruct subject; [|simpl; lia]. destruct (Js.find _ _); simpl; lia.
Qed.

(** X10. The student's subject list shows a selected elective exactly
    when the year-requirement table has its category for the class year
    (MDM in years 2 and 3, OE in years 2 to 4, PE in years 3 and 4) and
    the selected subject is in the subjects table; each of the three
    lists holds at most one entry. *)
Theorem electives_shown_by_year (db : Db) (table : list Availability.Row)
    (user : Dashboard.Caller) (body : SubjectsByType) :
  get_subjects db table user = Success 200 body →
  ∃ student_id class_id classInfo studentSelections,
    Dashboard.caller_id user = Some student_id
    ∧ Dashboard.caller_class_id user = Some class_id
    ∧ Store.maybeSingle (filter (λ c, c_id c = class_id) (classes db)) = Some classInfo
    ∧ Store.maybeSingle (Selection.selection_of db student_id) = Some studentSelections
    ∧ ∀ category, category ∈ ["MDM"; "OE"; "PE"] →
        (length (bucket category body) ≤ 1)%nat
        ∧ ∀ i, i ∈ ee_id <$> bucket category body
               ↔ category ∈ Selection.required (Selection.classYear classInfo)
                 ∧ (∃ sel, studentSelections = Some sel
                           ∧ Selection.subject_of category sel = Some i)
                 ∧ Reconciler.subject_exists db i.
Proof.
  intros Hg. pose proof Hg as Hs. apply get_subjects_success in Hs
    as (student_id & class_id & classInfo & studentSelections & Hid & Hc & Hci & Hsel).
  exists student_id, class_id, classInfo, studentSelections.
  do 4 (split; [done|]).
  revert Hg. unfold get_subjects. rewrite Hid, Hc, Hci, Hsel. intros [= <-].
  set (year := Selection.classYear classInfo).
  destruct (required_years year) as (Hmdm & Hoe & Hpe).
  intros category Hcat. destruct studentSelections as [sel|].
  - assert (∀ column, (column = mdm_id ∨ column = oe_id ∨ column = pe_id) →
              ∀ j, column sel = Some j → j ∈ Dashboard.electiveSubjectIds (Some sel))
      as Hids.
    { intros column Hcol j Hj. simpl. rewrite !elem_of_app.
      destruct Hcol as [->|[->| ->]]; rewrite Hj; simpl; rewrite list_elem_of_singleton;
        tauto. }
    assert (∀ (column : StudentSelection → option Id) (Y R E : Prop) i,
              (R ↔ Y) →
              (Y ∧ column sel = Some i ∧ E
               ↔ R ∧ (∃ sel', Some sel = Some sel' ∧ column sel' = Some i) ∧ E)) as Hiff.
    { intros column Y R E i HR. rewrite HR. split.
      - intros (HY & Hcol & HE). split; [done|]. split; [by exists sel | done].
      - intros (HY & (sel' & [= <-] & Hcol) & HE). done. }
    repeat (apply elem_of_cons in Hcat as [->|Hcat]); [| | |by apply elem_of_nil in Hcat];
      (split; [apply elective_entry_length|]); intros i.
    + unfold bucket, Selection.subject_of. simpl.
      rewrite elem_of_elective_entry by (apply Hids; tauto).
      rewrite bool_decide_eq_true. by apply Hiff.
    + unfold bucket, Selection.subject_of. simpl.
      rewrite elem_of_elective_entry by (apply Hids; tauto).
      rewrite bool_decide_eq_true. by apply Hiff.
    + unfold bucket, Selection.subject_of. simpl.
      rewrite elem_of_elective_entry by (apply Hids; tauto).
      rewrite bool_decide_eq_true. by apply Hiff.
  - repeat (apply elem_of_cons in Hcat as [->|Hcat]); [| | |by apply elem_of_nil in Hcat];
      simpl; (split; [lia|]); intros i; rewrite elem_of_nil;
      (split; [done | by intros (_ & (sel' & ? & _) & _)]).
Qed.

Lemma electives_shown_by_year_witness :
  ∃ student_id class_id classInfo studentSelections,
    Dashboard.caller_id StudentExamples.caller = Some student_id
    ∧ Dashboard.caller_class_id StudentExamples.caller = Some class_id
    ∧ Store.maybeSingle (filter (λ c, c_id c = class_id) (classes StudentExamples.db))
      = Some classInfo
    ∧ Store.maybeSingle (Selection.selection_of StudentExamples.db student_id)
      = Some studentSelections
    ∧ ∀ category, category ∈ ["MDM"; "OE"; "PE"] →
        (length (bucket category StudentExamples.body) ≤ 1)%nat
        ∧ ∀ i, i ∈ ee_id <$> bucket category StudentExamples.body
               ↔ category ∈ Selection.required (Selection.classYear classInfo)
                 ∧ (∃ sel, studentSelections = Some sel
                           ∧ Selection.subject_of category sel = Some i)
                 ∧ Reconciler.subject_exists StudentExamples.db i.
Proof.
  apply (electives_shown_by_year StudentExamples.db StudentExamples.table
           StudentExamples.caller StudentExamples.body).
  reflexivity.
Defined.

(** The subject behind an entry of the elective lists: it is in the
    subjects table and its id is among the selected ids. *)
Lemma electives_listed (db : Db) (table : list Availability.Row) (user : Dashboard.Caller)
    (body : SubjectsByType) (student_id class_id : Id) (classInfo : option Class)
    (studentSelections : option StudentSelection) :
  get_subjects db table user = Success 200 body →
  Dashboard.caller_id user = Some student_id →
  Dashboard.caller_class_id user = Some class_id →
  Store.maybeSingle (filter (λ c, c_id c = class_id) (classes db)) = Some classInfo →
  Store.maybeSingle (Selection.selection_of db student_id) = Some studentSelections →
  ∀ i, i ∈ ee_id <$> mdm body ++ oe body ++ pe body →
       ∃ x, subj_id x ∈ Dashboard.electiveSubjectIds studentSelections
            ∧ x ∈ subjects db ∧ subj_id x = i.
Proof.
  intros Hg Hid Hc Hci Hsel i Hi. revert Hg Hi. unfold get_subjects.
  rewrite Hid, Hc, Hci, Hsel. intros [= <-]. simpl.
  destruct studentSelections as [sel|]; [|by rewrite elem_of_nil].
  assert (∀ shown (column faculty : option Id) description names,
            (∀ j, column = Some j → j ∈ Dashboard.electiveSubjectIds (Some sel)) →
            i ∈ ee_id <$> elective_entry shown
                            match Dashboard.electiveSubjectIds (Some sel) with
                            | [] => []
                            | _ => filter (λ s, subj_id s ∈ Dashboard.electiveSubjectIds
                                                              (Some sel)) (subjects db)
                            end names column faculty description →
            ∃ x, subj_id x ∈ Dashboard.electiveSubjectIds (Some sel)
                 ∧ x ∈ subjects db ∧ subj_id x = i) as Hone.
  { intros shown column faculty description names Hcol Hin.
    apply elem_of_elective_entry in Hin as (_ & Hcoli & (x & Hx & Hxi)); [|done].
    exists x. split; [|done]. rewrite Hxi. by apply Hcol. }
  assert (∀ column, (column = mdm_id ∨ column = oe_id ∨ column = pe_id) →
            ∀ j, column sel = Some j → j ∈ Dashboard.electiveSubjectIds (Some sel))
    as Hids.
  { intros column Hcol j Hj. simpl. rewrite !elem_of_app.
    destruct Hcol as [->|[->| ->]]; rewrite Hj; simpl; rewrite list_elem_of_singleton;
      tauto. }
  rewrite !fmap_app, !elem_of_app. intros [Hi|[Hi|Hi]];
    (eapply Hone; [|exact Hi]); apply Hids; tauto.
Qed.

Lemma add_electives_keeps (c : Id) (electiveSubjects subjects : list Subject) (s : Subject) :
  s ∈ subjects → s ∈ Dashboard.add_electives c electiveSubjects subjects.
Proof.
  unfold Dashboard.add_electives. revert subjects.
  induction electiveSubjects as [|x l IH]; intros subjects Hs; simpl; [done|].
  apply IH. destruct (Js.find _ subjects); [done|]. apply elem_of_app. by left.
Qed.

Lemma class_entry_visible (facultySubjects : list SubjectAssignment) (names : gmap Id string)
    (available : gmap Id bool) (batch_id : option Id) (subject : Subject) (e : ClassEntry) :
  e ∈ (class_entry facultySubjects names available batch_id subject).1
      ++ (class_entry facultySubjects names available batch_id subject).2 →
  ce_id e = subj_id subject ∧ Dashboard.visible facultySubjects batch_id subject = true.
Proof.
  unfold class_entry, Dashboard.visible.
  destruct (decide (subj_type subject = Some "theory")) as [Ht|Ht]; simpl.
  - rewrite list_elem_of_singleton. by intros ->.
  - destruct (decide (subj_type subject = Some "practical")) as [Hp|Hp]; simpl;
      [|by rewrite elem_of_nil].
    destruct (Js.find _ _) as [a|] eqn:Hf; simpl; [|by rewrite elem_of_nil].
    rewrite list_elem_of_singleton. intros ->. split; [done|].
    apply find_Some in Hf as [Hin Hb]. apply list_elem_of_filter in Hin as [Hs Hin].
    apply bool_decide_eq_true, Exists_exists. exists a. split; [done|].
    split; [done | by left].
Qed.

Lemma add_electives_ids (c : Id) (electiveSubjects subjects : list Subject) (x : Subject) :
  x ∈ electiveSubjects →
  subj_id x ∈ subj_id <$> Dashboard.add_electives c electiveSubjects subjects.
Proof.
  revert subjects. induction electiveSubjects as [|x0 l IH]; intros subjects Hx.
  - by apply elem_of_nil in Hx.
  - apply elem_of_cons in Hx as [->|Hx]; [|by apply IH].
    unfold Dashboard.add_electives. simpl.
    destruct (Js.find _ subjects) as [s|] eqn:Hf.
    + apply find_Some in Hf as [Hin Hid]. rewrite <- Hid.
      apply list_elem_of_fmap_2. by apply add_electives_keeps.
    + match goal with
      | |- _ ∈ _ <$> foldl _ (_ ++ [?row]) _ =>
          change (subj_id x0) with (subj_id row);
            apply list_elem_of_fmap_2, add_electives_keeps
      end.
      apply elem_of_app. right. left.
Qed.

(** X11. Every subject of the five lists of the student's subject list
    is also on the student's dashboard.  The converse fails on both
    sides of the list: it shows a practical subject only for an
    assignment of exactly the caller's batch, where the dashboard also
    shows those assigned to no batch, and it shows a selected elective
    only in the years of its category, where the dashboard shows every
    selected elective. *)
Theorem listed_subjects_on_dashboard (db : Db) (table : list Availability.Row)
    (user : Dashboard.Caller) (body : SubjectsByType) (student_id class_id : Id)
    (studentSelections : option StudentSelection) :
  get_subjects db table user = Success 200 body →
  Dashboard.caller_id user = Some student_id →
  Dashboard.caller_class_id user = Some class_id →
  Store.maybeSingle (Selection.selection_of db student_id) = Some studentSelections →
  ∀ i, i ∈ (ce_id <$> theory body ++ practical body)
           ++ (ee_id <$> mdm body ++ oe body ++ pe body) →
       i ∈ subj_id <$> Dashboard.dashboard_subjects db student_id class_id
                         (Dashboard.caller_batch_id user) studentSelections.
Proof.
  intros Hg Hid Hc Hsel i Hi.
  pose proof Hg as Hs. apply get_subjects_success in Hs
    as (sid & c & classInfo & sel & Hid' & Hc' & Hci & Hsel').
  rewrite Hid in Hid'. injection Hid' as <-. rewrite Hc in Hc'. injection Hc' as <-.
  rewrite Hsel in Hsel'. injection Hsel' as <-.
  apply elem_of_app in Hi as [Hi|Hi].
  - apply list_elem_of_fmap in Hi as (e & -> & He).
    revert Hg He. unfold get_subjects. rewrite Hid, Hc, Hci, Hsel. intros [= <-]. simpl.
    intros He.
    assert (∃ subject,
              subject ∈ filter (λ s, subj_class_id s = Some class_id) (subjects db)
              ∧ ce_id e = subj_id subject
              ∧ Dashboard.visible
                  (filter (λ fs, fs_class_id fs = Some class_id) (faculty_subjects db))
                  (Dashboard.caller_batch_id user) subject = true)
      as (subject & Hin & Heq & Hv).
    { apply elem_of_app in He as [He|He]; apply list_elem_of_bind in He as (p & He & Hp);
        apply list_elem_of_fmap in Hp as (subject & -> & Hin); exists subject;
        (split; [done|]); eapply (class_entry_visible _ _ _ _ _ e); apply elem_of_app;
        [left; exact He | right; exact He]. }
    rewrite Heq. apply list_elem_of_fmap_2. unfold Dashboard.dashboard_subjects.
    assert (subject ∈ filter (λ s, Dashboard.visible
                                     (filter (λ fs, fs_class_id fs = Some class_id)
                                             (faculty_subjects db))
                                     (Dashboard.caller_batch_id user) s = true)
                             (filter (λ s, subj_class_id s = Some class_id) (subjects db)))
      as Hsub by (by apply list_elem_of_filter).
    destruct (Dashboard.electiveSubjectIds studentSelections); [done|].
    by apply add_electives_keeps.
  - destruct (electives_listed _ _ _ _ _ _ _ _ Hg Hid Hc Hci Hsel i Hi)
      as (x & Hx & Hin & <-).
    unfold Dashboard.dashboard_subjects.
    destruct (Dashboard.electiveSubjectIds studentSelections) as [|j ids] eqn:E;
      [by apply elem_of_nil in Hx|].
    apply add_electives_ids. by apply list_elem_of_filter.
Qed.

Lemma listed_subjects_on_dashboard_witness :
  "E" ∈ subj_id <$> Dashboard.dashboard_subjects StudentExamples.db "s1" "c1"
                      (Dashboard.caller_batch_id StudentExamples.caller)
                      (head (student_subject_selection StudentExamples.db)).
Proof.
  apply (listed_subjects_on_dashboard StudentExamples.db StudentExamples.table
           StudentExamples.caller StudentExamples.body "s1" "c1"
           (head (student_subject_selection StudentExamples.db))
           eq_refl eq_refl eq_refl eq_refl).
  by_evaluation.
Defined.

End StudentSubjectsFacts.


(** ** Faculty availability *)

Module AvailabilityFacts.
Import Availability.

(** With unique subject ids, the join of a row resolves to the subject
    the row was made for. *)
Lemma find_by_id (db : Db) (s : Subject) :
  NoDup (subj_id <$> subjects db) → s ∈ subjects db →
  Js.find (λ s', subj_id s' = subj_id s) (subjects db) = Some s.
Proof.
  intros Hnd Hin.
  destruct (find_is_Some (λ s', subj_id s' = subj_id s) (subjects db) s Hin eq_refl)
    as [s' Hf].
  rewrite Hf. f_equal. apply find_Some in Hf as [Hin' Hid].
  by eapply NoDup_fmap_eq.
Qed.

Lemma omap_subject_of_records (db : Db) (userId : Id) (now : string) (l : list Subject) :
  NoDup (subj_id <$> subjects db) → (∀ s, s ∈ l → s ∈ subjects db) →
  omap (subject_of db) (availabilityRecords userId now l) = l.
Proof.
  intros Hnd. induction l as [|s l IH]; intros Hl; [done|].
  unfold availabilityRecords. rewrite fmap_cons. simpl.
  unfold subject_of at 1. simpl. rewrite find_by_id by (done || apply Hl; left).
  simpl. f_equal. apply IH. intros s' Hs'. apply Hl. by right.
Qed.

Lemma own_rows_of_others (table : list Row) (userId : Id) :
  filter (λ row, fa_faculty_id row = userId ∧ fa_is_available row = true)
         (filter (λ row, fa_faculty_id row ≠ userId) table) = [].
Proof.
  apply filter_nil_iff. intros row Hrow [Hf _].
  apply list_elem_of_filter in Hrow as [Hne _]. done.
Qed.

Lemma own_rows_of_records (userId : Id) (now : string) (l : list Subject) :
  filter (λ row, fa_faculty_id row = userId ∧ fa_is_available row = true)
         (availabilityRecords userId now l)
  = availabilityRecords userId now l.
Proof.
  apply filter_all. intros row Hrow. unfold availabilityRecords in Hrow.
  apply list_elem_of_fmap in Hrow as (s & -> & _). done.
Qed.

(** X12. What [GET /available-subjects] returns after a
    [PUT /availability] of the same faculty, whatever the table held
    before: the codes of the subjects whose code is among the selected
    ones when [isAvailable] is set, and nothing otherwise.  This includes
    the request that is answered 400 because no code matches: the rows of
    the faculty are deleted before the codes are looked up. *)
Theorem put_then_get_available (db : Db) (table : list Row) (userId : Id) (now : string)
    (available : bool) (codes : list string) :
  NoDup (subj_id <$> subjects db) →
  get_available_subjects db
    (put_availability db table userId now
       {| isAvailable := available; selectedSubjects := Some codes |}).1 userId
  = (bool_decide (0 < length (if available then subjects_coded db codes else []))%nat,
     subj_code <$> (if available then subjects_coded db codes else [])).
Proof.
  intros Hnd. unfold put_availability, get_available_subjects.
  cbn [selectedSubjects isAvailable].
  assert (codes = [] → subjects_coded db codes = []) as Hnone.
  { intros ->. apply filter_nil_iff. intros s _. unfold coded.
    destruct (subj_code s); [apply not_elem_of_nil | by intros []]. }
  destruct available; cbn [andb].
  - destruct (bool_decide (0 < length codes)%nat) eqn:Hlen.
    + destruct (subjects_coded db codes) as [|s l] eqn:Hc.
      * cbn [fst]. by rewrite own_rows_of_others.
      * cbn [fst]. rewrite filter_app, own_rows_of_others, own_rows_of_records.
        rewrite app_nil_l, (omap_subject_of_records db userId now (s :: l)); [done | done |].
        intros s' Hs'. rewrite <- Hc in Hs'. by apply list_elem_of_filter in Hs' as [_ ?].
    + cbn [fst]. rewrite own_rows_of_others, Hnone; [done|].
      apply bool_decide_eq_false in Hlen. destruct codes; [done | simpl in Hlen; lia].
  - cbn [fst]. by rewrite own_rows_of_others.
Qed.

Lemma put_then_get_available_witness :
  NoDup (subj_id <$> subjects StudentExamples.db)
  ∧ get_available_subjects StudentExamples.db
      (put_availability StudentExamples.db StudentExamples.table "f1"
         "2025-02-01T00:00:00.000Z"
         {| isAvailable := true; selectedSubjects := Some ["L"; "E"; "missing"] |}).1 "f1"
    = (true, [Some "L"; Some "E"]).
Proof.
  assert (NoDup (subj_id <$> subjects StudentExamples.db)) as Hnd by by_evaluation.
  split; [exact Hnd|].
  exact (put_then_get_available StudentExamples.db StudentExamples.table "f1"
           "2025-02-01T00:00:00.000Z" true ["L"; "E"; "missing"] Hnd).
Defined.

(** X13. A [PUT /availability] of one faculty, whatever its body and
    its outcome, leaves what [GET /available-subjects] returns for any
    other faculty unchanged. *)
Theorem put_leaves_others (db : Db) (table : list Row) (userId other : Id) (now : string)
    (body : Request) :
  other ≠ userId →
  get_available_subjects db (put_availability db table userId now body).1 other
  = get_available_subjects db table other.
Proof.
  intros Hne. unfold get_available_subjects.
  assert (filter (λ row, fa_faculty_id row = other ∧ fa_is_available row = true)
                 (put_availability db table userId now body).1
          = filter (λ row, fa_faculty_id row = other ∧ fa_is_available row = true) table)
    as ->; [|done].
  assert (filter (λ row, fa_faculty_id row = other ∧ fa_is_available row = true)
                 (filter (λ row, fa_faculty_id row ≠ userId) table)
          = filter (λ row, fa_faculty_id row = other ∧ fa_is_available row = true) table)
    as Hkept.
  { rewrite list_filter_filter. apply list_filter_iff. intros row. split; [tauto|].
    intros [Hf Ha]. split; [done | congruence]. }
  unfold put_availability. destruct (selectedSubjects body) as [codes|]; [|done].
  destruct (isAvailable body && bool_decide (0 < length codes)%nat); simpl; [|done].
  destruct (subjects_coded db codes) as [|s l]; [done|]. cbn [fst].
  rewrite filter_app, Hkept.
  rewrite (proj2 (filter_nil_iff _ (availabilityRecords userId now (s :: l)))).
  - by rewrite app_nil_r.
  - intros row Hrow [Hf _]. unfold availabilityRecords in Hrow.
    apply list_elem_of_fmap in Hrow as (s' & -> & _). simpl in Hf. congruence.
Qed.

Lemma put_leaves_others_witness :
  get_available_subjects StudentExamples.db
    (put_availability StudentExamples.db StudentExamples.table "f2"
       "2025-02-01T00:00:00.000Z"
       {| isAvailable := true; selectedSubjects := Some ["W"] |}).1 "f1"
  = get_available_subjects StudentExamples.db StudentExamples.table "f1".
Proof.
  apply (put_leaves_others StudentExamples.db StudentExamples.table "f2" "f1").
  discriminate.
Defined.

End AvailabilityFacts.


(** ** Defaulter work *)

Module DefaulterWorkFacts.
Import DefaulterWork.

Lemma elem_of_electiveStudentIds (db : Db) (f s x : Id) :
  x ∈ electiveStudentIds db f s
  ↔ ∃ sel, sel ∈ student_subject_selection db ∧ Reconciler.selects f s sel
           ∧ sel_student_id sel = x.
Proof.
  unfold electiveStudentIds. rewrite list_elem_of_fmap. split.
  - intros (sel & -> & Hsel). apply list_elem_of_filter in Hsel as [Hs Hsel].
    apply list_elem_of_filter in Hsel as [_ Hsel]. by exists sel.
  - intros (sel & Hin & Hs & <-). exists sel. split; [done|].
    apply list_elem_of_filter. split; [done|].
    by eapply ReconcilerFacts.elem_of_electiveSelections.
Qed.

(** The students of the faculty branch, against the two sources of the
    reconciler. *)
Lemma elem_of_faculty_students (db : Db) (f s x : Id) :
  x ∈ faculty_students db f s
  ↔ ∃ st, st ∈ Reconciler.direct_students db f s ++ Reconciler.elective_students db f s
          ∧ s_id st = x ∧ s_defaulter st = true.
Proof.
  unfold faculty_students. rewrite elem_of_app. split.
  - intros [Hx|Hx].
    + apply list_elem_of_bind in Hx as (a & Hx & Ha).
      apply list_elem_of_fmap in Hx as (st & -> & Hst).
      apply list_elem_of_filter in Hst as [[Hin Hd] Hst].
      apply list_elem_of_filter in Ha as [[Hf Hs] Ha].
      exists st. split; [|done]. apply elem_of_app. left.
      apply ReconcilerFacts.elem_of_direct_students. by exists a.
    + destruct (electiveStudentIds db f s) as [|i ids] eqn:E;
        [by apply elem_of_nil in Hx|]. rewrite <- E in Hx.
      apply list_elem_of_fmap in Hx as (st & -> & Hst).
      apply list_elem_of_filter in Hst as [[Hin Hd] Hst].
      exists st. split; [|done]. apply elem_of_app. right.
      apply ReconcilerFacts.elem_of_elective_students. split; [done|].
      apply elem_of_electiveStudentIds in Hin as (sel & ? & ? & ?). by exists sel.
  - intros (st & Hst & <- & Hd). apply elem_of_app in Hst as [Hst|Hst].
    + left. apply ReconcilerFacts.elem_of_direct_students in Hst
        as (a & Ha & Hf & Hs & Hst & Hin).
      apply list_elem_of_bind. exists a. split.
      * apply list_elem_of_fmap_2. by apply list_elem_of_filter.
      * by apply list_elem_of_filter.
    + right. apply ReconcilerFacts.elem_of_elective_students in Hst
        as (Hst & sel & Hsel & Hs & Hid).
      assert (s_id st ∈ electiveStudentIds db f s) as Hin.
      { apply elem_of_electiveStudentIds. by exists sel. }
      destruct (electiveStudentIds db f s) as [|i ids] eqn:E;
        [by apply elem_of_nil in Hin|].
      apply list_elem_of_fmap_2. by apply list_elem_of_filter.
Qed.

Lemma class_teacher_students_defaulters (db : Db) (f c s x : Id) :
  x ∈ class_teacher_students db f c s →
  ∃ st, st ∈ students db ∧ s_id st = x ∧ s_class_id st = Some c ∧ s_defaulter st = true.
Proof.
  unfold class_teacher_students. destruct (decide (isElectiveSubject db s)).
  - destruct (electiveStudentIds db f s); [by rewrite elem_of_nil|].
    intros Hx. apply list_elem_of_fmap in Hx as (st & -> & Hst).
    apply list_elem_of_filter in Hst as [(_ & Hc & Hd) Hst]. by exists st.
  - intros Hx. apply list_elem_of_fmap in Hx as (st & -> & Hst).
    apply list_elem_of_filter in Hst as [[Hc Hd] Hst]. by exists st.
Qed.

(** What a call does to the table. *)
Lemma assign_payload (db : Db) (table : list Work) (user : User) (now : Z)
    (body : AssignRequest) (s : Id) :
  assign_subject_id body = Some s →
  (assign_defaulter_work db table user now body).1
  = table ++ insertPayload user now s body (studentIds db user s).
Proof.
  intros Hs. unfold assign_defaulter_work. rewrite Hs.
  destruct (studentIds db user s) as [|i ids] eqn:E; simpl; [by rewrite app_nil_r | done].
Qed.

Lemma payload_students (user : User) (now : Z) (s : Id) (body : AssignRequest)
    (ids : list Id) :
  dw_student_id <$> insertPayload user now s body ids = ids.
Proof.
  unfold insertPayload. rewrite <- list_fmap_compose. apply list_fmap_id.
Qed.

(** X14. Work is only ever assigned to defaulters: whatever the caller
    and the request, the rows a call adds are rows of distinct students of
    the students table that are flagged defaulter, for the subject and the
    caller of the request, with status pending. *)
Theorem assigned_only_to_defaulters (db : Db) (table : list Work) (user : User) (now : Z)
    (body : AssignRequest) :
  ∃ payload,
    (assign_defaulter_work db table user now body).1 = table ++ payload
    ∧ NoDup (dw_student_id <$> payload)
    ∧ ∀ w, w ∈ payload →
        assign_subject_id body = Some (dw_subject_id w)
        ∧ dw_faculty_id w = user_id user
        ∧ dw_status w = Some "pending"
        ∧ ∃ st, st ∈ students db ∧ s_id st = dw_student_id w ∧ s_defaulter st = true.
Proof.
  destruct (assign_subject_id body) as [s|] eqn:Hs.
  - exists (insertPayload user now s body (studentIds db user s)).
    split; [by apply assign_payload|]. split.
    + rewrite payload_students. apply uniq_NoDup.
    + intros w Hw. unfold insertPayload in Hw.
      apply list_elem_of_fmap in Hw as (x & -> & Hx). simpl.
      do 3 (split; [done|]).
      unfold studentIds in Hx. rewrite uniq_elem_of in Hx.
      assert (x ∈ faculty_students db (user_id user) s →
              ∃ st, st ∈ students db ∧ s_id st = x ∧ s_defaulter st = true) as Hfac.
      { intros Hf. apply elem_of_faculty_students in Hf as (st & Hst & Hid & Hd).
        exists st. split; [|done]. apply elem_of_app in Hst as [Hst|Hst].
        - by apply ReconcilerFacts.elem_of_direct_students in Hst as (a & _ & _ & _ & ? & _).
        - by apply ReconcilerFacts.elem_of_elective_students in Hst as [? _]. }
      destruct (user_class_id user) as [c|]; [|by apply Hfac].
      destruct (decide (user_role user = "class_teacher")); [|by apply Hfac].
      apply class_teacher_students_defaulters in Hx as (st & ? & ? & _ & ?). by exists st.
  - exists []. split; [|split; [constructor|]].
    + unfold assign_defaulter_work. rewrite Hs. simpl. by rewrite app_nil_r.
    + intros w Hw. by apply elem_of_nil in Hw.
Qed.

(** X15. For a caller who is not a class teacher with a class, the
    students that receive the work are exactly the defaulters among the
    students the reconciler resolves for the faculty and the subject: the
    students of the faculty's assignments of the subject and the students
    whose selection names the faculty for the subject. *)
Theorem faculty_assigns_to_resolved (db : Db) (table : list Work) (user : User) (now : Z)
    (body : AssignRequest) (subject_id : Id) :
  assign_subject_id body = Some subject_id →
  user_role user ≠ "class_teacher" ∨ user_class_id user = None →
  ∃ payload,
    (assign_defaulter_work db table user now body).1 = table ++ payload
    ∧ ∀ x, x ∈ dw_student_id <$> payload
           ↔ ∃ st, st ∈ Reconciler.direct_students db (user_id user) subject_id
                        ++ Reconciler.elective_students db (user_id user) subject_id
                   ∧ s_id st = x ∧ s_defaulter st = true.
Proof.
  intros Hs Hrole.
  exists (insertPayload user now subject_id body (studentIds db user subject_id)).
  split; [by apply assign_payload|]. intros x.
  rewrite payload_students. unfold studentIds. rewrite uniq_elem_of.
  rewrite <- elem_of_faculty_students.
  destruct (user_class_id user) as [c|]; [|done].
  destruct (decide (user_role user = "class_teacher")) as [Hr|Hr]; [|done].
  by destruct Hrole.
Qed.

Lemma faculty_assigns_to_resolved_witness :
  ∃ payload,
    (assign_defaulter_work DefaulterExamples.db [] DefaulterExamples.faculty 1000
       DefaulterExamples.request).1 = [] ++ payload
    ∧ ∀ x, x ∈ dw_student_id <$> payload
           ↔ ∃ st, st ∈ Reconciler.direct_students DefaulterExamples.db "f1" "T"
                        ++ Reconciler.elective_students DefaulterExamples.db "f1" "T"
                   ∧ s_id st = x ∧ s_defaulter st = true.
Proof.
  apply (faculty_assigns_to_resolved DefaulterExamples.db [] DefaulterExamples.faculty 1000
           DefaulterExamples.request "T").
  - reflexivity.
  - left. discriminate.
Defined.

Lemma elem_of_order_by_created_at (l : list Work) (w : Work) :
  w ∈ order_by_created_at_desc l ↔ w ∈ l.
Proof. unfold order_by_created_at_desc. by rewrite merge_sort_Permutation. Qed.

(** X16. Work that is marked as skipped never reaches a student: after
    a call with [skip] set, [GET /defaulter-work] answers every student
    exactly as before the call. *)
Theorem skipped_work_is_hidden (db : Db) (table : list Work) (user : User) (now : Z)
    (body : AssignRequest) (student_id : Id) :
  assign_skip body = true →
  get_defaulter_work db (assign_defaulter_work db table user now body).1 student_id
  = get_defaulter_work db table student_id.
Proof.
  intros Hskip. destruct (assign_subject_id body) as [s|] eqn:Hs.
  - rewrite (assign_payload _ _ _ _ _ s Hs). unfold get_defaulter_work.
    rewrite filter_app.
    rewrite (proj2 (filter_nil_iff _ (insertPayload user now s body _))).
    + by rewrite app_nil_r.
    + intros w Hw [_ Hf]. unfold insertPayload in Hw.
      apply list_elem_of_fmap in Hw as (x & -> & _). simpl in Hf. congruence.
  - unfold assign_defaulter_work. by rewrite Hs.
Qed.

Lemma skipped_work_is_hidden_witness :
  get_defaulter_work DefaulterExamples.db
    (assign_defaulter_work DefaulterExamples.db [] DefaulterExamples.faculty 1000
       DefaulterExamples.skipped).1 "s1"
  = get_defaulter_work DefaulterExamples.db [] "s1".
Proof.
  apply (skipped_work_is_hidden DefaulterExamples.db [] DefaulterExamples.faculty 1000
           DefaulterExamples.skipped "s1").
  reflexivity.
Defined.

(** X17. Work assigned without [skip] on a theory or practical subject
    is shown to every student it was assigned to: the student's
    [GET /defaulter-work] then holds an entry with the instruction text,
    the time of the call and the status pending. *)
Theorem assigned_work_is_shown (db : Db) (table : list Work) (user : User) (now : Z)
    (body : AssignRequest) (subject_id student_id : Id)
    (studentSelections : option StudentSelection) :
  assign_subject_id body = Some subject_id →
  assign_skip body = false →
  student_id ∈ studentIds db user subject_id →
  subjectType (Js.find (λ s, subj_id s = subject_id) (subjects db))
    ∈ ["theory"; "practical"] →
  Store.maybeSingle (Selection.selection_of db student_id) = Some studentSelections →
  ∃ entries e,
    get_defaulter_work db (assign_defaulter_work db table user now body).1 student_id
    = Success 200 entries
    ∧ e ∈ entries
    ∧ description e = instruction (assign_instruction_text body)
    ∧ assignedDate e = now
    ∧ status e = "pending".
Proof.
  intros Hs Hskip Hx Hty Hsel.
  rewrite (assign_payload _ _ _ _ _ subject_id Hs). unfold get_defaulter_work.
  rewrite Hsel.
  set (w := {| dw_student_id := student_id; dw_subject_id := subject_id;
               dw_faculty_id := user_id user;
               dw_submission_text := instruction (assign_instruction_text body);
               dw_reference_link := assign_reference_link body;
               dw_created_at := now; dw_skip := false;
               dw_status := Some "pending" |}).
  eexists _, (format db w). split; [done|]. split; [|done].
  apply list_elem_of_fmap_2, list_elem_of_filter. split.
  - unfold shown, subject_of. simpl. rewrite decide_True; [done|].
    apply elem_of_cons in Hty as [Hty|Hty]; [by left|].
    apply list_elem_of_singleton in Hty. by right.
  - apply elem_of_order_by_created_at, list_elem_of_filter. split; [done|].
    apply elem_of_app. right. unfold insertPayload.
    apply list_elem_of_fmap. exists student_id. split; [|done].
    subst w. by rewrite Hskip.
Qed.

Lemma assigned_work_is_shown_witness :
  ∃ entries e,
    get_defaulter_work DefaulterExamples.db
      (assign_defaulter_work DefaulterExamples.db [] DefaulterExamples.faculty 1000
         DefaulterExamples.request).1 "s3"
    = Success 200 entries
    ∧ e ∈ entries
    ∧ description e = "Solve the sheet"
    ∧ assignedDate e = 1000%Z
    ∧ status e = "pending".
Proof.
  apply (assigned_work_is_shown DefaulterExamples.db [] DefaulterExamples.faculty 1000
           DefaulterExamples.request "T" "s3" None).
  - reflexivity.
  - reflexivity.
  - by_evaluation.
  - by_evaluation.
  - reflexivity.
Defined.

(** *** The grouping of [GET /submissions] *)

Lemma replace_keys (m : list (Id * Work)) (w : Work) :
  (replace m w).*1
  = if decide (dw_subject_id w ∈ m.*1) then m.*1 else m.*1 ++ [dw_subject_id w].
Proof.
  induction m as [|[k old] m IH].
  - rewrite decide_False; [done | apply not_elem_of_nil].
  - cbn [replace]. destruct (decide (k = dw_subject_id w)) as [->|Hne].
    + rewrite (decide_True (P := _ ∈ _)) by (rewrite fmap_cons; left).
      by destruct (decide (_ < _)%Z).
    + rewrite !fmap_cons, IH. cbn [fst].
      destruct (decide (dw_subject_id w ∈ m.*1)) as [Hin|Hin].
      * rewrite decide_True; [done | by right].
      * rewrite decide_False; [done|]. rewrite elem_of_cons. intros [?|?]; congruence.
Qed.

Lemma replace_entries (m : list (Id * Work)) (w : Work) (k : Id) (e : Work) :
  NoDup m.*1 → (k, e) ∈ replace m w →
  ((k, e) ∈ m ∧ (k = dw_subject_id w → (dw_created_at w ≤ dw_created_at e)%Z))
  ∨ (k = dw_subject_id w ∧ e = w
     ∧ ∀ old, (k, old) ∈ m → (dw_created_at old < dw_created_at w)%Z).
Proof.
  induction m as [|[k0 old0] m IH]; intros Hnd Hin.
  - cbn [replace] in Hin. apply list_elem_of_singleton in Hin as [= -> ->]. right.
    split; [done|]. split; [done|]. intros old Hold. by apply elem_of_nil in Hold.
  - rewrite fmap_cons in Hnd. apply NoDup_cons in Hnd as [Hk0 Hnd]. cbn [fst] in Hk0.
    cbn [replace] in Hin.
    assert (∀ x, (k0, x) ∈ m → False) as Hfresh.
    { intros x Hx. apply Hk0. apply list_elem_of_fmap. by exists (k0, x). }
    destruct (decide (k0 = dw_subject_id w)) as [Heq|Hne].
    + destruct (decide (dw_created_at old0 < dw_created_at w)%Z) as [Hlt|Hge].
      * apply elem_of_cons in Hin as [[= -> ->]|Hin].
        -- right. split; [done|]. split; [done|].
           intros old Hold. apply elem_of_cons in Hold as [[= ->]|Hold]; [done|].
           by destruct (Hfresh old).
        -- left. split; [by right|]. intros ->. rewrite <- Heq in Hin.
           by destruct (Hfresh e).
      * left. split; [done|]. intros ->.
        apply elem_of_cons in Hin as [[= _ ->]|Hin]; [lia|].
        rewrite <- Heq in Hin. by destruct (Hfresh e).
    + apply elem_of_cons in Hin as [[= -> ->]|Hin].
      * left. split; [left | done].
      * destruct (IH Hnd Hin) as [[Hm Hle]|(-> & -> & Hold)].
        -- left. split; [by right | done].
        -- right. split; [done|]. split; [done|].
           intros old Ho. apply elem_of_cons in Ho as [[= ? _]|Ho]; [done | by apply Hold].
Qed.

Lemma replace_newest (seen : list Work) (m : list (Id * Work)) (w : Work) :
  newest_of seen m → newest_of (seen ++ [w]) (replace m w).
Proof.
  intros (Hnd & Hent & Hcov). split; [|split].
  - rewrite replace_keys. destruct (decide (dw_subject_id w ∈ m.*1)) as [Hin|Hin]; [done|].
    apply NoDup_app. split; [done|]. split; [|apply NoDup_singleton].
    intros i Hi Hi'. apply list_elem_of_singleton in Hi' as ->. done.
  - intros k e Hin.
    destruct (replace_entries m w k e Hnd Hin) as [[Hm Hle]|(-> & -> & Hold)].
    + destruct (Hent k e Hm) as (Hk & He & Hmax). split; [done|].
      split; [apply elem_of_app; by left|].
      intros w' Hw' Hs. apply elem_of_app in Hw' as [Hw'|Hw']; [by apply Hmax|].
      apply list_elem_of_singleton in Hw' as ->. apply Hle. done.
    + split; [done|]. split; [apply elem_of_app; right; left|].
      intros w' Hw' Hs. apply elem_of_app in Hw' as [Hw'|Hw'].
      * pose proof (Hcov w' Hw') as Hkey. rewrite Hs in Hkey.
        apply list_elem_of_fmap in Hkey as ([k old] & Hk & Hin'). simpl in Hk. subst k.
        destruct (Hent _ _ Hin') as (_ & _ & Hmax).
        specialize (Hmax w' Hw' Hs). specialize (Hold old Hin'). lia.
      * apply list_elem_of_singleton in Hw' as ->. lia.
  - intros w' Hw'. rewrite replace_keys.
    apply elem_of_app in Hw' as [Hw'|Hw'].
    + specialize (Hcov w' Hw'). destruct (decide (dw_subject_id w ∈ m.*1)); [done|].
      apply elem_of_app. by left.
    + apply list_elem_of_singleton in Hw' as ->.
      destruct (decide (dw_subject_id w ∈ m.*1)); [done|].
      apply elem_of_app. right. left.
Qed.

Lemma newest_of_nil : newest_of [] [].
Proof.
  split; [constructor|]. split.
  - intros k e Hin. by apply elem_of_nil in Hin.
  - intros w Hw. by apply elem_of_nil in Hw.
Qed.

Lemma replace_loop (l seen : list Work) (m : list (Id * Work)) :
  newest_of seen m → newest_of (seen ++ l) (foldl replace m l).
Proof.
  revert seen m. induction l as [|w l IH]; intros seen m Hm; simpl.
  - by rewrite app_nil_r.
  - rewrite (cons_middle w seen l), app_assoc. apply IH. by apply replace_newest.
Qed.

(** The rows [GET /submissions] returns are rows of the faculty. *)
Lemma submissions_rows (table : list Work) (faculty_id : Id) (e : Work) :
  e ∈ get_submissions table faculty_id → e ∈ table ∧ dw_faculty_id e = faculty_id.
Proof.
  unfold get_submissions. intros He.
  destruct (replace_loop
              (order_by_created_at_desc (filter (λ w, dw_faculty_id w = faculty_id) table))
              [] []) as (_ & Hent & _).
  { apply newest_of_nil. }
  simpl in Hent. apply list_elem_of_fmap in He as ([k e'] & -> & Hin). simpl.
  destruct (Hent k e' Hin) as (_ & Hseen & _).
  apply elem_of_order_by_created_at, list_elem_of_filter in Hseen. tauto.
Qed.

(** X18. [GET /submissions] returns one row per subject the faculty has
    assigned work for, and for each subject a newest row: no row of the
    faculty for that subject is later than the one returned. *)
Theorem submissions_newest_per_subject (table : list Work) (faculty_id : Id) :
  NoDup (dw_subject_id <$> get_submissions table faculty_id)
  ∧ (∀ e, e ∈ get_submissions table faculty_id →
       e ∈ table ∧ dw_faculty_id e = faculty_id
       ∧ ∀ w, w ∈ table → dw_faculty_id w = faculty_id →
              dw_subject_id w = dw_subject_id e →
              (dw_created_at w ≤ dw_created_at e)%Z)
  ∧ (∀ w, w ∈ table → dw_faculty_id w = faculty_id →
       dw_subject_id w ∈ dw_subject_id <$> get_submissions table faculty_id).
Proof.
  unfold get_submissions.
  set (rows := order_by_created_at_desc (filter (λ w, dw_faculty_id w = faculty_id) table)).
  assert (∀ w, w ∈ rows ↔ w ∈ table ∧ dw_faculty_id w = faculty_id) as Hrows.
  { intros w. unfold rows. rewrite elem_of_order_by_created_at, list_elem_of_filter. tauto. }
  destruct (replace_loop rows [] []) as (Hnd & Hent & Hcov).
  { apply newest_of_nil. }
  simpl in *. set (m := foldl replace [] rows) in *.
  assert (dw_subject_id <$> m.*2 = m.*1) as Hkeys.
  { rewrite <- list_fmap_compose. apply list_fmap_ext. intros i [k e] Hp. simpl.
    symmetry. apply (Hent k e). by eapply list_elem_of_lookup_2. }
  rewrite Hkeys. split; [done|]. split.
  - intros e He. apply list_elem_of_fmap in He as ([k e'] & -> & Hin). simpl.
    destruct (Hent k e' Hin) as (Hk & Hseen & Hmax). apply Hrows in Hseen as [? ?].
    split; [done|]. split; [done|]. intros w Hw Hf Hs. apply Hmax; [by apply Hrows|].
    congruence.
  - intros w Hw Hf. apply Hcov, Hrows. done.
Qed.

(** X19. After [DELETE /submissions/:subject_id], [GET /submissions] of
    the caller has no row of the subject, and what it returns for any
    other faculty is unchanged. *)
Theorem deleted_work_is_gone (table : list Work) (faculty_id subject_id : Id) :
  (∀ e, e ∈ get_submissions (delete_submissions table faculty_id (Some subject_id)).1
                            faculty_id →
        dw_subject_id e ≠ subject_id)
  ∧ (∀ other, other ≠ faculty_id →
       get_submissions (delete_submissions table faculty_id (Some subject_id)).1 other
       = get_submissions table other).
Proof.
  simpl. split.
  - intros e He Hs.
    destruct (submissions_rows _ _ _ He) as [Hin Hf].
    apply list_elem_of_filter in Hin as [Hkeep _]. by apply Hkeep.
  - intros other Hne. unfold get_submissions. rewrite list_filter_filter.
    do 3 f_equal. apply list_filter_iff. intros w. split; [tauto|].
    intros Hf. split; [done|]. intros [_ Hf']. congruence.
Qed.

End DefaulterWorkFacts.


(** ** Locking and unlocking *)

Module LifeCycleFacts.
Import Selection.

(** What a success of [POST /lock-selections] went through. *)
Lemma lock_success (db : Db) (student_id : Id) (class_id : option Id) (db1 : Db)
    (code : Z) (msg : string) :
  lock_selections db student_id class_id = (db1, Success code msg) →
  (∃ sel, selection_of db student_id = [sel])
  ∧ db1 = update_selection db student_id lock.
Proof.
  unfold lock_selections.
  destruct (Store.maybeSingle (filter _ (classes db))) as [classInfo|]; [|done].
  destruct (Store.maybeSingle (selection_of db student_id)) as [[sel|]|] eqn:Es;
    [|done|done].
  apply maybeSingle_Some in Es.
  destruct (missingSubjects (classYear classInfo) sel); [|done].
  intros [= <- _ _]. split; [by exists sel | done].
Qed.

Lemma unlock_lock (row : StudentSelection) :
  selections_locked row = false → unlock (lock row) = row.
Proof. destruct row. simpl. by intros ->. Qed.

(** X20. The life cycle of a lock.  After a student's successful
    [POST /lock-selections], every [POST /select-elective] of the student
    with its three fields and a valid type is refused with 403 and changes
    nothing; and the class teacher's
    [PUT /unlock-student-selections/:studentId] then restores the store
    as it was before the lock, when the selection was unlocked then. *)
Theorem unlock_undoes_lock (db : Db) (student_id : Id) (class_id : option Id) (db1 : Db)
    (code : Z) (msg : string) (student : Student) (teacher_class : Id) :
  lock_selections db student_id class_id = (db1, Success code msg) →
  (∀ row, row ∈ selection_of db student_id → selections_locked row = false) →
  Store.single (filter (λ s, s_id s = student_id) (students db)) = Some student →
  s_class_id student = Some teacher_class →
  (∀ subject_id faculty_id type,
     type ∈ ["MDM"; "OE"; "PE"] →
     select_elective db1 student_id
       {| req_subject_id := Some subject_id; req_faculty_id := Some faculty_id;
          req_type := Some type |}
     = (db1, Failure 403
               "Your subject selections are locked. Contact your class teacher to make changes."))
  ∧ unlock_student_selections db1 (Some teacher_class) student_id
    = (db, Success 200 "Student's elective selections have been unlocked").
Proof.
  intros Hlock Hunlocked Hst Hclass.
  apply lock_success in Hlock as [[sel Hsel] ->]. split.
  - intros subject_id faculty_id type Hty. unfold select_elective. simpl.
    rewrite decide_True by done.
    rewrite SelectionFacts.selection_of_update by done.
    rewrite decide_True by done. rewrite Hsel. simpl. done.
  - unfold unlock_student_selections. simpl. rewrite Hst.
    rewrite decide_False by (intros [?|?]; congruence).
    f_equal. unfold update_selection. simpl. rewrite <- list_fmap_compose.
    rewrite (fmap_id_on (_ ∘ _)); [by destruct db|].
    intros row Hrow. simpl. destruct (decide (sel_student_id row = student_id)) as [Hid|Hid].
    + rewrite decide_True by done. apply unlock_lock, Hunlocked.
      by apply list_elem_of_filter.
    + by rewrite decide_False.
Qed.

Lemma unlock_undoes_lock_witness :
  unlock_student_selections
    (lock_selections LifeCycleExamples.db "s1" (Some "c1")).1 (Some "c1") "s1"
  = (LifeCycleExamples.db, Success 200 "Student's elective selections have been unlocked").
Proof.
  refine (proj2 (unlock_undoes_lock LifeCycleExamples.db "s1" (Some "c1") _ 200
                   "Your elective selections have been locked successfully."
                   (Examples.student "s1" "c1" 1 false) "c1" eq_refl _ eq_refl eq_refl)).
  intros row Hrow. apply list_elem_of_singleton in Hrow as ->. reflexivity.
Defined.

End LifeCycleFacts.

(** ** The subjects of the dashboard *)

Module DashboardSubjectsFacts.
Import Dashboard.

Lemma add_electives_NoDup (c : Id) (electiveSubjects subjects : list Subject) :
  NoDup (subj_id <$> subjects) →
  NoDup (subj_id <$> add_electives c electiveSubjects subjects).
Proof.
  unfold add_electives. revert subjects.
  induction electiveSubjects as [|x l IH]; intros subjects Hnd; simpl; [done|].
  apply IH. destruct (Js.find _ subjects) eqn:Hf; [done|].
  rewrite fmap_app. apply NoDup_app. split; [done|]. split; [|apply NoDup_singleton].
  intros i Hi Hi'. simpl in Hi'. apply list_elem_of_singleton in Hi' as ->.
  apply list_elem_of_fmap in Hi as (s & Hid & Hin).
  rewrite find_None in Hf. by apply (Hf s).
Qed.

(** X21. With unique subject ids in the store, the dashboard lists no
    subject twice, also when a selected elective is a subject of the
    student's class: each subject enters the percentage once. *)
Theorem dashboard_lists_subjects_once (db : Db) (user : Caller) (body : Body) :
  NoDup (subj_id <$> subjects db) →
  get_dashboard db user = Success 200 body →
  NoDup (ss_id <$> d_subjects body).
Proof.
  intros Hnd. unfold get_dashboard.
  destruct (caller_id user) as [student_id|]; [|done].
  destruct (Store.maybeSingle (filter _ (students db))) as [[student|]|]; [|done|done].
  destruct (from_option Some (caller_class_id user) (s_class_id student))
    as [studentClassId|]; [|done].
  destruct (Store.maybeSingle (filter _ (student_subject_selection db)))
    as [studentSelections|]; [|done].
  intros [= <-]. simpl. unfold subjectsWithSubmissions.
  rewrite <- list_fmap_compose.
  change (NoDup (subj_id <$> dashboard_subjects db student_id studentClassId
                               (caller_batch_id user) studentSelections)).
  unfold dashboard_subjects.
  assert (NoDup (subj_id <$> filter (λ s, visible
                                            (filter (λ fs, fs_class_id fs = Some studentClassId)
                                                    (faculty_subjects db))
                                            (caller_batch_id user) s = true)
                               (filter (λ s, subj_class_id s = Some studentClassId)
                                       (subjects db)))) as Hnd0.
  { by do 2 apply RollupFacts.NoDup_fmap_filter. }
  destruct (electiveSubjectIds studentSelections); [done|].
  by apply add_electives_NoDup.
Qed.

Lemma dashboard_lists_subjects_once_witness :
  NoDup (subj_id <$> subjects Examples.scenario_db)
  ∧ NoDup (ss_id <$> d_subjects Examples.scenario_body).
Proof.
  assert (NoDup (subj_id <$> subjects Examples.scenario_db)) as Hnd by by_evaluation.
  split; [exact Hnd|].
  exact (dashboard_lists_subjects_once Examples.scenario_db Examples.scenario_caller
           Examples.scenario_body Hnd eq_refl).
Defined.

End DashboardSubjectsFacts.


(** ** The other figures of the class rollup *)

Module ClassRollupFacts.
Import Rollup ClassRollup.

(** [studentSubmissionMap], by lookup: under a student and a type id it
    holds the status of the last row of the two. *)
Lemma studentSubmissionMap_lookup (submissions : list Submission) (x t : Id) :
  (studentSubmissionMap submissions !! x) ≫= (λ inner, inner !! t)
  = sub_status <$> last (filter (λ sub, sub_student_id sub = x
                                        ∧ sub_submission_type_id sub = t) submissions).
Proof.
  induction submissions as [|a l IH] using rev_ind; [done|].
  unfold studentSubmissionMap in *. rewrite foldl_app, filter_app. simpl.
  set (m := foldl _ ∅ l) in *.
  destruct (decide (sub_student_id a = x)) as [Hx|Hx].
  - subst x. rewrite lookup_insert_eq. simpl.
    destruct (decide (sub_submission_type_id a = t)) as [Ht|Ht].
    + subst t. rewrite lookup_insert_eq.
      rewrite filter_cons, decide_True by done. by rewrite filter_nil, last_snoc.
    + rewrite lookup_insert_ne by done.
      rewrite filter_cons, decide_False by (intros [_ ?]; done).
      rewrite filter_nil, app_nil_r, <- IH.
      by destruct (m !! sub_student_id a).
  - rewrite lookup_insert_ne by done.
    rewrite filter_cons, decide_False by (intros [? _]; done).
    by rewrite filter_nil, app_nil_r, <- IH.
Qed.

Lemma studentSubmissionMap_key (submissions : list Submission) (x : Id) :
  is_Some (studentSubmissionMap submissions !! x) → x ∈ sub_student_id <$> submissions.
Proof.
  induction submissions as [|a l IH] using rev_ind.
  - intros [? Hm]. unfold studentSubmissionMap in Hm. simpl in Hm.
    by rewrite lookup_empty in Hm.
  - unfold studentSubmissionMap in *. rewrite foldl_app, fmap_app, elem_of_app. simpl.
    destruct (decide (sub_student_id a = x)) as [Hx|Hx].
    + intros _. right. rewrite Hx. left.
    + rewrite lookup_insert_ne by done. intros Hm. left. by apply IH.
Qed.

(** The test of the filter on an entry of the map. *)
Lemma status_of_last (submissions : list Submission) (x : Id) (inner : gmap Id string)
    (type : option SubmissionType) :
  studentSubmissionMap submissions !! x = Some inner →
  (status_is_completed inner type ↔ last_status submissions x type = Some "completed").
Proof.
  intros Hm. unfold status_is_completed, last_status. destruct type as [t|]; simpl.
  - pose proof (studentSubmissionMap_lookup submissions x (st_id t)) as Hl.
    rewrite Hm in Hl. simpl in Hl. rewrite Hl.
    erewrite (list_filter_iff _ (λ sub, sub_student_id sub = x
                                        ∧ Completion.of_type (Some t) sub)); [done|].
    intros sub. unfold Completion.of_type. simpl. split.
    + intros [? ->]. done.
    + intros [? [= ?]]. done.
  - rewrite (proj2 (filter_nil_iff _ submissions)); [done|].
    intros sub _ [_ Hty]. unfold Completion.of_type in Hty. done.
Qed.

Lemma last_status_row (submissions : list Submission) (x : Id)
    (type : option SubmissionType) (v : string) :
  last_status submissions x type = Some v → x ∈ sub_student_id <$> submissions.
Proof.
  unfold last_status. destruct (last _) as [sub|] eqn:Hl; [|done]. intros _.
  apply last_Some in Hl as (l' & Hl).
  assert (sub ∈ filter (λ sub, sub_student_id sub = x ∧ Completion.of_type type sub)
                       submissions) as Hin.
  { rewrite Hl. apply elem_of_app. right. left. }
  apply list_elem_of_filter in Hin as [[<- _] Hin]. by apply list_elem_of_fmap_2.
Qed.

(** The rows of a student in scope are the student's rows of the
    store. *)
Lemma last_status_in_scope (db : Db) (ids : list Id) (x : Id)
    (type : option SubmissionType) :
  x ∈ ids →
  last_status (submissions_of db ids) x type = last_status (student_submissions db) x type.
Proof.
  intros Hx. unfold last_status, submissions_of. rewrite list_filter_filter.
  do 2 f_equal. apply list_filter_iff. intros sub. split; [tauto|].
  intros [Hs Ht]. split; [done|]. by rewrite Hs.
Qed.

(** The count of the both-completed students, over the scope. *)
Lemma both_completed_count (db : Db) (scope : list Student) :
  NoDup (s_id <$> scope) →
  studentsWithBothCompleted (Completion.taType (submission_types db))
    (Completion.cieType (submission_types db))
    (studentSubmissionMap (submissions_of db (s_id <$> scope)))
  = length (filter (both_last_completed db) scope).
Proof.
  intros Hnd. unfold studentsWithBothCompleted.
  set (ta := Completion.taType (submission_types db)).
  set (cie := Completion.cieType (submission_types db)).
  set (subs := submissions_of db (s_id <$> scope)).
  set (m := studentSubmissionMap subs).
  set (kept := filter (λ kv : Id * gmap Id string,
                         status_is_completed kv.2 ta ∧ status_is_completed kv.2 cie)
                      (map_to_list m)).
  assert (NoDup kept.*1) as Hkept.
  { eapply sublist_NoDup; [apply (NoDup_fst_map_to_list m)|].
    apply fmap_sublist, sublist_filter. }
  rewrite <- (length_fmap fst kept), <- (length_fmap s_id (filter _ scope)).
  rewrite <- (size_list_to_set (C:=gset Id) kept.*1) by done.
  rewrite <- (size_list_to_set (C:=gset Id) (s_id <$> filter _ scope))
    by by apply RollupFacts.NoDup_fmap_filter.
  f_equal. apply set_eq. intros x.
  rewrite !elem_of_list_to_set, !list_elem_of_fmap. split.
  - intros ([k inner] & -> & Hin). simpl.
    apply list_elem_of_filter in Hin as [[Hta Hcie] Hin]. simpl in *.
    apply elem_of_map_to_list in Hin.
    rewrite (status_of_last subs k inner ta Hin) in Hta.
    rewrite (status_of_last subs k inner cie Hin) in Hcie.
    assert (k ∈ s_id <$> scope) as Hk.
    { apply last_status_row in Hta. apply list_elem_of_fmap in Hta as (sub & -> & Hsub).
      unfold subs, submissions_of in Hsub. by apply list_elem_of_filter in Hsub as [? _]. }
    pose proof Hk as Hk'. apply list_elem_of_fmap in Hk' as (s & -> & Hs).
    exists s. split; [done|]. apply list_elem_of_filter. split; [|done].
    unfold both_last_completed. fold ta cie.
    rewrite <- !(last_status_in_scope db (s_id <$> scope)) by done. done.
  - intros (s & -> & Hs). apply list_elem_of_filter in Hs as [[Hta Hcie] Hs].
    fold ta cie in Hta, Hcie.
    assert (s_id s ∈ s_id <$> scope) as Hk by (by apply list_elem_of_fmap_2).
    rewrite <- !(last_status_in_scope db (s_id <$> scope)) in Hta, Hcie by done.
    fold subs in Hta, Hcie.
    destruct (m !! s_id s) as [inner|] eqn:Hm.
    + exists (s_id s, inner). split; [done|]. apply list_elem_of_filter. simpl.
      rewrite (status_of_last subs (s_id s) inner ta Hm).
      rewrite (status_of_last subs (s_id s) inner cie Hm).
      split; [done|]. by apply elem_of_map_to_list.
    + exfalso. pose proof (studentSubmissionMap_lookup subs (s_id s)) as Hl.
      fold m in Hl. rewrite Hm in Hl. simpl in Hl.
      unfold last_status in Hta. destruct ta as [t|]; simpl in Hta.
      * specialize (Hl (st_id t)).
        erewrite (list_filter_iff _ (λ sub, sub_student_id sub = s_id s
                                            ∧ Completion.of_type (Some t) sub)) in Hl.
        -- rewrite Hta in Hl. done.
        -- intros sub. unfold Completion.of_type. simpl. split.
           ++ intros [? ->]. done.
           ++ intros [? [= ?]]. done.
      * rewrite (proj2 (filter_nil_iff _ subs)) in Hta; [done|].
        intros sub _ [_ Hty]. unfold Completion.of_type in Hty. done.
Qed.

Lemma elem_of_defaulterStudentsWithWork dt (ids : list Id) (submissions : list Submission)
    (x : Id) :
  x ∈ defaulterStudentsWithWork dt ids submissions
  ↔ ∃ sub, sub ∈ submissions ∧ sub_student_id sub = x
           ∧ Completion.of_type dt sub ∧ sub_status sub = "completed" ∧ x ∈ ids.
Proof.
  unfold defaulterStudentsWithWork.
  enough (∀ acc : gset Id,
            x ∈ foldl (λ set sub,
                         if decide (Completion.of_type dt sub
                                    ∧ sub_status sub = "completed"
                                    ∧ sub_student_id sub ∈ ids)
                         then {[ sub_student_id sub ]} ∪ set else set) acc submissions
            ↔ x ∈ acc ∨ ∃ sub, sub ∈ submissions ∧ sub_student_id sub = x
                               ∧ Completion.of_type dt sub
                               ∧ sub_status sub = "completed" ∧ x ∈ ids)
    as Hgen.
  { rewrite Hgen. split; [intros [Hx|Hx]; [|done] | by right].
    by apply not_elem_of_empty in Hx. }
  induction submissions as [|sub l IH]; intros acc; simpl.
  - split; [by left|]. intros [Hx|(sub & Hin & _)]; [done|]. by apply elem_of_nil in Hin.
  - rewrite IH. destruct (decide _) as [Hc|Hc].
    + rewrite elem_of_union, elem_of_singleton. split.
      * intros [[->|Hx]|(sub' & Hin & Hrest)].
        -- right. exists sub. split; [left|]. by destruct Hc as (? & ? & ?).
        -- by left.
        -- right. exists sub'. split; [by right | done].
      * intros [Hx|(sub' & Hin & Hid & Hrest)]; [by left; right|].
        apply elem_of_cons in Hin as [->|Hin].
        -- left. by left.
        -- right. by exists sub'.
    + split.
      * intros [Hx|(sub' & Hin & Hrest)]; [by left|].
        right. exists sub'. split; [by right | done].
      * intros [Hx|(sub' & Hin & Hid & Hty & Hst & Hids)]; [by left|].
        apply elem_of_cons in Hin as [->|Hin].
        -- exfalso. apply Hc. by rewrite Hid.
        -- right. by exists sub'.
Qed.

(** The count of the defaulters with completed work, over the
    defaulters of the scope. *)
Lemma defaulter_work_count (db : Db) (scope : list Student) :
  NoDup (s_id <$> scope) →
  size (defaulterStudentsWithWork (defaulterType (submission_types db))
          (s_id <$> filter (λ s, s_defaulter s = true) scope)
          (submissions_of db (s_id <$> scope)))
  = length (filter (has_completed_work db) (filter (λ s, s_defaulter s = true) scope)).
Proof.
  intros Hnd.
  trans (size (list_to_set (C:=gset Id)
                 (s_id <$> filter (has_completed_work db)
                             (filter (λ s, s_defaulter s = true) scope)))).
  2: { rewrite size_list_to_set; [apply length_fmap|].
       by do 2 apply RollupFacts.NoDup_fmap_filter. }
  f_equal. apply set_eq. intros x.
  rewrite elem_of_list_to_set, list_elem_of_fmap, elem_of_defaulterStudentsWithWork.
  unfold submissions_of. split.
  - intros (sub & Hin & Hid & Hty & Hst & Hx).
    apply list_elem_of_filter in Hin as [_ Hin].
    apply list_elem_of_fmap in Hx as (s & -> & Hs).
    exists s. split; [done|]. apply list_elem_of_filter. split; [|done].
    apply Exists_exists. by exists sub.
  - intros (s & -> & Hs). apply list_elem_of_filter in Hs as [Hw Hs].
    apply Exists_exists in Hw as (sub & Hin & Hid & Hty & Hst).
    exists sub. split; [|split; [done|split; [done|split; [done|]]]].
    + apply list_elem_of_filter. split; [|done]. rewrite Hid.
      apply list_elem_of_fmap_2. by apply list_elem_of_filter in Hs as [_ ?].
    + by apply list_elem_of_fmap_2.
Qed.

(** X22. The two other percentages of the class rollup.
    [submissionMarked] is taken over the students of the class whose last
    stored row of type TA and last stored row of type CIE, whatever their
    subjects, both have the status completed: the map it is read from
    keeps one status per student and type.  [defaulterWorkSubmitted] is
    taken over the defaulters of the class that have a completed row of
    type Defaulter work, and is 0 for a class with no defaulter. *)
Theorem class_rollup_other_figures (db : Db) (class_id : Id) (stats : Statistics) :
  NoDup (s_id <$> students db) →
  filter (λ s, s_class_id s = Some class_id) (students db) ≠ [] →
  get_dashboard_statistics db (Some class_id) = Success 200 stats →
  submissionMarked stats
  = Js.percentage
      (length (filter (both_last_completed db)
                      (filter (λ s, s_class_id s = Some class_id) (students db))))
      (length (filter (λ s, s_class_id s = Some class_id) (students db)))
  ∧ defaulterWorkSubmitted stats
    = (if decide (0 < length (filter (λ s, s_defaulter s = true)
                                (filter (λ s, s_class_id s = Some class_id) (students db))))%nat
       then Js.percentage
              (length (filter (has_completed_work db)
                         (filter (λ s, s_defaulter s = true)
                            (filter (λ s, s_class_id s = Some class_id) (students db)))))
              (length (filter (λ s, s_defaulter s = true)
                         (filter (λ s, s_class_id s = Some class_id) (students db))))
       else Some 0%Z).
Proof.
  intros Hnd Hne. unfold get_dashboard_statistics.
  set (scope := filter (λ s, s_class_id s = Some class_id) (students db)) in *.
  assert (NoDup (s_id <$> scope)) as Hscope by (by apply RollupFacts.NoDup_fmap_filter).
  rewrite decide_False by (destruct scope; [done | simpl; lia]).
  intros [= <-]. simpl. split.
  - by rewrite both_completed_count.
  - destruct (decide _); [|done]. f_equal. by apply defaulter_work_count.
Qed.

Lemma class_rollup_other_figures_witness :
  NoDup (s_id <$> students ClassRollupExamples.db)
  ∧ submissionMarked ClassRollupExamples.stats
    = Js.percentage
        (length (filter (both_last_completed ClassRollupExamples.db)
                        (filter (λ s, s_class_id s = Some "c1")
                                (students ClassRollupExamples.db))))
        (length (filter (λ s, s_class_id s = Some "c1") (students ClassRollupExamples.db))).
Proof.
  assert (NoDup (s_id <$> students ClassRollupExamples.db)) as Hnd by by_evaluation.
  split; [exact Hnd|].
  refine (proj1 (class_rollup_other_figures ClassRollupExamples.db "c1"
                   ClassRollupExamples.stats Hnd _ eq_refl)).
  discriminate.
Defined.

End ClassRollupFacts.


(** ** Subject-wise statistics *)

Module SubjectStatisticsFacts.
Import SubjectStatistics.

(** Two tests that exclude each other keep disjoint parts of a list. *)
Lemma exclusive_filters {A} (P Q : A → Prop) `{!∀ x, Decision (P x)}
    `{!∀ x, Decision (Q x)} (l : list A) :
  (∀ x, P x → Q x → False) →
  (length (filter P l) + length (filter Q l) ≤ length l)%nat.
Proof.
  intros Hex. induction l as [|x l IH]; [done|].
  rewrite !filter_cons. destruct (decide (P x)) as [HP|HP].
  - rewrite decide_False by eauto. simpl. lia.
  - destruct (decide (Q x)); simpl; lia.
Qed.

(** With one row per (student, subject, type), the rows of one subject
    and one type for students among [ids] are at most as many as
    [ids]. *)
Lemma rows_of_type_bound (db : Db) (subject_id t : Id) (ids : list Id) :
  Completion.one_row_per_key (student_submissions db) →
  (length (filter (λ s, sub_submission_type_id s = t)
                  (submissions_for db subject_id ids)) ≤ length ids)%nat.
Proof.
  intros Hkey. set (rows := filter _ (submissions_for db subject_id ids)).
  assert (∀ sub, sub ∈ rows →
            Completion.submission_key sub = (sub_student_id sub, subject_id, t)
            ∧ sub_student_id sub ∈ ids) as Hrows.
  { intros sub Hsub. apply list_elem_of_filter in Hsub as [Ht Hsub].
    apply list_elem_of_filter in Hsub as [[Hs Hin] _].
    unfold Completion.submission_key. by rewrite Hs, Ht. }
  assert (NoDup (sub_student_id <$> rows)) as Hnd.
  { apply (NoDup_fmap_1 (λ s : Id, (s, subject_id, t))).
    rewrite <- list_fmap_compose.
    erewrite list_fmap_ext.
    - eapply sublist_NoDup; [exact Hkey|].
      apply fmap_sublist. unfold rows, submissions_for.
      etrans; apply sublist_filter.
    - intros i sub Hsub. simpl. symmetry. apply Hrows. by eapply list_elem_of_lookup_2. }
  rewrite <- (length_fmap sub_student_id rows).
  apply submseteq_length, NoDup_submseteq; [done|].
  intros x Hx. apply list_elem_of_fmap in Hx as (sub & -> & Hsub). by apply Hrows.
Qed.

(** The entries of [typeStats] when the rows of each type are at most
    [totalStudents]. *)
Lemma typeStats_ok (submissionTypes : list SubmissionType) (submissions : list Submission)
    (totalStudents : nat) :
  (∀ t, (length (filter (λ s, sub_submission_type_id s = t) submissions)
         ≤ totalStudents)%nat) →
  map_Forall (λ _ stat, ts_total stat = totalStudents
                        ∧ (ts_completed stat + ts_pending stat ≤ ts_total stat)%nat
                        ∧ (0 ≤ ts_notStarted stat)%Z)
             (typeStats submissionTypes submissions totalStudents).
Proof.
  intros Hbound name stat Hstat. unfold typeStats in Hstat.
  apply rows_to_map_inv in Hstat as (type & _ & _ & <-).
  unfold type_stat. simpl.
  pose proof (exclusive_filters (λ s, sub_status s = "completed")
                (λ s, sub_status s = "pending")
                (filter (λ s, sub_submission_type_id s = st_id type) submissions)) as Hex.
  specialize (Hbound (st_id type)).
  assert (length (filter (λ s, sub_status s = "completed")
                    (filter (λ s, sub_submission_type_id s = st_id type) submissions))
          + length (filter (λ s, sub_status s = "pending")
                      (filter (λ s, sub_submission_type_id s = st_id type) submissions))
          ≤ totalStudents)%nat as Hle.
  { etrans; [apply Hex|exact Hbound]. intros s H1 H2. congruence. }
  split; [done|]. split; [done | lia].
Qed.

(** X23. With at most one student_submissions row per (student,
    subject, submission type), every entry of [GET /subject-statistics]
    has consistent counts for every submission type: the total is the
    entry's number of students, completed and pending together do not
    exceed it, and [notStarted], which the route computes as a
    difference, is never negative. *)
Theorem not_started_is_a_count (db : Db) (faculty_id : Id) :
  Completion.one_row_per_key (student_submissions db) →
  Forall (λ entry,
            map_Forall (λ _ stat,
                          ts_total stat = stat_totalStudents entry
                          ∧ (ts_completed stat + ts_pending stat ≤ ts_total stat)%nat
                          ∧ (0 ≤ ts_notStarted stat)%Z)
                       (submissionStats entry))
         (get_subject_statistics db faculty_id).
Proof.
  intros Hkey. unfold get_subject_statistics. apply Forall_app. split.
  - apply Forall_forall. intros entry Hentry.
    apply list_elem_of_omap in Hentry as (fs & _ & Hstat). unfold subject_stat in Hstat.
    destruct (Reconciler.joined_subject db fs) as [subject|]; [|done].
    injection Hstat as <-. simpl. apply typeStats_ok. intros t.
    destruct (s_id <$> filter (Reconciler.in_assignment fs) (students db))
      as [|i ids] eqn:E.
    + rewrite filter_nil. simpl. lia.
    + rewrite <- E, <- (length_fmap s_id (filter _ (students db))).
      by apply rows_of_type_bound.
  - apply Forall_forall. intros entry Hentry.
    apply list_elem_of_omap in Hentry as (subject & _ & Hstat). unfold elective_stat in Hstat.
    destruct (decide (length _ = 0%nat)); [done|].
    injection Hstat as <-. simpl. apply typeStats_ok. intros t.
    by apply rows_of_type_bound.
Qed.

Lemma not_started_is_a_count_witness :
  Completion.one_row_per_key (student_submissions MarkingExamples.lab_db)
  ∧ Forall (λ entry,
              map_Forall (λ _ stat,
                            ts_total stat = stat_totalStudents entry
                            ∧ (ts_completed stat + ts_pending stat ≤ ts_total stat)%nat
                            ∧ (0 ≤ ts_notStarted stat)%Z)
                         (submissionStats entry))
           (get_subject_statistics MarkingExamples.lab_db "f1").
Proof.
  assert (Completion.one_row_per_key (student_submissions MarkingExamples.lab_db)) as Hkey.
  { unfold Completion.one_row_per_key. by_evaluation. }
  split; [exact Hkey|].
  exact (not_started_is_a_count MarkingExamples.lab_db "f1" Hkey).
Defined.

End SubjectStatisticsFacts.


(** ** Creating and assigning a subject *)

Module AssignFacts.
Import Assign.

Lemma batch_rows_None (subject_id class_id : Id) (l : list BatchAssignment) :
  Exists (λ fa, fa_batch_id fa = None ∨ fa_faculty_id fa = None) l →
  batch_rows subject_id class_id l = None.
Proof.
  induction 1 as [fa l [Hb|Hf]|fa l _ IH]; simpl.
  - by rewrite Hb.
  - rewrite Hf. by destruct (fa_batch_id fa).
  - rewrite IH. by destruct (fa_batch_id fa), (fa_faculty_id fa).
Qed.

(** X24. A theory subject that was created and assigned can be marked
    at once by its faculty: when the store had no row for the new subject
    id, the first [POST /mark-submission] of the assigned faculty for the
    subject, with an existing type name and an allowed status, inserts the
    row and answers 201, for whatever student id it names. *)
Theorem assigned_faculty_can_mark (db : Db) (subject_id : Id) (body : Request) (db' : Db)
    (msg : string) (f student : Id) (type_name status : string)
    (subType : SubmissionType) :
  assign db subject_id body = (db', Success 201 msg) →
  type body = Some "theory" →
  faculty_id body = Some f →
  fresh db subject_id →
  Marking.types_named db type_name = [subType] →
  Marking.status_allowed status →
  Marking.mark_submission db' f (Marking.request student subject_id type_name status)
  = (Marking.insert_submission db'
       {| sub_student_id := student; sub_subject_id := subject_id;
          sub_submission_type_id := st_id subType; sub_status := status |},
     Success 201 (type_name ++ " submission marked as " ++ status ++ " successfully.")%string).
Proof.
  intros Ha Hty Hf [Hfs Hsub] Htypes Hstatus. revert Ha. unfold assign.
  rewrite Hty, Hf.
  destruct (class_id body) as [cid|]; [|done].
  destruct (subject_code body) as [code|]; [|done].
  destruct (subject_name body) as [name|]; [|done].
  destruct (Store.single _) as [classData|]; [|done].
  rewrite decide_False by (by intros [_ ?]).
  rewrite decide_False by (by intros [? _]).
  rewrite !decide_True by done. cbv zeta. intros [= <- _].
  unfold Marking.mark_submission. simpl. rewrite decide_True by done.
  assert (Selection.links
            (with_faculty_subjects
               (with_subjects db
                  (subjects db ++ [ {| subj_id := subject_id; subj_name := Some name;
                                       subj_code := Some code; subj_type := Some "theory";
                                       subj_class_id := Some cid |} ]))
               (faculty_subjects db
                ++ [ {| fs_faculty_id := f; fs_subject_id := Some subject_id;
                        fs_class_id := Some cid; fs_batch_id := None |} ]))
            f subject_id
          = [ {| fs_faculty_id := f; fs_subject_id := Some subject_id;
                 fs_class_id := Some cid; fs_batch_id := None |} ]) as Hlinks.
  { unfold Selection.links. simpl. rewrite filter_app.
    rewrite (proj2 (filter_nil_iff _ (faculty_subjects db))).
    - rewrite filter_cons, decide_True by done. done.
    - intros fs Hin [Hs _]. by apply (Hfs fs). }
  simpl in Hlinks. rewrite Hlinks. simpl.
  unfold Marking.types_named in *. simpl. rewrite Htypes. simpl.
  unfold Marking.rows_of. simpl.
  rewrite (proj2 (filter_nil_iff _ (student_submissions db))); [done|].
  intros sub Hin (_ & Hs & _). by apply (Hsub sub).
Qed.

Lemma assigned_faculty_can_mark_witness :
  Marking.mark_submission (assign MarkingExamples.lab_db "N" AssignExamples.theory).1 "f3"
    (Marking.request "s1" "N" "CIE" "completed")
  = (Marking.insert_submission (assign MarkingExamples.lab_db "N" AssignExamples.theory).1
       (Examples.submission "s1" "N" "t-cie" "completed"),
     Success 201 "CIE submission marked as completed successfully.").
Proof.
  apply (assigned_faculty_can_mark MarkingExamples.lab_db "N" AssignExamples.theory _
           "Theory subject created and assigned successfully." "f3" "s1" "CIE" "completed"
           {| st_id := "t-cie"; st_name := "CIE" |}).
  - reflexivity.
  - reflexivity.
  - reflexivity.
  - split.
    + intros fs Hfs. revert fs Hfs. apply Forall_forall. by_evaluation.
    + intros sub Hsub. revert sub Hsub. apply Forall_forall. by_evaluation.
  - reflexivity.
  - by_evaluation.
Defined.

(** X25. The route is not atomic: a practical request with an entry
    without a batch or a faculty is answered 400 after the subject was
    inserted, so the store keeps a new subject of the class with no
    assignment row. *)
Theorem failed_assign_keeps_subject (db : Db) (subject_id : Id) (body : Request)
    (cid : Id) (code name : string) (l : list BatchAssignment) :
  class_id body = Some cid →
  subject_code body = Some code →
  subject_name body = Some name →
  type body = Some "practical" →
  faculty_assignments body = Some l →
  is_Some (Store.single (filter (λ c, c_id c = cid) (classes db))) →
  Exists (λ fa, fa_batch_id fa = None ∨ fa_faculty_id fa = None) l →
  assign db subject_id body
  = (with_subjects db
       (subjects db ++ [ {| subj_id := subject_id; subj_name := Some name;
                            subj_code := Some code; subj_type := Some "practical";
                            subj_class_id := Some cid |} ]),
     Failure 400 "Each batch assignment must have batch_id and faculty_id.").
Proof.
  intros Hc Hcode Hname Hty Hl [classData Hclass] Hbad. unfold assign.
  rewrite Hc, Hcode, Hname, Hty, Hl, Hclass.
  rewrite decide_False by (by intros [? _]).
  rewrite decide_False by (by intros [_ ?]).
  rewrite decide_False by done. rewrite decide_True by done. simpl.
  by rewrite batch_rows_None.
Qed.

Lemma failed_assign_keeps_subject_witness :
  assign MarkingExamples.lab_db "N" AssignExamples.practical
  = (with_subjects MarkingExamples.lab_db
       (subjects MarkingExamples.lab_db
        ++ [ {| subj_id := "N"; subj_name := Some "Networks lab";
                subj_code := Some "NL1"; subj_type := Some "practical";
                subj_class_id := Some "c1" |} ]),
     Failure 400 "Each batch assignment must have batch_id and faculty_id.").
Proof.
  apply (failed_assign_keeps_subject MarkingExamples.lab_db "N" AssignExamples.practical
           "c1" "NL1" "Networks lab"
           [ {| fa_batch_id := Some "b1"; fa_faculty_id := Some "f3" |};
             {| fa_batch_id := Some "b2"; fa_faculty_id := None |} ]);
    try reflexivity.
  - by eexists.
  - apply Exists_cons_tl, Exists_cons_hd. by right.
Defined.

End AssignFacts.


(** ** The class teacher's update and the defaulter flag *)

Module UpdateFacts.
Import Selection.

Lemma students_with_selections (db : Db) (rows : list StudentSelection) :
  students (with_selections db rows) = students db.
Proof. done. Qed.

(** X26. The class teacher's update recomputes the defaulter flag from
    the request alone.  A successful [PUT /student/:id] that sends neither
    [defaulter] nor [attendance_percent] leaves the stored attendance as
    it is and stores the flag false, also for a student whose stored
    attendance is below 75. *)
Theorem update_without_attendance_clears_defaulter (db : Db) (classId id : Id)
    (body : UpdateRequest) (db' : Db) (msg : string) :
  update_student db (Some classId) id body = (db', Success 200 msg) →
  upd_defaulter body = None →
  upd_attendance_percent body = None →
  ∃ before after,
    filter (λ s, s_id s = id) (students db) = [before]
    ∧ filter (λ s, s_id s = id) (students db') = [after]
    ∧ s_defaulter after = false
    ∧ s_attendance_percent after = s_attendance_percent before.
Proof.
  intros Hu Hd Ha. revert Hu. unfold update_student.
  destruct (Store.single (filter _ (students db))) as [student|] eqn:Hs; [|done].
  apply single_Some in Hs.
  destruct (decide (s_class_id student ≠ Some classId)); [done|].
  set (db1 := with_students db _).
  assert (filter (λ s, s_id s = id) (students db1) = [update_student_row body student])
    as Hafter.
  { unfold db1. simpl. rewrite filter_fmap_preserved.
    - pose proof (filter_singleton _ _ _ Hs) as [_ Hid].
      rewrite Hs. cbn [fmap list_fmap]. by rewrite decide_True.
    - intros s. by destruct (decide (s_id s = id)). }
  assert (students db' = students db1 →
          ∃ before after,
            filter (λ s, s_id s = id) (students db) = [before]
            ∧ filter (λ s, s_id s = id) (students db') = [after]
            ∧ s_defaulter after = false
            ∧ s_attendance_percent after = s_attendance_percent before) as Hdone.
  { intros ->. exists student, (update_student_row body student).
    split; [done|]. split; [done|]. unfold update_student_row, finalDefaulter. simpl.
    by rewrite Hd, Ha. }
  destruct (upd_electiveSelections body) as [es|].
  - destruct (Store.maybeSingle (selection_of db1 id)) as [[existing|]|]; [| |done];
      intros [= <- _]; by apply Hdone.
  - intros [= <- _]. by apply Hdone.
Qed.

Lemma update_without_attendance_clears_defaulter_witness :
  ∃ before after,
    filter (λ s, s_id s = "s1") (students MoreExamples.low_attendance_db) = [before]
    ∧ filter (λ s, s_id s = "s1")
             (students (update_student MoreExamples.low_attendance_db (Some "c1") "s1"
                          MoreExamples.new_roll_no).1)
      = [after]
    ∧ s_defaulter after = false
    ∧ s_attendance_percent after = s_attendance_percent before.
Proof.
  apply (update_without_attendance_clears_defaulter MoreExamples.low_attendance_db "c1" "s1"
           MoreExamples.new_roll_no _ "Student updated successfully").
  - reflexivity.
  - reflexivity.
  - reflexivity.
Defined.

End UpdateFacts.

(** ** The year rollup's groups *)

Module YearGroupsFacts.
Import Rollup.

(** Among distinct values, exactly one equals a value of the list. *)
Lemma one_match (years : list Z) (y : Z) :
  NoDup years → y ∈ years →
  sum_list ((λ y', if decide (y = y') then 1%nat else 0%nat) <$> years) = 1%nat.
Proof.
  induction years as [|x l IH]; intros Hnd Hin; [by apply elem_of_nil in Hin|].
  apply NoDup_cons in Hnd as [Hx Hnd]. rewrite fmap_cons. simpl.
  destruct (decide (y = x)) as [->|Hne].
  - assert (sum_list ((λ y', if decide (x = y') then 1%nat else 0%nat) <$> l) = 0%nat)
      as ->; [|done].
    clear IH Hnd Hin. induction l as [|z l IH]; [done|].
    rewrite fmap_cons. simpl. rewrite not_elem_of_cons in Hx. destruct Hx as [Hz Hx].
    rewrite decide_False by done. by apply IH.
  - apply elem_of_cons in Hin as [?|Hin]; [done|]. by rewrite IH.
Qed.

(** The rows of a list, counted by a key with values among distinct
    [years], add up to the list. *)
Lemma count_by_year {A} (year : A → Z) (years : list Z) (l : list A) :
  NoDup years → (∀ x, x ∈ l → year x ∈ years) →
  sum_list ((λ y, length (filter (λ x, year x = y) l)) <$> years) = length l.
Proof.
  intros Hnd. induction l as [|x l IH]; intros Hl.
  - simpl. clear Hnd Hl. induction years as [|y ys IHy]; [done|].
    rewrite fmap_cons. simpl. apply IHy.
  - assert (∀ y, length (filter (λ x', year x' = y) (x :: l))
                 = ((if decide (year x = y) then 1 else 0)
                    + length (filter (λ x', year x' = y) l))%nat) as Hstep.
    { intros y. rewrite filter_cons. by destruct (decide (year x = y)). }
    erewrite list_fmap_ext; [|intros i y _; apply Hstep].
    assert (∀ (f g : Z → nat) (ys : list Z),
              sum_list ((λ y, (f y + g y)%nat) <$> ys)
              = (sum_list (f <$> ys) + sum_list (g <$> ys))%nat) as Hsum.
    { intros f g ys. induction ys as [|y ys IHy]; [done|].
      rewrite !fmap_cons. simpl. rewrite IHy. lia. }
    rewrite Hsum, one_match, IH; [done | | done |].
    + intros x' Hx'. apply Hl. by right.
    + apply Hl. left.
Qed.

(** X27. The year rollup counts every class of the department in
    exactly one year: the [classCount] figures of the years add up to the
    number of classes of the department. *)
Theorem year_groups_partition (db : Db) (department_id : Id)
    (stats : list (Z * ScopeStatistics)) :
  get_year_statistics db (Some department_id) = Success 200 stats →
  sum_list ((λ entry, classCount entry.2) <$> stats)
  = length (filter (λ c, c_department_id c = Some department_id) (classes db)).
Proof.
  unfold get_year_statistics. intros [= <-]. unfold yearGroups.
  rewrite <- !list_fmap_compose.
  set (dept := filter (λ c, c_department_id c = Some department_id) (classes db)).
  set (years := Js.uniq (merge_sort Z.le (c_year <$> dept))).
  erewrite list_fmap_ext.
  - apply (count_by_year c_year years dept).
    + apply uniq_NoDup.
    + intros c Hc. unfold years. rewrite uniq_elem_of, merge_sort_Permutation.
      by apply list_elem_of_fmap_2.
  - intros i y _. simpl.
    assert (classCount (scope_statistics db
              (c_id <$> filter (λ c, c_department_id c = Some department_id ∧ c_year c = y)
                               (classes db)))
            = length (c_id <$> filter (λ c, c_department_id c = Some department_id
                                             ∧ c_year c = y) (classes db))) as ->.
    { unfold scope_statistics. by destruct (decide _). }
    rewrite length_fmap. unfold dept. rewrite list_filter_filter. f_equal.
    apply list_filter_iff. tauto.
Qed.

Lemma year_groups_partition_witness :
  sum_list ((λ entry : Z * ScopeStatistics, classCount entry.2)
              <$> ((λ g : Z * list Id, (g.1, scope_statistics MoreExamples.two_years_db g.2))
                     <$> yearGroups MoreExamples.two_years_db "d1"))
  = length (filter (λ c, c_department_id c = Some "d1") (classes MoreExamples.two_years_db)).
Proof.
  apply (year_groups_partition MoreExamples.two_years_db "d1").
  reflexivity.
Defined.

End YearGroupsFacts.
